(** * nfcookiebot: credential parsing, validation and introspection

    A shallow embedding of the cookie checkers of the repository
    ([bot7.py], with its earlier iterations [bot.py] and [bot2.py], and the
    service-code bot [service.py]) and the properties the specification
    states about them.

    Conventions of the embedding.
    - A Python [str] is the list of its Unicode code points, [list N].
    - A [dict] is a finite map ([gmap]); equality of maps is equality of
      their entries, as [==] on Python dicts.
    - Code that can raise runs in the monad [py], whose [Raise] carries the
      exception class.
    - The regular expressions of the source are written as syntax trees and
      run by a backtracking matcher with the priorities of Python's [re]
      (leftmost start, greedy and lazy repetition, ordered alternatives). *)

From Stdlib Require Import String Ascii NArith ZArith Lia List Bool.
From Stdlib Require Import DecimalString.
From stdpp Require Import gmap list.

Local Open Scope N_scope.

(** ** Python strings *)

Module Py.

(** The text of a literal. *)
Definition str (s : string) : list N :=
  List.map N_of_ascii (list_ascii_of_string s).

(** The text of a literal in which every apostrophe stands for the double
    quote character (U+0022): [dq "'a'"] is the three characters ["a"]. *)
Definition dq (s : string) : list N :=
  List.map (fun c => if c =? 39 then 34 else c) (str s).

Arguments str s%_string.
Arguments dq s%_string.

Definition streq (a b : list N) : bool := bool_decide (a = b).

(** [str.isspace] of one character (Unicode 14, as [\s] of [re]). *)
Definition isspace (c : N) : bool :=
  ((9 <=? c) && (c <=? 13)) || ((28 <=? c) && (c <=? 32))
  || (c =? 133) || (c =? 160) || (c =? 5760)
  || ((8192 <=? c) && (c <=? 8202)) || (c =? 8232) || (c =? 8233)
  || (c =? 8239) || (c =? 8287) || (c =? 12288).

(** First code points of the runs of ten decimal digits (category Nd). *)
Definition decimal_blocks : list N :=
  [48; 1632; 1776; 1984; 2406; 2534; 2662; 2790; 2918; 3046; 3174; 3302;
   3430; 3558; 3664; 3792; 3872; 4160; 4240; 6112; 6160; 6470; 6608; 6784;
   6800; 6992; 7088; 7232; 7248; 42528; 43216; 43264; 43472; 43504; 43600;
   44016; 65296; 66720; 68912; 69734; 69872; 69942; 70096; 70384; 70736;
   70864; 71248; 71360; 71472; 71904; 72016; 72784; 73040; 73120; 92768;
   92864; 93008; 120782; 120792; 120802; 120812; 120822; 123200; 123632;
   125264; 130032].

(** The value of a decimal digit, [None] for any other character. *)
Definition decimal_value (c : N) : option N :=
  match List.find (fun b => (b <=? c) && (c <? b + 10)) decimal_blocks with
  | Some b => Some (c - b)
  | None => None
  end.

(** [\d] of [re], [str.isdecimal] of one character. *)
Definition isdecimal (c : N) : bool :=
  match decimal_value c with Some _ => true | None => false end.

Fixpoint lstrip (s : list N) : list N :=
  match s with
  | c :: s' => if isspace c then lstrip s' else s
  | [] => []
  end.

Definition rstrip (s : list N) : list N := rev (lstrip (rev s)).

Definition strip (s : list N) : list N := lstrip (rstrip s).

(** [s.rstrip(c)] for a string [c] of one character. *)
Fixpoint lstrip_char (c : N) (s : list N) : list N :=
  match s with
  | a :: s' => if a =? c then lstrip_char c s' else s
  | [] => []
  end.

Definition rstrip_char (c : N) (s : list N) : list N :=
  rev (lstrip_char c (rev s)).

Fixpoint startswith (s p : list N) {struct p} : bool :=
  match p with
  | [] => true
  | a :: p' =>
      match s with
      | b :: s' => (a =? b) && startswith s' p'
      | [] => false
      end
  end.

(** [sub in s] for two strings. *)
Fixpoint contains (sub s : list N) : bool :=
  startswith s sub || match s with [] => false | _ :: s' => contains sub s' end.

(** [s.split(sep)] for a separator of one character. *)
Fixpoint split (sep : N) (s : list N) : list (list N) :=
  match s with
  | [] => [[]]
  | c :: s' =>
      if c =? sep then [] :: split sep s'
      else match split sep s' with
           | w :: ws => (c :: w) :: ws
           | [] => [[c]]
           end
  end.

(** [s.split(sep, 1)] when [sep in s]: the text before the first separator
    and the text after it; [None] when there is no separator. *)
Fixpoint split1 (sep : N) (s : list N) : option (list N * list N) :=
  match s with
  | [] => None
  | c :: s' =>
      if c =? sep then Some ([], s')
      else match split1 sep s' with
           | Some (a, b) => Some (c :: a, b)
           | None => None
           end
  end.

(** [s.split()]: the maximal runs of characters that are not whitespace. *)
Fixpoint split_ws_aux (s cur : list N) : list (list N) :=
  match s with
  | [] => match cur with [] => [] | _ => [rev cur] end
  | c :: s' =>
      if isspace c
      then match cur with
           | [] => split_ws_aux s' []
           | _ => rev cur :: split_ws_aux s' []
           end
      else split_ws_aux s' (c :: cur)
  end.

Definition split_ws (s : list N) : list (list N) := split_ws_aux s [].

(** Line boundaries of [str.splitlines]. *)
Definition islinebreak (c : N) : bool :=
  ((10 <=? c) && (c <=? 13)) || ((28 <=? c) && (c <=? 30))
  || (c =? 133) || (c =? 8232) || (c =? 8233).

(** [s.splitlines()]: a carriage return followed by a line feed is one
    boundary, and a boundary at the very end opens no further line. *)
Fixpoint splitlines_aux (s cur : list N) : list (list N) :=
  match s with
  | [] => match cur with [] => [] | _ => [rev cur] end
  | c :: s' =>
      if islinebreak c
      then rev cur ::
           match s' with
           | d :: s'' => if (c =? 13) && (d =? 10)
                         then splitlines_aux s'' []
                         else splitlines_aux s' []
           | [] => []
           end
      else splitlines_aux s' (c :: cur)
  end.

Definition splitlines (s : list N) : list (list N) := splitlines_aux s [].

(** [s.replace(a, b)] for two strings of one character. *)
Definition replace1 (a b : N) (s : list N) : list N :=
  List.map (fun c => if c =? a then b else c) s.

(** [s.lower()] on the letters A to Z. The program compares the result with
    the ASCII word [json] and with the browse URL only, and on no text does
    the lowering of the characters outside ASCII change the outcome of these
    comparisons, so they are those of the source. *)
Definition lower_ascii (s : list N) : list N :=
  List.map (fun c => if (65 <=? c) && (c <=? 90) then c + 32 else c) s.

(** [int(s)] for a non-empty string of decimal digits. *)
Definition int_of_digits (s : list N) : option Z :=
  fold_left (fun acc c =>
               match acc, decimal_value c with
               | Some z, Some d => Some (10 * z + Z.of_N d)%Z
               | _, _ => None
               end) s (Some 0%Z).

End Py.

Import Py.

(** ** Exceptions *)

Inductive exn : Type :=
| IndexError
| TypeError
| AttributeError
| UnicodeDecodeError
| ValueError
| HTTPError
| PlaywrightTimeoutError
| Exception (msg : list N).

Inductive py (A : Type) : Type :=
| Return (a : A)
| Raise (e : exn).

Arguments Return {A} a.
Arguments Raise {A} e.

#[global] Instance py_ret : MRet py := fun _ a => Return a.

#[global] Instance py_bind : MBind py := fun _ _ f m =>
  match m with
  | Return a => f a
  | Raise e => Raise e
  end.

(** ** Regular expressions *)

Module Re.

(** The members of a character set: a character, a range, [\s], [\d]. *)
Inductive citem : Type :=
| CChar (c : N)
| CRange (lo hi : N)
| CSpace
| CDigit.

(** [.] with and without [re.DOTALL], [[...]] and [[^...]]. *)
Inductive cset : Type :=
| Any
| AnyButNewline
| OneOf (items : list citem)
| NoneOf (items : list citem).

Inductive regex : Type :=
| Eps
| Chr (cs : cset)
| Seq (r1 r2 : regex)
| Alt (r1 r2 : regex)
| Star (greedy : bool) (r : regex)
| Group (n : nat) (r : regex).

Definition item_has (c : N) (i : citem) : bool :=
  match i with
  | CChar d => c =? d
  | CRange lo hi => (lo <=? c) && (c <=? hi)
  | CSpace => isspace c
  | CDigit => isdecimal c
  end.

Definition accepts (cs : cset) (c : N) : bool :=
  match cs with
  | Any => true
  | AnyButNewline => negb (c =? 10)
  | OneOf items => existsb (item_has c) items
  | NoneOf items => negb (existsb (item_has c) items)
  end.

(** Captured groups, most recent first. *)
Definition caps : Type := list (nat * list N).

Fixpoint cap_get (n : nat) (c : caps) : option (list N) :=
  match c with
  | [] => None
  | (m, w) :: c' => if Nat.eqb n m then Some w else cap_get n c'
  end.

Section Matcher.
Context {R : Type}.

(** The repetition of [body]: a greedy one tries one more round before it
    hands over to the continuation [k], a lazy one after. A round must
    consume; [fuel] bounds the number of rounds by the length of the
    subject. *)
Fixpoint star_loop (g : bool)
    (body : (list N -> caps -> option R) -> list N -> caps -> option R)
    (k : list N -> caps -> option R)
    (fuel : nat) (s : list N) (c : caps) {struct fuel} : option R :=
  match fuel with
  | O => k s c
  | S fuel' =>
      let round :=
        body (fun s' c' => if Nat.ltb (length s') (length s)
                           then star_loop g body k fuel' s' c' else None) in
      if g then
        match round s c with
        | Some x => Some x
        | None => k s c
        end
      else
        match k s c with
        | Some x => Some x
        | None => round s c
        end
  end.

(** [rmatch r k s c] matches [r] at the head of [s] and hands the rest of
    the subject and the groups to the continuation [k]; when [k] refuses,
    the matcher backtracks into [r]. *)
Fixpoint rmatch (r : regex) (k : list N -> caps -> option R)
    (s : list N) (c : caps) {struct r} : option R :=
  match r with
  | Eps => k s c
  | Chr cs =>
      match s with
      | a :: s' => if accepts cs a then k s' c else None
      | [] => None
      end
  | Seq r1 r2 => rmatch r1 (rmatch r2 k) s c
  | Alt r1 r2 =>
      match rmatch r1 k s c with
      | Some x => Some x
      | None => rmatch r2 k s c
      end
  | Star g r1 => star_loop g (rmatch r1) k (length s) s c
  | Group n r1 =>
      rmatch r1
        (fun s' c' => k s' ((n, take (length s - length s') s) :: c')) s c
  end.
End Matcher.

(** A match object: its text, the subject after it and its groups. *)
Record rematch : Type := {
  m_text : list N;
  m_rest : list N;
  m_caps : caps
}.

Definition match_here (r : regex) (s : list N) : option (list N * caps) :=
  rmatch r (fun s' c => Some (s', c)) s [].

(** [re.search]: the match at the leftmost position that has one. *)
Fixpoint search (r : regex) (s : list N) : option rematch :=
  match match_here r s with
  | Some (s', c) =>
      Some {| m_text := take (length s - length s') s;
              m_rest := s'; m_caps := c |}
  | None =>
      match s with
      | [] => None
      | _ :: s' => search r s'
      end
  end.

(** [re.finditer]: the successive matches, each searched in the subject
    after the previous one. No pattern of the program matches the empty
    string; after an empty match the scan moves on by one character. *)
Fixpoint finditer_fuel (fuel : nat) (r : regex) (s : list N) : list rematch :=
  match fuel with
  | O => []
  | S fuel' =>
      match search r s with
      | None => []
      | Some m =>
          m :: match m_text m with
               | [] => match m_rest m with
                       | [] => []
                       | _ :: s' => finditer_fuel fuel' r s'
                       end
               | _ :: _ => finditer_fuel fuel' r (m_rest m)
               end
      end
  end.

Definition finditer (r : regex) (s : list N) : list rematch :=
  finditer_fuel (S (length s)) r s.

(** The number of groups of a pattern. *)
Fixpoint ngroups (r : regex) : nat :=
  match r with
  | Eps | Chr _ => 0
  | Seq r1 r2 | Alt r1 r2 => Nat.max (ngroups r1) (ngroups r2)
  | Star _ r1 => ngroups r1
  | Group n r1 => Nat.max n (ngroups r1)
  end.

(** [m.group(i)]: [IndexError] when the pattern has no group [i], [None]
    when the group took no part in the match. *)
Definition group (r : regex) (m : rematch) (i : nat) : py (option (list N)) :=
  match i with
  | O => Return (Some (m_text m))
  | S _ => if Nat.leb i (ngroups r) then Return (cap_get i (m_caps m))
           else Raise IndexError
  end.

(** Pattern syntax: a literal text, [r+], [r*], [r*?], [r{2}], [\s*], [\d],
    a sequence. *)
Definition chr (c : N) : regex := Chr (OneOf [CChar c]).
Definition lit (w : list N) : regex :=
  fold_right (fun c r => Seq (chr c) r) Eps w.
Definition plus (r : regex) : regex := Seq r (Star true r).
Definition star (r : regex) : regex := Star true r.
Definition lazy_star (r : regex) : regex := Star false r.
Definition twice (r : regex) : regex := Seq r r.
Definition ws : regex := star (Chr (OneOf [CSpace])).
Definition digit : regex := Chr (OneOf [CDigit]).

Fixpoint seqs (rs : list regex) : regex :=
  match rs with
  | [] => Eps
  | [r] => r
  | r :: rs' => Seq r (seqs rs')
  end.

(** The matches of a pattern, without the order of the search:
    [matches r w c c'] when [r] can match the text [w] and take the groups
    from [c] to [c']. *)
Inductive matches : regex -> list N -> caps -> caps -> Prop :=
| M_eps c : matches Eps [] c c
| M_chr cs a c : accepts cs a = true -> matches (Chr cs) [a] c c
| M_seq r1 r2 w1 w2 c c1 c2 :
    matches r1 w1 c c1 -> matches r2 w2 c1 c2 ->
    matches (Seq r1 r2) (w1 ++ w2) c c2
| M_alt_l r1 r2 w c c' : matches r1 w c c' -> matches (Alt r1 r2) w c c'
| M_alt_r r1 r2 w c c' : matches r2 w c c' -> matches (Alt r1 r2) w c c'
| M_star_nil g r c : matches (Star g r) [] c c
| M_star_cons g r w1 w2 c c1 c2 :
    matches r w1 c c1 -> matches (Star g r) w2 c1 c2 ->
    matches (Star g r) (w1 ++ w2) c c2
| M_group n r w c c' :
    matches r w c c' -> matches (Group n r) w c ((n, w) :: c').

(** A pattern without groups. *)
Fixpoint nogroup (r : regex) : bool :=
  match r with
  | Eps | Chr _ => true
  | Seq r1 r2 | Alt r1 r2 => nogroup r1 && nogroup r2
  | Star _ r1 => nogroup r1
  | Group _ _ => false
  end.

End Re.

(** ** JSON decoding

    [json.loads] of the standard library, after CPython's decoder: values,
    strings with their escapes and surrogate pairs, numbers, the constants
    [NaN], [Infinity] and [-Infinity]; every malformed text is a
    [JSONDecodeError] ([None]). A float is kept as its literal. The limits of
    the interpreter (recursion depth, length of an integer literal) are not
    part of the model. *)

Module Json.

#[warnings="-register-all"]
Inductive json : Type :=
| JNull
| JBool (b : bool)
| JInt (z : Z)
| JFloat (lit : list N)
| JStr (s : list N)
| JArr (items : list json)
| JObj (members : list (list N * json)).

Definition is_ws (c : N) : bool :=
  (c =? 32) || (c =? 9) || (c =? 10) || (c =? 13).

Fixpoint skip_ws (s : list N) : list N :=
  match s with
  | c :: s' => if is_ws c then skip_ws s' else s
  | [] => []
  end.

Definition hexval (c : N) : option N :=
  if (48 <=? c) && (c <=? 57) then Some (c - 48)
  else if (97 <=? c) && (c <=? 102) then Some (c - 87)
  else if (65 <=? c) && (c <=? 70) then Some (c - 55)
  else None.

Definition hex4 (a b c d : N) : option N :=
  match hexval a, hexval b, hexval c, hexval d with
  | Some x, Some y, Some z, Some w => Some (((x * 16 + y) * 16 + z) * 16 + w)
  | _, _, _, _ => None
  end.

(** The character of a one-letter escape. *)
Definition unescape (c : N) : option N :=
  if c =? 34 then Some 34 else if c =? 92 then Some 92
  else if c =? 47 then Some 47 else if c =? 98 then Some 8
  else if c =? 102 then Some 12 else if c =? 110 then Some 10
  else if c =? 114 then Some 13 else if c =? 116 then Some 9
  else None.

Definition is_high (u : N) : bool := (55296 <=? u) && (u <=? 56319).
Definition is_low (u : N) : bool := (56320 <=? u) && (u <=? 57343).
Definition join_surrogates (hi lo : N) : N :=
  65536 + ((hi - 55296) * 1024 + (lo - 56320)).

(** The body of a string, after its opening quote: the decoded text and the
    subject after the closing quote. Control characters are refused. *)
Fixpoint scanstring (s acc : list N) : option (list N * list N) :=
  match s with
  | [] => None
  | c :: t =>
      if c =? 34 then Some (rev acc, t)
      else if c =? 92 then
        match t with
        | [] => None
        | e :: t1 =>
            if e =? 117 then
              match t1 with
              | h1 :: h2 :: h3 :: h4 :: t2 =>
                  match hex4 h1 h2 h3 h4 with
                  | None => None
                  | Some u =>
                      match t2 with
                      | b :: v :: t3 =>
                          if is_high u && (b =? 92) && (v =? 117) then
                            match t3 with
                            | g1 :: g2 :: g3 :: g4 :: t4 =>
                                match hex4 g1 g2 g3 g4 with
                                | None => None
                                | Some u2 =>
                                    if is_low u2
                                    then scanstring t4
                                           (join_surrogates u u2 :: acc)
                                    else scanstring t2 (u :: acc)
                                end
                            | _ => None
                            end
                          else scanstring t2 (u :: acc)
                      | _ => scanstring t2 (u :: acc)
                      end
                  end
              | _ => None
              end
            else
              match unescape e with
              | Some x => scanstring t1 (x :: acc)
              | None => None
              end
        end
      else if c <? 32 then None
      else scanstring t (c :: acc)
  end.

Definition isdigit (c : N) : bool := (48 <=? c) && (c <=? 57).

Fixpoint span_digits (s : list N) : list N * list N :=
  match s with
  | c :: t => if isdigit c
              then let '(ds, r) := span_digits t in (c :: ds, r)
              else ([], s)
  | [] => ([], [])
  end.

Definition digits_value (ds : list N) : Z :=
  fold_left (fun acc c => (10 * acc + Z.of_N (c - 48))%Z) ds 0%Z.

(** The integer part of a number: a single zero, or a digit from one to
    nine followed by digits. *)
Definition scan_int (s : list N) : option (list N * list N) :=
  match s with
  | c :: t =>
      if c =? 48 then Some ([c], t)
      else if isdigit c then let '(ds, r) := span_digits t in Some (c :: ds, r)
      else None
  | [] => None
  end.

(** The fraction, [.] and at least one digit, when there is one. *)
Definition scan_frac (s : list N) : list N * list N :=
  match s with
  | c :: t =>
      if c =? 46 then
        match span_digits t with
        | ([], _) => ([], s)
        | (ds, r) => (c :: ds, r)
        end
      else ([], s)
  | [] => ([], [])
  end.

(** The exponent, [e] or [E], a sign or none, at least one digit. *)
Definition scan_exp (s : list N) : list N * list N :=
  match s with
  | c :: t =>
      if (c =? 101) || (c =? 69) then
        match t with
        | g :: t' =>
            if (g =? 43) || (g =? 45) then
              match span_digits t' with
              | ([], _) => ([], s)
              | (ds, r) => (c :: g :: ds, r)
              end
            else
              match span_digits t with
              | ([], _) => ([], s)
              | (ds, r) => (c :: ds, r)
              end
        | [] => ([], s)
        end
      else ([], s)
  | [] => ([], [])
  end.

Definition scan_number (s : list N) : option (json * list N) :=
  let '(sign, s1) :=
    match s with
    | c :: t => if c =? 45 then ([c], t) else ([], s)
    | [] => ([], s)
    end in
  match scan_int s1 with
  | None => None
  | Some (ds, r1) =>
      let '(fr, r2) := scan_frac r1 in
      let '(ex, r3) := scan_exp r2 in
      match fr, ex with
      | [], [] =>
          Some (JInt (match sign with
                      | [] => digits_value ds
                      | _ => - digits_value ds
                      end)%Z, r1)
      | _, _ => Some (JFloat (sign ++ ds ++ fr ++ ex), r3)
      end
  end.

Definition keyword (w : list N) (v : json) (s : list N)
  : option (json * list N) :=
  if startswith s w then Some (v, drop (length w) s) else None.

(** One value at the head of the subject. [scan_items] reads the elements of
    an array after its first, [scan_members] the members of an object from
    the opening quote of a key on. *)
Fixpoint scan_once (fuel : nat) (s : list N) : option (json * list N) :=
  match fuel with
  | O => None
  | S fuel' =>
      match s with
      | [] => None
      | c :: t =>
          if c =? 34 then
            match scanstring t [] with
            | Some (w, r) => Some (JStr w, r)
            | None => None
            end
          else if c =? 123 then
            match skip_ws t with
            | d :: t' =>
                if d =? 125 then Some (JObj [], t')
                else if d =? 34 then scan_members fuel' t' []
                else None
            | [] => None
            end
          else if c =? 91 then
            match skip_ws t with
            | d :: t' =>
                if d =? 93 then Some (JArr [], t')
                else scan_items fuel' (d :: t') []
            | [] => None
            end
          else if c =? 110 then keyword (str "null") JNull s
          else if c =? 116 then keyword (str "true") (JBool true) s
          else if c =? 102 then keyword (str "false") (JBool false) s
          else if c =? 78 then keyword (str "NaN") (JFloat (str "NaN")) s
          else if c =? 73
          then keyword (str "Infinity") (JFloat (str "Infinity")) s
          else if startswith s (str "-Infinity")
          then keyword (str "-Infinity") (JFloat (str "-Infinity")) s
          else scan_number s
      end
  end
with scan_items (fuel : nat) (s : list N) (acc : list json)
  : option (json * list N) :=
  match fuel with
  | O => None
  | S fuel' =>
      match scan_once fuel' s with
      | None => None
      | Some (v, r) =>
          match skip_ws r with
          | d :: t =>
              if d =? 93 then Some (JArr (rev (v :: acc)), t)
              else if d =? 44 then scan_items fuel' (skip_ws t) (v :: acc)
              else None
          | [] => None
          end
      end
  end
with scan_members (fuel : nat) (s : list N) (acc : list (list N * json))
  : option (json * list N) :=
  match fuel with
  | O => None
  | S fuel' =>
      match scanstring s [] with
      | None => None
      | Some (key, r) =>
          match skip_ws r with
          | d :: t =>
              if d =? 58 then
                match scan_once fuel' (skip_ws t) with
                | None => None
                | Some (v, r') =>
                    match skip_ws r' with
                    | e :: t' =>
                        if e =? 125
                        then Some (JObj (rev ((key, v) :: acc)), t')
                        else if e =? 44 then
                          match skip_ws t' with
                          | q :: t'' =>
                              if q =? 34
                              then scan_members fuel' t'' ((key, v) :: acc)
                              else None
                          | [] => None
                          end
                        else None
                    | [] => None
                    end
                end
              else None
          | [] => None
          end
      end
  end.

(** [json.loads(s)]: one value between optional whitespace, nothing after
    it; a leading byte order mark is refused. [None] is [JSONDecodeError]. *)
Definition loads (s : list N) : option json :=
  match s with
  | 65279 :: _ => None
  | _ =>
      match scan_once (2 * length s + 2) (skip_ws s) with
      | Some (v, r) => match skip_ws r with [] => Some v | _ :: _ => None end
      | None => None
      end
  end.

(** [d[key]] and [key in d] on a decoded object: of two members with one
    key the later stands. *)
Fixpoint member (key : list N) (ms : list (list N * json)) : option json :=
  match ms with
  | [] => None
  | (k, v) :: ms' =>
      match member key ms' with
      | Some v' => Some v'
      | None => if streq k key then Some v else None
      end
  end.

End Json.

Import Json.

(** ** Dictionaries of cookies

    The keys of a Python dict are hashable values: of the decoded JSON
    values, the strings, the numbers, the booleans and [None]. [True] and
    [False] are the keys [1] and [0]. A float key is kept as its literal:
    the model does not identify two literals of one float, nor a float with
    the integer it equals. The values are arbitrary decoded values; [None]
    is [JNull]. *)

Inductive pykey : Type :=
| KStr (s : list N)
| KInt (z : Z)
| KFloat (lit : list N)
| KNone.

#[global] Instance pykey_eq_dec : EqDecision pykey.
Proof. solve_decision. Defined.

#[global] Instance pykey_countable : Countable pykey.
Proof.
  refine (inj_countable'
    (fun k => match k with
              | KStr s => inl (inl s)
              | KInt z => inl (inr z)
              | KFloat l => inr (inl l)
              | KNone => inr (inr ())
              end)
    (fun x => match x with
              | inl (inl s) => KStr s
              | inl (inr z) => KInt z
              | inr (inl l) => KFloat l
              | inr (inr _) => KNone
              end) _).
  intros []; reflexivity.
Defined.

Abbreviation dict := (gmap pykey json).

(** [hash(v)], that is the use of [v] as a key: lists and dicts are
    unhashable. *)
Definition hash_key (v : json) : py pykey :=
  match v with
  | JStr s => Return (KStr s)
  | JInt z => Return (KInt z)
  | JBool b => Return (KInt (if b then 1 else 0))
  | JFloat l => Return (KFloat l)
  | JNull => Return KNone
  | JArr _ | JObj _ => Raise TypeError
  end.

(** The value of a group as a Python value. *)
Definition of_group (g : option (list N)) : json :=
  match g with Some w => JStr w | None => JNull end.

(** [bool(d)] of a dict. *)
Definition truthy (d : dict) : bool := negb (bool_decide (d = ∅)).

(** ** Requests *)

Module Http.

(** A response after all redirects: [resp.status_code], [str(resp.url)],
    [resp.text]. *)
Record response : Type := {
  status_code : Z;
  url : list N;
  text : list N
}.

(** The network as one client sees it: a GET of a URL with the cookies of
    the client's jar gives the final response and the jar after it, or
    raises (for a transport failure, [httpx.HTTPError] or the like). *)
Record network : Type := {
  get : list N -> dict -> py (response * dict)
}.

End Http.

(** ** The cookie checker, [bot7.py] *)

Module Bot7.

(** [[^\s;]] *)
Definition value_chars : Re.cset := Re.NoneOf [Re.CSpace; Re.CChar 59].

(** [NetflixId=([^\s;]+)] *)
Definition netflix_re : Re.regex :=
  Re.Seq (Re.lit (str "NetflixId="))
         (Re.Group 1 (Re.plus (Re.Chr value_chars))).

(** [SecureNetflixId=([^\s;]+)] *)
Definition secure_re : Re.regex :=
  Re.Seq (Re.lit (str "SecureNetflixId="))
         (Re.Group 1 (Re.plus (Re.Chr value_chars))).

(** Each of the five blocks of [parse_cookies] either returns a dict to the
    caller ([Some]), or falls through to the block after it ([None]), or
    raises. *)

(** 1) anywhere NetflixId & SecureNetflixId appear? *)
Definition direct_scan (file_content : list N) : py (option dict) :=
  match Re.search netflix_re file_content, Re.search secure_re file_content with
  | Some netflix_match, Some secure_match =>
      n ← Re.group netflix_re netflix_match 1;
      s ← Re.group secure_re secure_match 1;
      mret (Some (<[KStr (str "SecureNetflixId") := of_group s]>
                    {[KStr (str "NetflixId") := of_group n]}))
  | _, _ => mret None
  end.

(** The comprehension
    [{c['name']: c['value'] for c in arr
      if isinstance(c, dict) and 'name' in c and 'value' in c}]. *)
Fixpoint cookie_dict (arr : list json) (acc : dict) : py dict :=
  match arr with
  | [] => mret acc
  | JObj ms :: arr' =>
      match member (str "name") ms, member (str "value") ms with
      | Some n, Some v => k ← hash_key n; cookie_dict arr' (<[k := v]> acc)
      | _, _ => cookie_dict arr' acc
      end
  | _ :: arr' => cookie_dict arr' acc
  end.

(** 2) JSON array? The [try] catches [json.JSONDecodeError] only. *)
Definition json_array (file_content file_type : list N) : py (option dict) :=
  if streq (lower_ascii file_type) (str "json")
     || startswith (lstrip file_content) (str "[")
  then match loads file_content with
       | Some (JArr arr) => d ← cookie_dict arr ∅; mret (Some d)
       | Some _ => mret None
       | None => mret None
       end
  else mret None.

(** The body of the loops over [name=value] segments; [trim] says whether
    the name and the value are stripped. *)
Definition add_pair (trim : bool) (cookies : dict) (part : list N) : dict :=
  let part := strip part in
  match split1 61 part with
  | Some (name, value) =>
      if trim then <[KStr (strip name) := JStr (strip value)]> cookies
      else <[KStr name := JStr value]> cookies
  | None => cookies
  end.

(** 3) pipe-separated NetflixId / SecureNetflixId? *)
Definition pipe_separated (file_content : list N) : py (option dict) :=
  if contains (str "|") file_content
     && contains (str "NetflixId") file_content
     && contains (str "SecureNetflixId") file_content
  then
    let cookies := fold_left (add_pair true) (split 124 file_content) ∅ in
    if bool_decide (is_Some (cookies !! KStr (str "NetflixId")))
       && bool_decide (is_Some (cookies !! KStr (str "SecureNetflixId")))
    then mret (Some cookies)
    else mret None
  else mret None.

(** The body of the loop over the lines of a Netscape cookie file. *)
Definition add_line (cookies : dict) (line : list N) : dict :=
  let line := strip line in
  if bool_decide (line = [])
     || (startswith line (str "#")
         && negb (startswith line (str "#HttpOnly_")))
  then cookies
  else
    let line := if startswith line (str "#HttpOnly_")
                then drop (length (str "#HttpOnly_")) line else line in
    let parts := split 9 line in
    let parts := if Nat.ltb (length parts) 7 then split_ws line else parts in
    match parts !! 5%nat, parts !! 6%nat with
    | Some name, Some value => <[KStr name := JStr value]> cookies
    | _, _ => cookies
    end.

(** 4) Netscape-style cookie lines? *)
Definition netscape (file_content : list N) : py (option dict) :=
  let cookies := fold_left add_line (splitlines file_content) ∅ in
  if truthy cookies then mret (Some cookies) else mret None.

(** 5) semicolon-separated pairs? This block returns in every case. *)
Definition semicolon_pairs (file_content : list N) : dict :=
  fold_left (add_pair false) (split 59 file_content) ∅.

(** A block, and after it the rest of the function when the block falls
    through. *)
Definition or_else (block : py (option dict)) (rest : py dict) : py dict :=
  r ← block; match r with Some d => mret d | None => rest end.

Definition parse_cookies (file_content file_type : list N) : py dict :=
  or_else (direct_scan file_content)
  (or_else (json_array file_content file_type)
  (or_else (pipe_separated file_content)
  (or_else (netscape file_content)
  (mret (semicolon_pairs file_content))))).

(** *** The session check *)

Definition root_url : list N := str "https://www.netflix.com".
Definition account_url : list N := str "https://www.netflix.com/account".

(** [{k: v for k, v in cookies.items()
      if k in ("NetflixId", "SecureNetflixId")}] *)
Definition session_cookies (cookies : dict) : dict :=
  filter (fun kv => kv.1 = KStr (str "NetflixId")
                    \/ kv.1 = KStr (str "SecureNetflixId")) cookies.

(** The two requests of the client and the verdict [(valid, html)]; the
    [try] catches [httpx.HTTPError] only. *)
Definition validate (net : Http.network) (jar : dict) : py (bool * list N) :=
  match '(_, jar1) ← Http.get net root_url jar; Http.get net account_url jar1 with
  | Return (resp, _) => mret (startswith (Http.url resp) account_url, Http.text resp)
  | Raise HTTPError => mret (false, [])
  | Raise e => Raise e
  end.

(** *** The account information *)

(** What the block takes from outside the repository. *)
Record library : Type := {
  (** [s.upper()] and [s.title()] *)
  upper : list N -> list N;
  title : list N -> list N;
  (** [bytes(s, 'utf-8').decode('unicode_escape')] *)
  unicode_escape : list N -> py (list N);
  (** [pycountry.countries.get(alpha_2=code).name] *)
  country_name : list N -> py (list N);
  (** [langcodes.Language.get(code).display_name()] *)
  display_name : list N -> py (list N);
  (** [datetime.fromtimestamp(ms / 1000.0, tz=timezone.utc)
       .strftime('%b %-d, %Y at %H:%M:%S UTC')] *)
  signup_text : Z -> py (list N)
}.

(** In the comments below a pattern of the source is written with an
    apostrophe for each double quote, as in the literals of [dq]. *)

(** [s.capitalize()] on ASCII letters; the program capitalizes the words
    [true] and [false] only. *)
Definition capitalize (s : list N) : list N :=
  match s with
  | [] => []
  | c :: s' => (if (97 <=? c) && (c <=? 122) then c - 32 else c)
               :: lower_ascii s'
  end.

(** A method called on the text of a group: on [None] it raises. *)
Definition the_text (g : option (list N)) : py (list N) :=
  match g with Some w => mret w | None => Raise AttributeError end.

Definition t (s : string) : Re.regex := Re.lit (dq s).
Definition but (c : N) : Re.cset := Re.NoneOf [Re.CChar c].
Definition true_or_false : Re.regex := Re.Alt (t "true") (t "false").

(** ['thirdPartyBillingPartner'\s*:\s*{[^}]*'value'\s*:\s*(true|false)] *)
Definition third_party_re : Re.regex :=
  Re.seqs [t "'thirdPartyBillingPartner'"; Re.ws; t ":"; Re.ws; t "{";
           Re.star (Re.Chr (but 125)); t "'value'"; Re.ws; t ":"; Re.ws;
           Re.Group 1 true_or_false].

(** ['paymentMethod'\s*:\s*{[^}]*'value'\s*:\s*'([^' ]+)'] *)
Definition payment_method_re : Re.regex :=
  Re.seqs [t "'paymentMethod'"; Re.ws; t ":"; Re.ws; t "{";
           Re.star (Re.Chr (but 125)); t "'value'"; Re.ws; t ":"; Re.ws;
           t "'"; Re.Group 1 (Re.plus (Re.Chr (Re.NoneOf [Re.CChar 34; Re.CChar 32])));
           t "'"].

(** ['paymentMethods'\s*:\s*{.*?'value'\s*:\s*\[\s*{]
    [.*?'paymentMethod'\s*:\s*{[^}]*?'value'\s*:\s*'([^' ]+)'[^}]*}]
    [.*?'displayText'\s*:\s*{[^}]*?'value'\s*:\s*'([^\']+)'], with
    [re.DOTALL]. *)
Definition payment_methods_re : Re.regex :=
  Re.seqs [t "'paymentMethods'"; Re.ws; t ":"; Re.ws; t "{";
           Re.lazy_star (Re.Chr Re.Any); t "'value'"; Re.ws; t ":"; Re.ws;
           t "["; Re.ws; t "{";
           Re.lazy_star (Re.Chr Re.Any); t "'paymentMethod'"; Re.ws; t ":";
           Re.ws; t "{"; Re.lazy_star (Re.Chr (but 125)); t "'value'"; Re.ws;
           t ":"; Re.ws; t "'";
           Re.Group 1 (Re.plus (Re.Chr (Re.NoneOf [Re.CChar 34; Re.CChar 32])));
           t "'"; Re.star (Re.Chr (but 125)); t "}";
           Re.lazy_star (Re.Chr Re.Any); t "'displayText'"; Re.ws; t ":";
           Re.ws; t "{"; Re.lazy_star (Re.Chr (but 125)); t "'value'"; Re.ws;
           t ":"; Re.ws; t "'"; Re.Group 2 (Re.plus (Re.Chr (but 34))); t "'"].

(** ['type'\s*:\s*{[^}]*?'value'\s*:\s*'([^' ]+)'] *)
Definition type_re : Re.regex :=
  Re.seqs [t "'type'"; Re.ws; t ":"; Re.ws; t "{";
           Re.lazy_star (Re.Chr (but 125)); t "'value'"; Re.ws; t ":"; Re.ws;
           t "'"; Re.Group 1 (Re.plus (Re.Chr (Re.NoneOf [Re.CChar 34; Re.CChar 32])));
           t "'"].

Definition extract_netflix_account_info (L : library) (html : list N)
  : py (option (list N)) :=
  third ←
    match Re.search third_party_re html with
    | Some tp =>
        g ← Re.group third_party_re tp 1; w ← the_text g;
        if streq (lower_ascii w) (str "true") then
          match Re.search payment_method_re html with
          | Some pm =>
              g ← Re.group payment_method_re pm 1; w ← the_text g;
              let method := upper L (replace1 95 32 w) in
              mret (Some (str "Account info" ++ [10]
                          ++ str "Billed: Third party" ++ [10]
                          ++ str "Using: " ++ method))
          | None => mret None
          end
        else mret None
    | None => mret None
    end;
  match third with
  | Some info => mret (Some info)
  | None =>
      match Re.search payment_methods_re html with
      | Some pm =>
          g1 ← Re.group payment_methods_re pm 1;
          g2 ← Re.group payment_methods_re pm 2;
          type_raw ←
            match Re.search type_re html with
            | Some type_m => Re.group type_re type_m 1
            | None => mret g1
            end;
          pm_raw ← the_text g1;
          let method := upper L (replace1 95 32 pm_raw) in
          display_raw ← the_text g2;
          decoded ← unicode_escape L display_raw;
          let display := replace1 42 8226 decoded in
          type_raw ← the_text type_raw;
          let using_text := upper L (replace1 95 32 type_raw) ++ [32] ++ display in
          mret (Some (str "Account info" ++ [10]
                      ++ str "Billed: " ++ method ++ [10]
                      ++ str "Using: " ++ using_text))
      | None => mret None
      end
  end.

(** ['canChangePlan':\s*{\s*'fieldType':\s*'.*?'\s*,\s*'value'\s*:\s*(true|false)}] *)
Definition can_change_plan_re : Re.regex :=
  Re.seqs [t "'canChangePlan':"; Re.ws; t "{"; Re.ws; t "'fieldType':";
           Re.ws; t "'"; Re.lazy_star (Re.Chr Re.AnyButNewline); t "'"; Re.ws;
           t ","; Re.ws; t "'value'"; Re.ws; t ":"; Re.ws;
           Re.Group 1 true_or_false; t "}"].

(** ['isUserOnHold'\s*:\s*(true|false)] *)
Definition hold_re : Re.regex :=
  Re.seqs [t "'isUserOnHold'"; Re.ws; t ":"; Re.ws; Re.Group 1 true_or_false].

(** ['key'\s*:\s*{[^}]*'value'\s*:\s*'([^']+)'], the pattern of
    [localizedPlanName] and of [nextBillingDate]. *)
Definition value_field_re (key : string) : Re.regex :=
  Re.seqs [t key; Re.ws; t ":"; Re.ws; t "{"; Re.star (Re.Chr (but 125));
           t "'value'"; Re.ws; t ":"; Re.ws; t "'";
           Re.Group 1 (Re.plus (Re.Chr (but 34))); t "'"].

Definition plan_re : Re.regex := value_field_re "'localizedPlanName'".
Definition next_billing_re : Re.regex := value_field_re "'nextBillingDate'".

(** ['membershipStatus'\s*:\s*'([^']+)'] *)
Definition membership_re : Re.regex :=
  Re.seqs [t "'membershipStatus'"; Re.ws; t ":"; Re.ws; t "'";
           Re.Group 1 (Re.plus (Re.Chr (but 34))); t "'"].

(** ['countryOfSignup'\s*:\s*'[A-Z]{2}']: the two letters are in no
    group. *)
Definition country_re : Re.regex :=
  Re.seqs [t "'countryOfSignup'"; Re.ws; t ":"; Re.ws; t "'";
           Re.twice (Re.Chr (Re.OneOf [Re.CRange 65 90])); t "'"].

(** ['key'\s*:\s*'(.*?)'], the pattern of [firstName], [emailAddress] and
    [phoneNumber]. *)
Definition quoted_field_re (key : string) : Re.regex :=
  Re.seqs [t key; Re.ws; t ":"; Re.ws; t "'";
           Re.Group 1 (Re.lazy_star (Re.Chr Re.AnyButNewline)); t "'"].

Definition first_name_re : Re.regex := quoted_field_re "'firstName'".
Definition email_re : Re.regex := quoted_field_re "'emailAddress'".
Definition phone_re : Re.regex := quoted_field_re "'phoneNumber'".

(** ['memberSince'\s*:\s*{[^}]*'value'\s*:(\d+)] *)
Definition member_since_re : Re.regex :=
  Re.seqs [t "'memberSince'"; Re.ws; t ":"; Re.ws; t "{";
           Re.star (Re.Chr (but 125)); t "'value'"; Re.ws; t ":";
           Re.Group 1 (Re.plus Re.digit)].

(** ['showExtraMemberSection'\s*:\s*{[^}]*'value'\s*:\s*(true|false)] *)
Definition extra_member_re : Re.regex :=
  Re.seqs [t "'showExtraMemberSection'"; Re.ws; t ":"; Re.ws; t "{";
           Re.star (Re.Chr (but 125)); t "'value'"; Re.ws; t ":"; Re.ws;
           Re.Group 1 true_or_false].

(** ['language'\s*:\s*'([a-z]{2})'] *)
Definition language_re : Re.regex :=
  Re.seqs [t "'language'"; Re.ws; t ":"; Re.ws; t "'";
           Re.Group 1 (Re.twice (Re.Chr (Re.OneOf [Re.CRange 97 122]))); t "'"].

(** [f(m.group(1)) if m else None] for a search [m] of [re] in [html]. *)
Definition field (re : Re.regex) (html : list N)
    (f : option (list N) -> py (list N)) : py (option (list N)) :=
  match Re.search re html with
  | Some m => g ← Re.group re m 1; v ← f g; mret (Some v)
  | None => mret None
  end.

(** [if v: section.append(label + v)] *)
Definition line (label : string) (v : option (list N)) : list (list N) :=
  match v with
  | Some (c :: w) => [str label ++ c :: w]
  | _ => []
  end.

(** The lines of the report, built by the branch [if valid:] of
    [process_file]. *)
Definition account_section (L : library) (html : list N)
  : py (list (list N)) :=
  info ← extract_netflix_account_info L html;
  let billed_using :=
    match info with
    | Some (c :: i) => tail (splitlines (c :: i))
    | _ => []
    end in
  can_change_plan ←
    field can_change_plan_re html (fun g => w ← the_text g; mret (capitalize w));
  hold ← field hold_re html (fun g => w ← the_text g; mret (capitalize w));
  plan ←
    match Re.search plan_re html with
    | Some pd_m => Re.group plan_re pd_m 1
    | None => mret None
    end;
  membership ←
    field membership_re html
      (fun g => w ← the_text g; mret (title L (replace1 95 32 w)));
  country ←
    match Re.search country_re html with
    | Some co_m =>
        g ← Re.group country_re co_m 1; code ← the_text g;
        name ← country_name L code;
        mret (Some (str "(" ++ code ++ str ") " ++ name))
    | None => mret None
    end;
  name_val ←
    match Re.search first_name_re html with
    | Some fn_m =>
        g ← Re.group first_name_re fn_m 1;
        match g with
        | Some (c :: w) => v ← unicode_escape L (c :: w); mret (Some v)
        | _ => mret g
        end
    | None => mret None
    end;
  mail ← field email_re html (fun g => w ← the_text g; unicode_escape L w);
  phone ← field phone_re html (fun g => w ← the_text g; unicode_escape L w);
  signup ←
    match Re.search member_since_re html with
    | Some ms2_m =>
        g ← Re.group member_since_re ms2_m 1; w ← the_text g;
        match int_of_digits w with
        | Some ms => v ← signup_text L ms; mret (Some v)
        | None => Raise ValueError
        end
    | None => mret None
    end;
  next_pay ←
    field next_billing_re html (fun g => w ← the_text g; unicode_escape L w);
  extra_slots ←
    field extra_member_re html (fun g => w ← the_text g; mret (capitalize w));
  display_lang ←
    field language_re html (fun g => w ← the_text g; display_name L w);
  mret ([str "Account Information:"]
        ++ billed_using
        ++ line "Country: " country
        ++ line "Membership status: " membership
        ++ match hold with
           | Some h => [str "Plan status: "
                        ++ (if streq h (str "False") then str "Active"
                            else str "On Hold")]
           | None => []
           end
        ++ line "Plan details: " plan
        ++ line "Can change plan: " can_change_plan
        ++ line "Next payment: " next_pay
        ++ line "Signup D&T: " signup
        ++ line "Extra Slots: " extra_slots
        ++ line "Mail: " mail
        ++ line "Phone: " phone
        ++ line "Name: " name_val
        ++ line "Display Language: " display_lang).

(** *** One uploaded credential *)

(** What [process_file] answers: the cookie format is incorrect, the
    session cookies are missing, the cookie works (with the report), the
    cookie is invalid or expired. *)
Inductive reply : Type :=
| BadFormat
| MissingIds
| Working (section : list (list N))
| InvalidOrExpired.

(** The session check of [process_file]: it ends with a reply before any
    request, or it opens the client with the cookies [sent] and comes to
    the verdict [valid] with the body [html]. *)
Inductive checked : Type :=
| Refused (r : reply)
| Checked (sent : dict) (valid : bool) (html : list N).

Definition check (net : Http.network) (cookies : dict) : py checked :=
  if negb (truthy cookies) then mret (Refused BadFormat)
  else
    let session := session_cookies cookies in
    if negb (truthy session) then mret (Refused MissingIds)
    else
      verdict ← validate net session;
      mret (Checked session verdict.1 verdict.2).

Definition process_file (L : library) (net : Http.network)
    (content ftype : list N) : py reply :=
  cookies ← parse_cookies content ftype;
  c ← check net cookies;
  match c with
  | Refused r => mret r
  | Checked _ valid html =>
      if valid
      then section ← account_section L html; mret (Working section)
      else mret InvalidOrExpired
  end.

End Bot7.

(** ** The first iteration, [bot.py] *)

Module Bot.

Definition NETFLIX_BROWSE_URL : list N := str "https://www.netflix.com/browse".

(** The negation of the test
    [resp.status_code != 200 or
     resp.url.rstrip('/').lower() != NETFLIX_BROWSE_URL]. *)
Definition valid (resp : Http.response) : bool :=
  (Http.status_code resp =? 200)%Z
  && streq (lower_ascii (rstrip_char 47 (Http.url resp))) NETFLIX_BROWSE_URL.

(** The request of [handle_document], made with every parsed cookie, and
    the verdict; an exception leaves the [try] block. *)
Definition validate (net : Http.network) (cookies : dict) : py bool :=
  r ← Http.get net NETFLIX_BROWSE_URL cookies; mret (valid r.1).

End Bot.

(** ** The second iteration, [bot2.py] *)

Module Bot2.

(** The request of [process_file], made by a session that holds every
    parsed cookie, and the verdict [(valid, html)]; the [try] catches every
    exception. *)
Definition validate (net : Http.network) (cookies : dict) : bool * list N :=
  match Http.get net Bot7.account_url cookies with
  | Return (resp, _) =>
      (startswith (Http.url resp) Bot7.account_url, Http.text resp)
  | Raise _ => (false, [])
  end.

(** The session check of [process_file]: [None] when no cookie was parsed
    and no request is made, else the cookies of the session and the
    verdict. *)
Definition check (net : Http.network) (cookies : dict)
  : option (dict * bool * list N) :=
  if negb (truthy cookies) then None
  else let '(valid, html) := validate net cookies in
       Some (cookies, valid, html).

(** ['countryOfSignup'\s*:\s*'([A-Z]{2})'] (an apostrophe for each double
    quote): here the two letters are group 1. *)
Definition country_re : Re.regex :=
  Re.seqs [Bot7.t "'countryOfSignup'"; Re.ws; Bot7.t ":"; Re.ws; Bot7.t "'";
           Re.Group 1 (Re.twice (Re.Chr (Re.OneOf [Re.CRange 65 90])));
           Bot7.t "'"].

(** [code = co_m.group(1)] and the line built from it. *)
Definition country (L : Bot7.library) (html : list N)
  : py (option (list N)) :=
  match Re.search country_re html with
  | Some co_m =>
      g ← Re.group country_re co_m 1; code ← Bot7.the_text g;
      name ← Bot7.country_name L code;
      mret (Some (str "(" ++ code ++ str ") " ++ name))
  | None => mret None
  end.

End Bot2.

(** ** The service-code bot, [service.py] *)

Module Service.

(** [key in c] for a decoded value [c]: a key of a dict, a substring of a
    string, an element of a list; any other value is not iterable. *)
Definition has (key : list N) (c : json) : py bool :=
  match c with
  | JObj ms => mret (bool_decide (is_Some (member key ms)))
  | JStr w => mret (contains key w)
  | JArr items =>
      mret (existsb (fun x => match x with
                              | JStr w => streq w key
                              | _ => false
                              end) items)
  | _ => Raise TypeError
  end.

(** [c[key]] for a text [key]: only a dict is indexed by a string. *)
Definition item (key : list N) (c : json) : py json :=
  match c with
  | JObj ms => match member key ms with
               | Some v => mret v
               | None => Raise (Exception (str "KeyError"))
               end
  | _ => Raise TypeError
  end.

(** [{c['name']: c['value'] for c in arr if 'name' in c and 'value' in c}] *)
Fixpoint cookie_dict (arr : list json) (acc : dict) : py dict :=
  match arr with
  | [] => mret acc
  | c :: arr' =>
      has_name ← has (str "name") c;
      keep ← (if has_name : bool then has (str "value") c else mret false);
      if keep : bool then
        n ← item (str "name") c; k ← hash_key n; v ← item (str "value") c;
        cookie_dict arr' (<[k := v]> acc)
      else cookie_dict arr' acc
  end.

(** The [try] block of [parse_cookies]: [Some] when it returns. *)
Definition json_array (content : list N) : py (option dict) :=
  match loads content with
  | Some (JArr arr) => d ← cookie_dict arr ∅; mret (Some d)
  | Some _ => mret None
  | None => Raise ValueError
  end.

Definition add_line (cookies : dict) (line : list N) : dict :=
  if startswith line (str "#") || bool_decide (strip line = [])
  then cookies
  else
    let parts := split 9 line in
    match parts !! 5%nat, parts !! 6%nat with
    | Some name, Some value => <[KStr name := JStr value]> cookies
    | _, _ => cookies
    end.

Definition add_pair (cookies : dict) (part : list N) : dict :=
  match split1 61 part with
  | Some (name, val) => <[KStr (strip name) := JStr (strip val)]> cookies
  | None => cookies
  end.

(** [parse_cookies]; [except Exception: pass] lets every exception of the
    [try] block fall through to the lines after it. *)
Definition parse_cookies (content : list N) : py dict :=
  match json_array content with
  | Return (Some d) => mret d
  | Return None | Raise _ =>
      let cookies := fold_left add_line (splitlines content) ∅ in
      if negb (truthy cookies)
      then mret (fold_left add_pair (split 59 (replace1 10 59 content)) cookies)
      else mret cookies
  end.

(** *** The browser *)

(** How a navigation ends: the page loaded, it timed out
    ([PlaywrightTimeoutError]), it failed otherwise. *)
Inductive nav : Type :=
| Loaded
| TimedOut
| Crashed (msg : list N).

(** One page: the responses that cross it, in the order in which their
    handlers read them ([None] when [r.text()] raises), and the end of its
    [goto]. *)
Record page : Type := {
  responses : list (option (list N));
  goto : nav
}.

(** The browser of one call: opening the context with the cookies, the
    account page, whether it shows the service-code button and the
    responses that follow the click, the viewing-history page of each
    profile, and the profiles in the order in which their sub-fetches
    end. *)
Record browser : Type := {
  open_context : dict -> py ();
  account : page;
  button : bool;
  revealed : list (option (list N));
  viewed : list N -> page;
  finished : list (list N)
}.

(** What the block takes from outside the repository. *)
Record library : Type := {
  (** [codecs.decode(s, 'unicode_escape')] *)
  unicode_escape : list N -> py (list N);
  (** [max(datetime.fromtimestamp(ms/1000) for ms in all_dates)
       .strftime('%B %d, %Y')] *)
  latest_text : list Z -> py (list N)
}.

(** A [for] loop in a handler: an exception ends the handler and leaves
    what the loop has assigned so far. *)
Fixpoint for_each {S A : Type} (body : S -> A -> py S) (xs : list A) (st : S)
  : S * bool :=
  match xs with
  | [] => (st, true)
  | x :: xs' =>
      match body st x with
      | Return st' => for_each body xs' st'
      | Raise _ => (st, false)
      end
  end.

(** ['authCode'\s*:\s*'(\d+)'] and ['guid'\s*:\s*'([^']+)'], with an
    apostrophe for each double quote. *)
Definition auth_code_re : Re.regex :=
  Re.seqs [Bot7.t "'authCode'"; Re.ws; Bot7.t ":"; Re.ws; Bot7.t "'";
           Re.Group 1 (Re.plus Re.digit); Bot7.t "'"].

Definition guid_re : Re.regex :=
  Re.seqs [Bot7.t "'guid'"; Re.ws; Bot7.t ":"; Re.ws; Bot7.t "'";
           Re.Group 1 (Re.plus (Re.Chr (Bot7.but 34))); Bot7.t "'"].

(** The variables [service_code] and [guids] of [process_file], which
    [on_resp] assigns. *)
Record scraped : Type := {
  service_code : option (list N);
  guids : gset (list N)
}.

Definition set_code (st : scraped) (m : Re.rematch) : py scraped :=
  g ← Re.group auth_code_re m 1;
  mret {| service_code := g; guids := guids st |}.

Definition add_guid (st : scraped) (m : Re.rematch) : py scraped :=
  g ← Re.group guid_re m 1; w ← Bot7.the_text g;
  mret {| service_code := service_code st; guids := {[w]} ∪ guids st |}.

(** The handler of the responses of the account page. *)
Definition on_resp (st : scraped) (r : option (list N)) : scraped :=
  match r with
  | None => st
  | Some txt =>
      let '(st1, ok) := for_each set_code (Re.finditer auth_code_re txt) st in
      if ok then (for_each add_guid (Re.finditer guid_re txt) st1).1 else st1
  end.

(** ['profileName'\s*:\s*'([^']+)'] and ['date'\s*:\s*(\d+)] *)
Definition profile_name_re : Re.regex :=
  Re.seqs [Bot7.t "'profileName'"; Re.ws; Bot7.t ":"; Re.ws; Bot7.t "'";
           Re.Group 1 (Re.plus (Re.Chr (Bot7.but 34))); Bot7.t "'"].

Definition date_re : Re.regex :=
  Re.seqs [Bot7.t "'date'"; Re.ws; Bot7.t ":"; Re.ws;
           Re.Group 1 (Re.plus Re.digit)].

(** The handler [ph] of the responses of a profile page, on the variables
    [prof] and [dates]. *)
Definition ph (L : library) (st : option (list N) * list Z)
    (r : option (list N)) : option (list N) * list Z :=
  match r with
  | None => st
  | Some txt =>
      let '(prof, ok) :=
        for_each (fun _ m => g ← Re.group profile_name_re m 1;
                             w ← Bot7.the_text g; v ← unicode_escape L w;
                             mret (Some v))
                 (Re.finditer profile_name_re txt) st.1 in
      if ok then
        (prof,
         (for_each (fun ds m => g ← Re.group date_re m 1; w ← Bot7.the_text g;
                                match int_of_digits w with
                                | Some ms => mret (ds ++ [ms])
                                | None => Raise ValueError
                                end)
                   (Re.finditer date_re txt) st.2).1)
      else (prof, st.2)
  end.

(** One sub-fetch: the name of the profile, or its GUID when no name was
    read, and its dates. An exception of [goto] leaves the sub-fetch. *)
Definition fetch_profile (L : library) (b : browser) (guid : list N)
  : py (list N * list Z) :=
  let p := viewed b guid in
  match goto p with
  | Loaded =>
      let '(prof, dates) := fold_left (ph L) (responses p) (None, []) in
      mret (match prof with Some (c :: w) => c :: w | _ => guid end, dates)
  | TimedOut => Raise PlaywrightTimeoutError
  | Crashed msg => Raise (Exception msg)
  end.

(** The exception of the first task of [order] that raises. *)
Fixpoint first_raise {A B : Type} (task : A -> py B) (order : list A)
  : option exn :=
  match order with
  | [] => None
  | g :: order' =>
      match task g with
      | Raise e => Some e
      | Return _ => first_raise task order'
      end
  end.

(** [asyncio.gather] of the tasks [task(g) for g in gs], without
    [return_exceptions]: the first exception raised by a task is raised to
    the caller; when no task raises, the results come in the order of the
    arguments. [order] is the order in which the tasks end. *)
Definition gather {A B : Type} `{EqDecision A} (task : A -> py B)
    (order gs : list A) : py (list B) :=
  match first_raise task (filter (fun g => g ∈ gs) order ++ gs) with
  | Some e => Raise e
  | None => mapM task gs
  end.

(** [service_code] and [guids] when the account page is closed: what
    [on_resp] made of the responses of the navigation and, when the button
    is there, of those that follow the click. *)
Definition observed (b : browser) : scraped :=
  let st := fold_left on_resp (responses (account b))
              {| service_code := None; guids := ∅ |} in
  if button b then fold_left on_resp (revealed b) st else st.

(** The [async with async_playwright()] block: the code and the results of
    the sub-fetches. *)
Definition scrape (L : library) (b : browser) (cookies : dict)
  : py (option (list N) * list (list N * list Z)) :=
  _ ← open_context b cookies;
  match goto (account b) with
  | Loaded =>
      let st := observed b in
      results ← gather (fetch_profile L b) (finished b) (elements (guids st));
      mret (service_code st, results)
  | TimedOut => Raise PlaywrightTimeoutError
  | Crashed msg => Raise (Exception msg)
  end.

(** [f'{service_code[:3]}-{service_code[3:]}'] *)
Definition code_text (service_code : list N) : list N :=
  take 3 service_code ++ str "-" ++ drop 3 service_code.

(** What [process_file] answers: no cookie could be parsed, the scraping
    timed out, it failed with an error, the cookie is invalid or expired, or
    the cookie is valid, with the service code, its text in the caption, the
    names of the profiles and the latest date. *)
Inductive reply : Type :=
| CouldNotParse
| TimedOutScraping
| ScrapeError (e : exn)
| InvalidOrExpired
| Valid (service_code caption_code : list N) (names : list (list N))
        (latest : list N).

Definition process_file (L : library) (b : browser) (content : list N)
  : py reply :=
  cookies ← parse_cookies content;
  if negb (truthy cookies) then mret CouldNotParse
  else
    match scrape L b cookies with
    | Raise PlaywrightTimeoutError => mret TimedOutScraping
    | Raise e => mret (ScrapeError e)
    | Return (code, results) =>
        match code with
        | Some (c :: w) =>
            let service_code := c :: w in
            let names := List.map fst results in
            let all_dates := concat (List.map snd results) in
            latest ← match all_dates with
                     | [] => mret []
                     | _ :: _ => latest_text L all_dates
                     end;
            mret (Valid service_code (code_text service_code) names latest)
        | _ => mret InvalidOrExpired
        end
    end.

End Service.

(** ** The JSON-array form of a cookie map *)

Module Dumps.

Definition hexdigit (d : N) : N := if d <? 10 then 48 + d else 87 + d.

(** [\uXXXX] with four lowercase hexadecimal digits. *)
Definition u_escape (n : N) : list N :=
  [92; 117; hexdigit (n / 4096); hexdigit (n / 256 mod 16);
   hexdigit (n / 16 mod 16); hexdigit (n mod 16)].

(** One character of a string as [json.dumps] writes it with
    [ensure_ascii]: the quote, the backslash and five control characters
    by their short escapes, the other characters from the space to the
    tilde as they are, any other character of the basic plane by its
    [\uXXXX], a character beyond it by its surrogate pair. *)
Definition escape_char (c : N) : list N :=
  if c =? 34 then [92; 34]
  else if c =? 92 then [92; 92]
  else if c =? 10 then [92; 110]
  else if c =? 13 then [92; 114]
  else if c =? 9 then [92; 116]
  else if c =? 8 then [92; 98]
  else if c =? 12 then [92; 102]
  else if (32 <=? c) && (c <=? 126) then [c]
  else if c <? 65536 then u_escape c
  else u_escape (55296 + (c - 65536) / 1024)
       ++ u_escape (56320 + (c - 65536) mod 1024).

Definition dumps_str (s : list N) : list N :=
  34 :: flat_map escape_char s ++ [34].

(** [sep.join(parts)] *)
Fixpoint join (sep : list N) (parts : list (list N)) : list N :=
  match parts with
  | [] => []
  | [w] => w
  | w :: parts' => w ++ sep ++ join sep parts'
  end.

(** Modelled from the spec: the repository has no serializer. The text of
    a value is that of [json.dumps] with its defaults: [, ] between the
    items and [: ] after a key, strings escaped to ASCII. A float is
    written as the literal it was read from. *)
Fixpoint dumps (v : json) : list N :=
  match v with
  | JNull => str "null"
  | JBool true => str "true"
  | JBool false => str "false"
  | JInt z => str (DecimalString.NilZero.string_of_int (Z.to_int z))
  | JFloat lit => lit
  | JStr s => dumps_str s
  | JArr items => [91] ++ join (str ", ") (List.map dumps items) ++ [93]
  | JObj ms =>
      [123]
      ++ join (str ", ")
           (List.map (fun kv => dumps_str (fst kv) ++ str ": " ++ dumps (snd kv))
                     ms)
      ++ [125]
  end.

(** A key of a dict as a value. *)
Definition key_value (k : pykey) : json :=
  match k with
  | KStr s => JStr s
  | KInt z => JInt z
  | KFloat l => JFloat l
  | KNone => JNull
  end.

(** The object [{'name': k, 'value': v}] of one cookie. *)
Definition cookie_object (kv : pykey * json) : json :=
  JObj [(str "name", key_value kv.1); (str "value", kv.2)].

(** Modelled from the spec: the JSON-array form of a cookie map, the list
    of the objects of its cookies, and its text. *)
Definition cookie_array (cookies : dict) : json :=
  JArr (List.map cookie_object (map_to_list cookies)).

Definition serialize (cookies : dict) : list N := dumps (cookie_array cookies).

End Dumps.

(** ** The parsers of the earlier iterations *)

(** [parse_cookies] of [bot.py]. *)
Module BotParser.

(** The body of the loop over the lines of a Netscape cookie file: the
    fields are separated by tabs. *)
Definition add_line (cookies : dict) (line : list N) : dict :=
  let line := strip line in
  if bool_decide (line = [])
     || (startswith line (str "#")
         && negb (startswith line (str "#HttpOnly_")))
  then cookies
  else
    let line := if startswith line (str "#HttpOnly_")
                then drop (length (str "#HttpOnly_")) line else line in
    let parts := split 9 line in
    match parts !! 5%nat, parts !! 6%nat with
    | Some name, Some value => <[KStr name := JStr value]> cookies
    | _, _ => cookies
    end.

(** The [if] block of the JSON form. The comprehension
    [{c['name']: c['value'] for c in data if 'name' in c and 'value' in c}]
    is that of [service.py]; the [try] catches [json.JSONDecodeError]
    only. *)
Definition json_array (file_content file_type : list N) : py (option dict) :=
  if streq (lower_ascii file_type) (str "json")
     || startswith (lstrip file_content) (str "[")
  then match loads file_content with
       | Some (JArr data) => d ← Service.cookie_dict data ∅; mret (Some d)
       | Some _ => mret None
       | None => mret None
       end
  else mret None.

(** The loop over [file_content.splitlines()]. *)
Definition netscape (file_content : list N) : dict :=
  fold_left add_line (splitlines file_content) ∅.

Definition parse_cookies (file_content file_type : list N) : py dict :=
  Bot7.or_else (json_array file_content file_type)
               (mret (netscape file_content)).

End BotParser.

(** [parse_cookies] of [bot2.py]: the JSON block is, character for
    character, that of [bot7.py]; the loop over the lines is that of
    [bot.py]; the semicolon pairs are read when the lines gave no cookie and
    the text is not blank. *)
Module Bot2Parser.

Definition parse_cookies (file_content file_type : list N) : py dict :=
  Bot7.or_else (Bot7.json_array file_content file_type)
    (let cookies := BotParser.netscape file_content in
     if negb (truthy cookies) && negb (bool_decide (strip file_content = []))
     then mret (fold_left (Bot7.add_pair false) (split 59 file_content)
                          cookies)
     else mret cookies).

End Bot2Parser.

(** ** The intake of uploads and pasted texts, [bot7.py] *)

Module Intake.

Definition TELEGRAM_MAX_LINES : nat := 4096.

(** [cm.status in ['member', 'administrator', 'creator']] for the status
    that [get_chat_member] gives; when the call raises, the handlers answer
    as to a user who has not joined. *)
Definition joined (status : py (list N)) : bool :=
  match status with
  | Return s =>
      bool_decide (s ∈ [str "member"; str "administrator"; str "creator"])
  | Raise _ => false
  end.

Definition endswith (s suffix : list N) : bool :=
  startswith (rev s) (rev suffix).

(** [os.path.basename(p)] of [posixpath]: the text after the last slash. *)
Definition basename (p : list N) : list N := default [] (last (split 47 p)).

(** [os.path.splitext(p)[1]] of [posixpath]: the text from the last dot of
    the last component on, when a character other than a dot stands before
    that dot in the component; the empty text otherwise. *)
Definition splitext_ext (p : list N) : list N :=
  match split 46 (lstrip_char 46 (basename p)) with
  | [] | [_] => []
  | parts => 46 :: default [] (last parts)
  end.

(** [s.split('.')[-1]] *)
Definition last_part (s : list N) : list N := default [] (last (split 46 s)).

(** The decimal text of a number, as an f-string writes it. *)
Definition decimal (n : nat) : list N :=
  str (NilZero.string_of_uint (Nat.to_uint n)).

(** One file to check: [(name, content, ftype)]. *)
Definition file : Type := list N * list N * list N.

(** The loop over [enumerate(lines)], from the index [i] on: a line that is
    blank is passed over, any other line is an entry of its own, named by
    [entry_name] after the number of the line. *)
Fixpoint entries (entry_name : nat -> list N) (ftype : list N) (i : nat)
    (lines : list (list N)) : list file :=
  match lines with
  | [] => []
  | line :: lines' =>
      match strip line with
      | [] => entries entry_name ftype (S i) lines'
      | entry => (entry_name (S i), entry, ftype)
                 :: entries entry_name ftype (S i) lines'
      end
  end.

(** The loop over [zf.infolist()]: a member is a name and the reading of
    its text, which may raise. *)
Fixpoint zip_files (members : list (list N * py (list N))) : py (list file) :=
  match members with
  | [] => mret []
  | (filename, read) :: members' =>
      if startswith filename (str "__MACOSX/")
         || startswith (basename filename) (str "._")
      then zip_files members'
      else if endswith (lower_ascii filename) (str ".txt")
              || endswith (lower_ascii filename) (str ".json")
      then text ← read; files ← zip_files members';
           mret ((filename, text, last_part filename) :: files)
      else zip_files members'
  end.

(** What a handler does with a message: it asks the user to join, it
    refuses a text of too many lines, an unsupported type or an upload
    without a cookie file, or it schedules [process_file] for each of the
    files. *)
Inductive outcome : Type :=
| JoinPrompt
| TooManyLines (n : nat)
| Unsupported
| NoFiles
| Tasks (files : list file).

(** [handle_document], for the status of the sender, the name of the
    document, the text decoded from its bytes and the archive opened from
    them ([zipfile.ZipFile(buf)], which raises when the bytes are no
    archive). *)
Definition handle_document (status : py (list N)) (filename raw : list N)
    (archive : py (list (list N * py (list N)))) : py outcome :=
  if negb (joined status) then mret JoinPrompt
  else
    let ext := lower_ascii (splitext_ext filename) in
    if streq ext (str ".txt") || streq ext (str ".json") then
      let lines := splitlines raw in
      if Nat.ltb TELEGRAM_MAX_LINES (length lines)
      then mret (TooManyLines (length lines))
      else
        match entries (fun n => filename ++ str "-part" ++ decimal n ++ ext)
                      (lstrip_char 46 ext) 0 lines with
        | [] => mret NoFiles
        | files => mret (Tasks files)
        end
    else if streq ext (str ".zip") then
      members ← archive;
      files ← zip_files members;
      match files with
      | [] => mret NoFiles
      | _ => mret (Tasks files)
      end
    else mret Unsupported.

(** [handle_text], for the status of the sender and the text of the
    message. *)
Definition handle_text (status : py (list N)) (raw : list N) : outcome :=
  if negb (joined status) then JoinPrompt
  else
    let lines := splitlines raw in
    if Nat.ltb TELEGRAM_MAX_LINES (length lines)
    then TooManyLines (length lines)
    else Tasks (entries (fun n => str "paste-part" ++ decimal n ++ str ".txt")
                        (str "txt") 0 lines).

(** The answers to the scheduled files, each checked on its own. *)
Definition replies (L : Bot7.library) (net : Http.network) (o : outcome)
  : list (py Bot7.reply) :=
  match o with
  | Tasks files =>
      List.map (fun f : file => Bot7.process_file L net f.1.2 f.2) files
  | _ => []
  end.

End Intake.

(** [handle_document] of [bot2.py]: a text or JSON document is one file,
    whole; an archive is read as in [bot7.py]. A sender who has not joined
    is answered with the invitation when [get_channel_invite_link] gives a
    link ([invite_link], [None] when the export failed); without a link the
    handler goes on. *)
Module Bot2Intake.

Definition handle_document (status : py (list N))
    (invite_link : option (list N)) (filename raw : list N)
    (archive : py (list (list N * py (list N)))) : py Intake.outcome :=
  let stop :=
    match status with
    | Return s =>
        if bool_decide (s ∈ [str "member"; str "administrator";
                             str "creator"])
        then false
        else match invite_link with
             | Some (_ :: _) => true
             | _ => false
             end
    | Raise _ => true
    end in
  if stop then mret Intake.JoinPrompt
  else
    let ext := lower_ascii (Intake.splitext_ext filename) in
    if streq ext (str ".txt") || streq ext (str ".json") then
      mret (Intake.Tasks [(filename, raw, lstrip_char 46 ext)])
    else if streq ext (str ".zip") then
      members ← archive;
      files ← Intake.zip_files members;
      match files with
      | [] => mret Intake.NoFiles
      | _ => mret (Intake.Tasks files)
      end
    else mret Intake.Unsupported.

End Bot2Intake.

(** [handle_document] of [bot.py]: the document is refused by its name, or
    it is read, parsed and checked with one request; every exception of the
    [try] block is answered with an error message. The two sends of the
    valid answer are taken to succeed. *)
Module BotIntake.

Inductive reply : Type :=
| NotACookieFile
| InvalidFormat
| InvalidOrExpired
| Valid
| ErrorProcessing (e : exn).

(** [content] is the reading of the downloaded file as UTF-8 text, which
    may raise. *)
Definition handle_document (net : Http.network) (file_name : list N)
    (content : py (list N)) : reply :=
  if negb (Intake.endswith (lower_ascii file_name) (str ".txt")
           || Intake.endswith (lower_ascii file_name) (str ".json"))
  then NotACookieFile
  else
    match (c ← content;
           cookies ← BotParser.parse_cookies c (Intake.last_part file_name);
           if negb (truthy cookies) then mret InvalidFormat
           else valid ← Bot.validate net cookies;
                mret (if valid : bool then Valid else InvalidOrExpired)) with
    | Return r => r
    | Raise e => ErrorProcessing e
    end.

End BotIntake.

(** * Properties *)

(** ** The matcher *)

Section MatcherFacts.
Import Re.

Lemma take_app_suffix (w s' : list N) :
  take (length (w ++ s') - length s') (w ++ s') = w.
Proof.
  rewrite length_app, Nat.add_sub. apply take_app_length.
Qed.

Lemma take_suffix (s w s' : list N) :
  s = w ++ s' -> take (length s - length s') s = w.
Proof. intros ->. apply take_app_suffix. Qed.

(** Whatever the matcher finds is a match of the pattern, and the
    continuation accepted what was left. *)
Lemma star_loop_sound {R : Type} (g : bool) (r : regex)
    (IH : forall (k : list N -> caps -> option R) s c x,
        rmatch r k s c = Some x ->
        exists w s' c', s = w ++ s' /\ matches r w c c' /\ k s' c' = Some x)
    (k : list N -> caps -> option R) (fuel : nat) :
  forall s c x,
    star_loop g (rmatch r) k fuel s c = Some x ->
    exists w s' c', s = w ++ s' /\ matches (Star g r) w c c'
                    /\ k s' c' = Some x.
Proof.
  induction fuel as [|fuel IHf]; intros s c x H; simpl in H.
  - exists [], s, c. split; [reflexivity|]. split; [constructor|exact H].
  - assert (Hround : forall y,
               rmatch r (fun s' c' => if Nat.ltb (length s') (length s)
                                      then star_loop g (rmatch r) k fuel s' c'
                                      else None) s c = Some y ->
               exists w s' c', s = w ++ s' /\ matches (Star g r) w c c'
                               /\ k s' c' = Some y).
    { intros y Hy. apply IH in Hy as (w1 & s1 & c1 & -> & Hm1 & Hk1).
      destruct (Nat.ltb (length s1) (length (w1 ++ s1))); [|discriminate].
      apply IHf in Hk1 as (w2 & s2 & c2 & -> & Hm2 & Hk2).
      exists (w1 ++ w2), s2, c2. rewrite <- app_assoc.
      split; [reflexivity|]. split; [|exact Hk2].
      econstructor; eassumption. }
    assert (Hnil : forall y, k s c = Some y ->
               exists w s' c', s = w ++ s' /\ matches (Star g r) w c c'
                               /\ k s' c' = Some y).
    { intros y Hy. exists [], s, c.
      split; [reflexivity|]. split; [constructor|exact Hy]. }
    destruct g.
    + destruct (rmatch r _ s c) as [y|].
      * injection H as <-. apply Hround. reflexivity.
      * apply Hnil. exact H.
    + destruct (k s c) as [y|].
      * injection H as <-. apply Hnil. reflexivity.
      * apply Hround. exact H.
Qed.

Lemma rmatch_sound {R : Type} (r : regex) :
  forall (k : list N -> caps -> option R) s c x,
    rmatch r k s c = Some x ->
    exists w s' c', s = w ++ s' /\ matches r w c c' /\ k s' c' = Some x.
Proof.
  induction r as [|cs|r1 IH1 r2 IH2|r1 IH1 r2 IH2|g r IH|n r IH];
    intros k s c x H; simpl in H.
  - exists [], s, c. split; [reflexivity|]. split; [constructor|exact H].
  - destruct s as [|a s']; [discriminate|].
    destruct (accepts cs a) eqn:E; [|discriminate].
    exists [a], s', c. split; [reflexivity|].
    split; [constructor; exact E|exact H].
  - apply IH1 in H as (w1 & s1 & c1 & -> & Hm1 & H).
    apply IH2 in H as (w2 & s2 & c2 & -> & Hm2 & H).
    exists (w1 ++ w2), s2, c2. rewrite <- app_assoc.
    split; [reflexivity|]. split; [econstructor; eassumption|exact H].
  - destruct (rmatch r1 k s c) as [y|] eqn:E.
    + injection H as <-. apply IH1 in E as (w & s' & c' & -> & Hm & Hk).
      exists w, s', c'. split; [reflexivity|].
      split; [apply M_alt_l; exact Hm|exact Hk].
    + apply IH2 in H as (w & s' & c' & -> & Hm & Hk).
      exists w, s', c'. split; [reflexivity|].
      split; [apply M_alt_r; exact Hm|exact Hk].
  - eapply star_loop_sound; eassumption.
  - apply IH in H as (w & s' & c' & -> & Hm & Hk).
    rewrite take_app_suffix in Hk.
    exists w, s', ((n, w) :: c'). split; [reflexivity|].
    split; [constructor; exact Hm|exact Hk].
Qed.

Lemma match_here_sound (r : regex) (s s' : list N) (c : caps) :
  match_here r s = Some (s', c) ->
  exists w, s = w ++ s' /\ matches r w [] c.
Proof.
  unfold match_here. intros H.
  apply rmatch_sound in H as (w & s1 & c1 & -> & Hm & Hk).
  injection Hk as <- <-. exists w. split; [reflexivity|exact Hm].
Qed.

Lemma search_unfold (r : regex) (s : list N) :
  search r s =
  match match_here r s with
  | Some (s', c) =>
      Some {| m_text := take (length s - length s') s;
              m_rest := s'; m_caps := c |}
  | None => match s with [] => None | _ :: s' => search r s' end
  end.
Proof. destruct s; reflexivity. Qed.

(** The match object of a search holds a match of the pattern. *)
Lemma search_sound (r : regex) (s : list N) (m : rematch) :
  search r s = Some m -> matches r (m_text m) [] (m_caps m).
Proof.
  induction s as [|a s IH]; rewrite search_unfold;
    destruct (match_here r _) as [[s' c]|] eqn:E;
    try discriminate; try exact IH;
    intros [= <-]; apply match_here_sound in E as (w & Hs & Hm);
    pose proof (take_suffix _ _ _ Hs) as Ht;
    revert Ht; simpl; intros <-; exact Hm.
Qed.

Lemma finditer_fuel_sound (r : regex) (fuel : nat) :
  forall s, Forall (fun m => matches r (m_text m) [] (m_caps m))
                   (finditer_fuel fuel r s).
Proof.
  induction fuel as [|fuel IH]; intros s; simpl; [constructor|].
  destruct (search r s) as [m|] eqn:E; [|constructor].
  constructor; [eapply search_sound; exact E|].
  destruct (m_text m); [destruct (m_rest m); [constructor|]|]; apply IH.
Qed.

Lemma finditer_sound (r : regex) (s : list N) :
  Forall (fun m => matches r (m_text m) [] (m_caps m)) (finditer r s).
Proof. apply finditer_fuel_sound. Qed.

(** A pattern without groups leaves the groups as they are. *)
Lemma matches_nogroup (r : regex) (w : list N) (c c' : caps) :
  nogroup r = true -> matches r w c c' -> c' = c.
Proof.
  intros Hn Hm. induction Hm; simpl in Hn;
    try apply andb_prop in Hn as [Hn1 Hn2]; try reflexivity; try discriminate.
  - rewrite IHHm2, IHHm1 by assumption. reflexivity.
  - apply IHHm; assumption.
  - apply IHHm; assumption.
  - rewrite IHHm2, IHHm1 by assumption. reflexivity.
Qed.

(** The text of a repeated character set is made of its characters. *)
Lemma matches_star_chr (g : bool) (cs : cset) (w : list N) (c c' : caps) :
  matches (Star g (Chr cs)) w c c' ->
  Forall (fun a => accepts cs a = true) w.
Proof.
  intros H. remember (Star g (Chr cs)) as r eqn:Er.
  induction H; try discriminate; [constructor|].
  injection Er as -> ->. inversion H; subst. simpl.
  constructor; [assumption|]. apply IHmatches2. reflexivity.
Qed.

Lemma matches_plus_chr (cs : cset) (w : list N) (c c' : caps) :
  matches (plus (Chr cs)) w c c' ->
  w <> [] /\ Forall (fun a => accepts cs a = true) w.
Proof.
  unfold plus. intros H. inversion H as [| |r1 r2 w1 w2 c0 c1 c2 H1 H2| | | | |].
  subst. inversion H1; subst. simpl. split; [discriminate|].
  constructor; [assumption|]. eapply matches_star_chr; eassumption.
Qed.

End MatcherFacts.

(** ** Python strings *)

Section StringFacts.

Lemma startswith_app (p rest : list N) : startswith (p ++ rest) p = true.
Proof.
  induction p as [|a p IH]; simpl; [reflexivity|].
  rewrite N.eqb_refl. exact IH.
Qed.

(** [s.startswith(p)] holds exactly when [p] is a prefix of [s]. *)
Lemma startswith_spec (s p : list N) :
  startswith s p = true <-> exists rest, s = p ++ rest.
Proof.
  split.
  - revert s. induction p as [|a p IH]; intros s H; simpl in H.
    + exists s. reflexivity.
    + destruct s as [|b s]; [discriminate|].
      apply andb_prop in H as [Hab H]. apply N.eqb_eq in Hab as ->.
      apply IH in H as [rest ->]. exists rest. reflexivity.
  - intros [rest ->]. apply startswith_app.
Qed.

Lemma startswith_drop (s p : list N) :
  startswith s p = true -> s = p ++ drop (length p) s.
Proof.
  intros H. apply startswith_spec in H as [rest ->].
  rewrite drop_app_length. reflexivity.
Qed.

End StringFacts.

(** ** The account information (claim C1) *)

(** C1, the defect: the extraction of [bot7.py] is not free of exceptions.
    On a body that holds a country of signup the search of the country
    pattern succeeds, and [co_m.group(1)] raises [IndexError], because the
    pattern has no group; no field is returned. *)
Theorem account_section_country_raises (L : Bot7.library) :
  Bot7.account_section L (dq "{'countryOfSignup':'US'}") = Raise IndexError.
Proof. vm_compute. reflexivity. Qed.

(** The pattern of [bot2.py] has the group, and the same body gives the
    country line there. *)
Lemma bot2_country_line (L : Bot7.library) :
  Bot2.country L (dq "{'countryOfSignup':'US'}")
  = (name ← Bot7.country_name L (str "US");
     mret (Some (str "(US) " ++ name))).
Proof. reflexivity. Qed.

(** ** The cookie parsers (claim C5) *)

(** C5, the defect: [parse_cookies] of [bot7.py] raises on a JSON array
    whose cookie name is a list. The text decodes, the name is unhashable as
    the key of the dict, and the [TypeError] is not the [JSONDecodeError]
    that the [try] catches. *)
Theorem parse_cookies_unhashable_name :
  Bot7.parse_cookies (dq "[{'name': [], 'value': 'v'}]") (str "txt")
  = Raise TypeError.
Proof. vm_compute. reflexivity. Qed.

(** [parse_cookies] of [service.py], whose [try] catches every exception,
    returns a dict on every text. *)
Lemma service_parse_cookies_returns (content : list N) :
  exists d, Service.parse_cookies content = Return d.
Proof.
  unfold Service.parse_cookies.
  destruct (Service.json_array content) as [[d|]|e];
    try (eexists; reflexivity);
    destruct (negb (truthy _)); eexists; reflexivity.
Qed.

Example service_parse_cookies_unhashable_name :
  Service.parse_cookies (dq "[{'name': [], 'value': 'v'}]") = Return ∅.
Proof. vm_compute. reflexivity. Qed.

(** ** The session check (claims C3 and C8) *)

Lemma bot7_valid_iff_prefix (net : Http.network)
    (jar jar1 jar2 : dict) (first final : Http.response) :
  Http.get net Bot7.root_url jar = Return (first, jar1) ->
  Http.get net Bot7.account_url jar1 = Return (final, jar2) ->
  exists valid,
    Bot7.validate net jar = Return (valid, Http.text final)
    /\ (valid = true <-> exists rest, Http.url final = Bot7.account_url ++ rest).
Proof.
  intros H1 H2. exists (startswith (Http.url final) Bot7.account_url).
  split; [|apply startswith_spec].
  unfold Bot7.validate. rewrite H1. simpl. rewrite H2. reflexivity.
Qed.

Lemma bot2_valid_iff_prefix (net : Http.network)
    (jar jar2 : dict) (final : Http.response) :
  Http.get net Bot7.account_url jar = Return (final, jar2) ->
  exists valid,
    Bot2.validate net jar = (valid, Http.text final)
    /\ (valid = true <-> exists rest, Http.url final = Bot7.account_url ++ rest).
Proof.
  intros H. exists (startswith (Http.url final) Bot7.account_url).
  split; [|apply startswith_spec].
  unfold Bot2.validate. rewrite H. reflexivity.
Qed.

Lemma bot_valid_iff_ok_browse (net : Http.network)
    (jar jar2 : dict) (final : Http.response) :
  Http.get net Bot.NETFLIX_BROWSE_URL jar = Return (final, jar2) ->
  exists valid,
    Bot.validate net jar = Return valid
    /\ (valid = true <->
        Http.status_code final = 200%Z
        /\ lower_ascii (rstrip_char 47 (Http.url final))
           = Bot.NETFLIX_BROWSE_URL).
Proof.
  intros H. exists (Bot.valid final). split.
  - unfold Bot.validate. rewrite H. reflexivity.
  - unfold Bot.valid, streq. rewrite andb_true_iff, Z.eqb_eq.
    rewrite bool_decide_eq_true. reflexivity.
Qed.

(** C3, as the code has it. A validation run of [bot7.py] or of [bot2.py]
    that completes its requests is valid exactly when the final URL has the
    account URL as a prefix, whatever the status code; a run of [bot.py] is
    valid exactly when the status code is 200 and the final URL, without
    its trailing slashes and in lower case, is the browse URL. *)
Theorem validity_of_a_run (net : Http.network) (jar : dict) :
  (forall first jar1 final jar2,
      Http.get net Bot7.root_url jar = Return (first, jar1) ->
      Http.get net Bot7.account_url jar1 = Return (final, jar2) ->
      exists valid,
        Bot7.validate net jar = Return (valid, Http.text final)
        /\ (valid = true
            <-> exists rest, Http.url final = Bot7.account_url ++ rest))
  /\ (forall final jar2,
         Http.get net Bot7.account_url jar = Return (final, jar2) ->
         exists valid,
           Bot2.validate net jar = (valid, Http.text final)
           /\ (valid = true
               <-> exists rest, Http.url final = Bot7.account_url ++ rest))
  /\ (forall final jar2,
         Http.get net Bot.NETFLIX_BROWSE_URL jar = Return (final, jar2) ->
         exists valid,
           Bot.validate net jar = Return valid
           /\ (valid = true
               <-> Http.status_code final = 200%Z
                   /\ lower_ascii (rstrip_char 47 (Http.url final))
                      = Bot.NETFLIX_BROWSE_URL)).
Proof.
  split; [|split].
  - intros first jar1 final jar2. apply bot7_valid_iff_prefix.
  - intros final jar2. apply bot2_valid_iff_prefix.
  - intros final jar2. apply bot_valid_iff_ok_browse.
Qed.

(** A network on which every request ends with the given response. *)
Definition answering (final : Http.response) : Http.network :=
  {| Http.get := fun _ jar => Return (final, jar) |}.

(** A response with status 404 whose final URL is under the account URL:
    the run of [bot7.py] is valid. *)
Lemma validity_of_a_run_witness :
  exists valid,
    Bot7.validate
      (answering {| Http.status_code := 404;
                    Http.url := str "https://www.netflix.com/account/x";
                    Http.text := str "body" |}) ∅
    = Return (valid, str "body")
    /\ (valid = true <->
        exists rest, str "https://www.netflix.com/account/x"
                     = Bot7.account_url ++ rest).
Proof.
  destruct (validity_of_a_run
              (answering {| Http.status_code := 404;
                            Http.url := str "https://www.netflix.com/account/x";
                            Http.text := str "body" |}) ∅) as [H _].
  exact (H _ ∅ _ ∅ eq_refl eq_refl).
Defined.

(** C3, as the claim has it, fails on [bot.py]: a final URL that is the
    account URL, with status 200, is invalid there; and of two runs that
    end at the browse URL the one with status 200 is valid and the one with
    status 404 is not, so the status code decides. *)
Lemma status_code_decides_in_bot :
  Bot.validate (answering {| Http.status_code := 200;
                             Http.url := Bot7.account_url;
                             Http.text := [] |}) ∅
  = Return false
  /\ Bot.validate (answering {| Http.status_code := 200;
                                Http.url := Bot.NETFLIX_BROWSE_URL;
                                Http.text := [] |}) ∅
     = Return true
  /\ Bot.validate (answering {| Http.status_code := 404;
                                Http.url := Bot.NETFLIX_BROWSE_URL;
                                Http.text := [] |}) ∅
     = Return false.
Proof. repeat split; vm_compute; reflexivity. Qed.

(** A redirect to the login page with status 200 is invalid, a final URL
    under the account URL is valid with status 500. *)
Example login_redirect_invalid :
  Bot7.validate
    (answering {| Http.status_code := 200;
                  Http.url := str "https://www.netflix.com/login";
                  Http.text := [] |}) ∅
  = Return (false, []).
Proof. reflexivity. Qed.

Example account_url_valid_with_status_500 :
  Bot7.validate
    (answering {| Http.status_code := 500;
                  Http.url := Bot7.account_url;
                  Http.text := [] |}) ∅
  = Return (true, []).
Proof. reflexivity. Qed.

(** Two cookie maps agree on the session identifiers. *)
Definition agree (c1 c2 : dict) : Prop :=
  c1 !! KStr (str "NetflixId") = c2 !! KStr (str "NetflixId")
  /\ c1 !! KStr (str "SecureNetflixId") = c2 !! KStr (str "SecureNetflixId").

Lemma session_cookies_lookup (c : dict) (k : pykey) :
  Bot7.session_cookies c !! k
  = if decide (k = KStr (str "NetflixId") \/ k = KStr (str "SecureNetflixId"))
    then c !! k else None.
Proof.
  unfold Bot7.session_cookies. destruct (decide _) as [Hk|Hk].
  - destruct (c !! k) as [v|] eqn:E.
    + apply map_lookup_filter_Some. split; [exact E|exact Hk].
    + apply map_lookup_filter_None. left. exact E.
  - apply map_lookup_filter_None. right. intros v _. exact Hk.
Qed.

Lemma session_cookies_agree (c1 c2 : dict) :
  agree c1 c2 -> Bot7.session_cookies c1 = Bot7.session_cookies c2.
Proof.
  intros [Hn Hs]. apply map_eq. intros k.
  rewrite !session_cookies_lookup.
  destruct (decide _) as [[-> | ->]|]; [exact Hn|exact Hs|reflexivity].
Qed.

Lemma session_cookies_of_empty (c : dict) :
  c = ∅ -> Bot7.session_cookies c = ∅.
Proof. intros ->. apply map_filter_empty. Qed.

Lemma truthy_session (c : dict) :
  truthy (Bot7.session_cookies c) = true -> truthy c = true.
Proof.
  unfold truthy. intros H.
  destruct (bool_decide (c = ∅)) eqn:E; [|reflexivity].
  apply bool_decide_eq_true in E. apply session_cookies_of_empty in E.
  rewrite E, bool_decide_eq_true_2 in H by reflexivity. discriminate.
Qed.

Lemma bot7_check_agree (net : Http.network) (c1 c2 : dict) :
  agree c1 c2 ->
  match Bot7.check net c1, Bot7.check net c2 with
  | Return (Bot7.Refused _), Return (Bot7.Refused _) => True
  | Return (Bot7.Checked sent1 valid1 html1),
    Return (Bot7.Checked sent2 valid2 html2) =>
      sent1 = sent2 /\ valid1 = valid2 /\ html1 = html2
  | Raise e1, Raise e2 => e1 = e2
  | _, _ => False
  end.
Proof.
  intros H. apply session_cookies_agree in H.
  unfold Bot7.check. rewrite <- H.
  destruct (truthy (Bot7.session_cookies c1)) eqn:Es.
  - rewrite (truthy_session c1 Es).
    rewrite H in Es. rewrite (truthy_session c2 Es). simpl.
    destruct (Bot7.validate net (Bot7.session_cookies c1)) as [[v h]|e];
      simpl; auto.
  - destruct (truthy c1), (truthy c2); simpl; exact I.
Qed.

Lemma bot2_check_sends_all (net : Http.network) (c sent : dict)
    (valid : bool) (html : list N) :
  Bot2.check net c = Some (sent, valid, html) -> sent = c.
Proof.
  unfold Bot2.check. destruct (negb (truthy c)); [discriminate|].
  destruct (Bot2.validate net c). intros [= <- _ _]. reflexivity.
Qed.

(** C8, as the code has it. In [bot7.py] two cookie maps that agree on
    [NetflixId] and [SecureNetflixId] are checked alike on every network:
    either both are answered before any request, or the client is opened
    with the same cookies and comes to the same verdict and body, or both
    checks raise the same exception. In [bot2.py] the session holds every
    parsed cookie. *)
Theorem check_depends_on_session_cookies (net : Http.network) (c1 c2 : dict) :
  agree c1 c2 ->
  match Bot7.check net c1, Bot7.check net c2 with
  | Return (Bot7.Refused _), Return (Bot7.Refused _) => True
  | Return (Bot7.Checked sent1 valid1 html1),
    Return (Bot7.Checked sent2 valid2 html2) =>
      sent1 = sent2 /\ valid1 = valid2 /\ html1 = html2
  | Raise e1, Raise e2 => e1 = e2
  | _, _ => False
  end
  /\ (forall sent valid html,
         Bot2.check net c1 = Some (sent, valid, html) -> sent = c1).
Proof.
  intros H. split; [apply bot7_check_agree; exact H|].
  apply bot2_check_sends_all.
Qed.

(** A map with the session identifier and another cookie, and the map of
    the session identifier alone. *)
Definition with_other : dict :=
  <[KStr (str "other") := JStr (str "x")]>
    {[KStr (str "NetflixId") := JStr (str "a")]}.

Definition session_only : dict := {[KStr (str "NetflixId") := JStr (str "a")]}.

Lemma check_depends_on_session_cookies_witness :
  match Bot7.check (answering {| Http.status_code := 200;
                                 Http.url := Bot7.account_url;
                                 Http.text := [] |}) with_other,
        Bot7.check (answering {| Http.status_code := 200;
                                 Http.url := Bot7.account_url;
                                 Http.text := [] |}) session_only with
  | Return (Bot7.Refused _), Return (Bot7.Refused _) => True
  | Return (Bot7.Checked sent1 valid1 html1),
    Return (Bot7.Checked sent2 valid2 html2) =>
      sent1 = sent2 /\ valid1 = valid2 /\ html1 = html2
  | Raise e1, Raise e2 => e1 = e2
  | _, _ => False
  end.
Proof.
  apply (check_depends_on_session_cookies
           (answering {| Http.status_code := 200;
                         Http.url := Bot7.account_url;
                         Http.text := [] |}) with_other session_only).
  split; vm_compute; reflexivity.
Defined.

(** A network that sends a client which shows the cookie [other] to the
    login page, and any other client to the account page. *)
Definition wary : Http.network :=
  {| Http.get := fun _ jar =>
       if bool_decide (is_Some (jar !! KStr (str "other")))
       then Return ({| Http.status_code := 200;
                       Http.url := str "https://www.netflix.com/login";
                       Http.text := [] |}, jar)
       else Return ({| Http.status_code := 200;
                       Http.url := Bot7.account_url;
                       Http.text := [] |}, jar) |}.

(** C8, as the claim has it, fails on [bot2.py]: the two maps agree on the
    session identifiers, the session of the first holds the cookie [other]
    as well, and on a network that looks at it the verdicts differ. *)
Lemma bot2_sends_every_cookie :
  agree with_other session_only
  /\ Bot2.check wary with_other = Some (with_other, false, [])
  /\ Bot2.check wary session_only = Some (session_only, true, [])
  /\ with_other <> session_only.
Proof.
  split; [split; vm_compute; reflexivity|].
  split; [vm_compute; reflexivity|].
  split; [vm_compute; reflexivity|].
  vm_compute. discriminate.
Qed.

(** On the same network [bot7.py] comes to one verdict for both maps. *)
Example bot7_ignores_other_cookie :
  Bot7.check wary with_other = Bot7.check wary session_only.
Proof. vm_compute. reflexivity. Qed.

(** ** The service code (claims C6 and C7) *)

Lemma matches_seq_inv (r1 r2 : Re.regex) (w : list N) (c c2 : Re.caps) :
  Re.matches (Re.Seq r1 r2) w c c2 ->
  exists w1 w2 c1,
    w = w1 ++ w2 /\ Re.matches r1 w1 c c1 /\ Re.matches r2 w2 c1 c2.
Proof. intros H. inversion H; subst. eauto 7. Qed.

Lemma matches_group_inv (n : nat) (r : Re.regex) (w : list N)
    (c c' : Re.caps) :
  Re.matches (Re.Group n r) w c c' ->
  exists c1, c' = (n, w) :: c1 /\ Re.matches r w c c1.
Proof. intros H. inversion H; subst. eauto. Qed.

(** In a match of the code pattern group 1 is a non-empty text of decimal
    digits. *)
Lemma auth_code_group (w : list N) (c : Re.caps) :
  Re.matches Service.auth_code_re w [] c ->
  exists d, Re.cap_get 1 c = Some d /\ d <> []
            /\ Forall (fun a => isdecimal a = true) d.
Proof.
  unfold Service.auth_code_re, Re.seqs. intros H.
  do 6 (apply matches_seq_inv in H as (? & ? & ? & -> & ?Hm & H)).
  repeat match goal with
         | Hn : Re.matches (Bot7.t _) _ _ _ |- _ =>
             apply matches_nogroup in Hn; [subst|reflexivity]
         | Hn : Re.matches Re.ws _ _ _ |- _ =>
             apply matches_nogroup in Hn; [subst|reflexivity]
         end.
  apply matches_group_inv in Hm4 as (c1 & -> & Hd).
  apply matches_plus_chr in Hd as [Hne Hd].
  eexists. split; [reflexivity|]. split; [exact Hne|].
  eapply Forall_impl; [exact Hd|]. simpl. intros a Ha.
  rewrite orb_false_r in Ha. exact Ha.
Qed.

(** The codes of the matches of one body, and of the bodies that could be
    read, in the order of the scan. *)
Definition auth_codes (txt : list N) : list (list N) :=
  omap (fun m => Re.cap_get 1 (Re.m_caps m))
       (Re.finditer Service.auth_code_re txt).

Definition observed_codes (rs : list (option (list N))) : list (list N) :=
  concat (List.map (fun r => match r with
                             | Some txt => auth_codes txt
                             | None => []
                             end) rs).

Lemma observed_codes_digits (rs : list (option (list N))) :
  Forall (fun d => d <> [] /\ Forall (fun a => isdecimal a = true) d)
         (observed_codes rs).
Proof.
  unfold observed_codes. apply Forall_concat, Forall_map.
  apply Forall_forall. intros [txt|] _; [|constructor].
  unfold auth_codes. pose proof (finditer_sound Service.auth_code_re txt) as H.
  induction H as [|m ms Hm _ IH]; simpl; [constructor|].
  apply auth_code_group in Hm as (d & -> & Hne & Hd). simpl.
  constructor; [split; assumption|exact IH].
Qed.

(** The loop over the matches of the code pattern assigns each code in
    turn. *)
Lemma for_each_set_code (ms : list Re.rematch) (st : Service.scraped) :
  Forall (fun m => Re.matches Service.auth_code_re (Re.m_text m) []
                     (Re.m_caps m)) ms ->
  Service.for_each Service.set_code ms st
  = ({| Service.service_code :=
          match last (omap (fun m => Re.cap_get 1 (Re.m_caps m)) ms) with
          | Some d => Some d
          | None => Service.service_code st
          end;
        Service.guids := Service.guids st |}, true).
Proof.
  intros H. revert st. induction H as [|m ms Hm _ IH]; intros st.
  - destruct st; reflexivity.
  - apply auth_code_group in Hm as (d & Hd & _).
    change (Service.for_each Service.set_code (m :: ms) st) with
      (Service.for_each Service.set_code ms
         {| Service.service_code := Re.cap_get 1 (Re.m_caps m);
            Service.guids := Service.guids st |}).
    rewrite IH. cbn [omap list_omap]. rewrite Hd.
    cbn [Service.service_code Service.guids]. rewrite last_cons.
    destruct (last _); reflexivity.
Qed.

(** The loop over the matches of the GUID pattern leaves the code. *)
Lemma for_each_add_guid_code (ms : list Re.rematch) (st : Service.scraped) :
  Service.service_code (Service.for_each Service.add_guid ms st).1
  = Service.service_code st.
Proof.
  revert st. induction ms as [|m ms IH]; intros st; [reflexivity|].
  cbn [Service.for_each]. unfold Service.add_guid at 1.
  change (Re.group Service.guid_re m 1)
    with (Return (Re.cap_get 1 (Re.m_caps m))).
  destruct (Re.cap_get 1 (Re.m_caps m)) as [w|];
    cbn [mbind py_bind mret py_ret Bot7.the_text]; [|reflexivity].
  rewrite IH. reflexivity.
Qed.

Lemma on_resp_code (st : Service.scraped) (r : option (list N)) :
  Service.service_code (Service.on_resp st r)
  = match last (observed_codes [r]) with
    | Some d => Some d
    | None => Service.service_code st
    end.
Proof.
  unfold observed_codes. simpl. rewrite app_nil_r.
  destruct r as [txt|]; [|reflexivity].
  unfold Service.on_resp, auth_codes.
  rewrite for_each_set_code by apply finditer_sound.
  rewrite for_each_add_guid_code. reflexivity.
Qed.

Lemma fold_on_resp_code (rs : list (option (list N)))
    (st : Service.scraped) :
  Service.service_code (fold_left Service.on_resp rs st)
  = match last (observed_codes rs) with
    | Some d => Some d
    | None => Service.service_code st
    end.
Proof.
  revert st. induction rs as [|r rs IH]; intros st; [reflexivity|].
  cbn [fold_left]. rewrite IH, on_resp_code.
  replace (observed_codes (r :: rs))
    with (observed_codes [r] ++ observed_codes rs)
    by (unfold observed_codes; simpl; rewrite app_nil_r; reflexivity).
  rewrite last_app. destruct (last (observed_codes rs)); reflexivity.
Qed.

(** C6, as the code has it: after any sequence of responses the retained
    service code is the last match of the code pattern observed so far, in
    the order of the responses and, within a body, of the scan; with no
    match the code stays what it was. *)
Theorem retained_code_is_last_match (rs : list (option (list N)))
    (st : Service.scraped) :
  Service.service_code (fold_left Service.on_resp rs st)
  = match last (observed_codes rs) with
    | Some d => Some d
    | None => Service.service_code st
    end.
Proof. apply fold_on_resp_code. Qed.

(** C6, as the claim has it, fails: of two codes in one body the second is
    retained, not the first. *)
Lemma first_match_not_retained :
  Service.service_code
    (fold_left Service.on_resp
       [Some (dq "{'authCode':'111111'} {'authCode':'222222'}")]
       {| Service.service_code := None; Service.guids := ∅ |})
  <> head (observed_codes
             [Some (dq "{'authCode':'111111'} {'authCode':'222222'}")]).
Proof. vm_compute. discriminate. Qed.

(** The same across two successive responses. *)
Example later_response_replaces_code :
  Service.service_code
    (fold_left Service.on_resp
       [Some (dq "{'authCode':'111111'}"); Some (dq "{'authCode':'222222'}")]
       {| Service.service_code := None; Service.guids := ∅ |})
  = Some (str "222222").
Proof. vm_compute. reflexivity. Qed.

Lemma observed_fold (b : Service.browser) :
  Service.observed b
  = fold_left Service.on_resp
      (Service.responses (Service.account b)
       ++ (if Service.button b then Service.revealed b else []))
      {| Service.service_code := None; Service.guids := ∅ |}.
Proof.
  unfold Service.observed. rewrite fold_left_app.
  destruct (Service.button b); reflexivity.
Qed.

(** The code retained when the account page is closed is a non-empty text
    of decimal digits. *)
Lemma observed_code_digits (b : Service.browser) (d : list N) :
  Service.service_code (Service.observed b) = Some d ->
  d <> [] /\ Forall (fun a => isdecimal a = true) d.
Proof.
  rewrite observed_fold, fold_on_resp_code.
  set (rs := _ ++ _). pose proof (observed_codes_digits rs) as H.
  destruct (last (observed_codes rs)) as [d'|] eqn:E; [|discriminate].
  intros [= <-]. apply last_Some in E as [l E]. rewrite E in H.
  apply Forall_app in H as [_ H]. inversion H; subst. assumption.
Qed.

(** What a valid answer of [process_file] carries. *)
Lemma process_file_valid (L : Service.library) (b : Service.browser)
    (content code text : list N) (names : list (list N)) (latest : list N) :
  Service.process_file L b content
  = Return (Service.Valid code text names latest) ->
  Service.service_code (Service.observed b) = Some code
  /\ text = Service.code_text code.
Proof.
  unfold Service.process_file.
  destruct (Service.parse_cookies content) as [cookies|e]; [|discriminate].
  cbn [mbind py_bind].
  destruct (negb (truthy cookies)); [discriminate|].
  destruct (Service.scrape L b cookies) as [[sc results]|e] eqn:E;
    [|destruct e; discriminate].
  destruct sc as [[|c w]|]; try discriminate.
  destruct (match concat _ with [] => _ | _ => _ end) as [lt|e];
    [|discriminate].
  cbn [mbind py_bind mret py_ret]. intros [= <- <- _ _].
  split; [|reflexivity].
  unfold Service.scrape in E.
  destruct (Service.open_context b cookies) as [[]|e]; [|discriminate].
  cbn [mbind py_bind] in E.
  destruct (Service.goto (Service.account b)); try discriminate.
  destruct (Service.gather _ _ _) as [rs|e]; [|discriminate].
  cbn [mbind py_bind mret py_ret] in E. injection E as E _. exact E.
Qed.

(** C7, as the code has it: a service code carried by a valid answer is a
    non-empty text of decimal digits, of any length; the caption shows its
    first three characters, a dash and the rest; for a code of six digits
    these are two groups of three. *)
Theorem service_code_digits_and_text (L : Service.library)
    (b : Service.browser) (content code text : list N)
    (names : list (list N)) (latest : list N) :
  Service.process_file L b content
  = Return (Service.Valid code text names latest) ->
  code <> []
  /\ Forall (fun a => isdecimal a = true) code
  /\ text = take 3 code ++ str "-" ++ drop 3 code
  /\ (length code = 6%nat ->
      length (take 3 code) = 3%nat /\ length (drop 3 code) = 3%nat).
Proof.
  intros H. apply process_file_valid in H as [Hc ->].
  apply observed_code_digits in Hc as [Hne Hd].
  split; [exact Hne|]. split; [exact Hd|]. split; [reflexivity|].
  intros Hl. rewrite length_take, length_drop, Hl. split; reflexivity.
Qed.

(** A library that decodes a text to itself and shows no date. *)
Definition plain_library : Service.library :=
  {| Service.unicode_escape := fun s => Return s;
     Service.latest_text := fun _ => Return [] |}.

(** A page that loads with the given responses, and a browser whose
    account page is [account], without the button, and whose profile pages
    are [viewed]. *)
Definition loaded (rs : list (list N)) : Service.page :=
  {| Service.responses := List.map Some rs; Service.goto := Service.Loaded |}.

Definition browsing (account : Service.page)
    (viewed : list N -> Service.page) : Service.browser :=
  {| Service.open_context := fun _ => Return ();
     Service.account := account;
     Service.button := false;
     Service.revealed := [];
     Service.viewed := viewed;
     Service.finished := [] |}.

Lemma service_code_digits_and_text_witness :
  str "123456" <> []
  /\ Forall (fun a => isdecimal a = true) (str "123456")
  /\ str "123-456" = take 3 (str "123456") ++ str "-" ++ drop 3 (str "123456")
  /\ (length (str "123456") = 6%nat ->
      length (take 3 (str "123456")) = 3%nat
      /\ length (drop 3 (str "123456")) = 3%nat).
Proof.
  apply (service_code_digits_and_text plain_library
           (browsing (loaded [dq "{'authCode':'123456'}"])
                     (fun _ => loaded []))
           (str "a=b") (str "123456") (str "123-456") [] []).
  vm_compute. reflexivity.
Defined.

(** C7, as the claim has it, fails: a code of five digits is carried by a
    valid answer, and its text is three digits, a dash and two digits. *)
Lemma service_code_of_five_digits :
  Service.process_file plain_library
    (browsing (loaded [dq "{'authCode':'12345'}"]) (fun _ => loaded []))
    (str "a=b")
  = Return (Service.Valid (str "12345") (str "123-45") [] [])
  /\ length (str "12345") <> 6%nat.
Proof. split; [vm_compute; reflexivity|discriminate]. Qed.

(** ** The profile sub-fetches (claim C2) *)

Lemma first_raise_elem {A B : Type} (task : A -> py B) (l : list A)
    (g : A) (e : exn) :
  g ∈ l -> task g = Raise e -> exists e', Service.first_raise task l = Some e'.
Proof.
  intros Hg He. induction Hg as [g l|g h l _ IH]; simpl.
  - rewrite He. eauto.
  - destruct (task h); [exact (IH He)|eauto].
Qed.

Lemma first_raise_none {A B : Type} (task : A -> py B) (l : list A) :
  (forall g, g ∈ l -> exists r, task g = Return r) ->
  Service.first_raise task l = None.
Proof.
  induction l as [|h l IH]; intros H; simpl; [reflexivity|].
  destruct (H h) as [r ->]; [left|].
  apply IH. intros g Hg. apply H. right. exact Hg.
Qed.

Lemma mapM_returns {A B : Type} (task : A -> py B) (l : list A) :
  (forall g, g ∈ l -> exists r, task g = Return r) ->
  exists rs, mapM task l = Return rs
             /\ Forall2 (fun g r => task g = Return r) l rs.
Proof.
  induction l as [|h l IH]; intros H; simpl.
  - exists []. split; [reflexivity|constructor].
  - destruct (H h) as [r Hr]; [left|].
    destruct IH as (rs & Hrs & Hall); [intros g Hg; apply H; right; exact Hg|].
    exists (r :: rs). rewrite Hr. cbn [mbind py_bind]. rewrite Hrs.
    split; [reflexivity|]. constructor; assumption.
Qed.

(** One task that raises makes [gather] raise, whatever the order in which
    the tasks end. *)
Lemma gather_raises {A B : Type} `{EqDecision A} (task : A -> py B)
    (order gs : list A) (g : A) (e : exn) :
  g ∈ gs -> task g = Raise e ->
  exists e', Service.gather task order gs = Raise e'.
Proof.
  intros Hg He. unfold Service.gather.
  destruct (first_raise_elem task (filter (fun g => g ∈ gs) order ++ gs) g e)
    as [e' ->]; [apply elem_of_app; right; exact Hg|exact He|].
  eauto.
Qed.

Lemma gather_returns {A B : Type} `{EqDecision A} (task : A -> py B)
    (order gs : list A) :
  (forall g, g ∈ gs -> exists r, task g = Return r) ->
  exists rs, Service.gather task order gs = Return rs
             /\ Forall2 (fun g r => task g = Return r) gs rs.
Proof.
  intros H. unfold Service.gather. rewrite first_raise_none.
  - apply mapM_returns. exact H.
  - intros g Hg. apply elem_of_app in Hg as [Hg|Hg]; [|apply H; exact Hg].
    apply list_elem_of_filter in Hg as [Hg _]. apply H. exact Hg.
Qed.

(** C2, as the code has it. When the cookies parse, the context opens and
    the account page loads: an exception in the sub-fetch of one discovered
    profile ends the whole call with the timeout or the error answer, and
    no profile is reported; when no sub-fetch raises, the sub-fetches give
    one result for each discovered profile. *)
Theorem subfetch_exception_fails_call (L : Service.library)
    (b : Service.browser) (content : list N) (cookies : dict) :
  Service.parse_cookies content = Return cookies ->
  truthy cookies = true ->
  Service.open_context b cookies = Return () ->
  Service.goto (Service.account b) = Service.Loaded ->
  (forall g e,
      g ∈ Service.guids (Service.observed b) ->
      Service.fetch_profile L b g = Raise e ->
      Service.process_file L b content = Return Service.TimedOutScraping
      \/ exists e', Service.process_file L b content
                    = Return (Service.ScrapeError e'))
  /\ ((forall g, g ∈ Service.guids (Service.observed b) ->
                 exists r, Service.fetch_profile L b g = Return r) ->
      exists results,
        Service.scrape L b cookies
        = Return (Service.service_code (Service.observed b), results)
        /\ Forall2 (fun g r => Service.fetch_profile L b g = Return r)
                   (elements (Service.guids (Service.observed b))) results).
Proof.
  intros Hp Ht Ho Hg. split.
  - intros g e Hin He.
    destruct (gather_raises (Service.fetch_profile L b) (Service.finished b)
                (elements (Service.guids (Service.observed b))) g e)
      as [e' He']; [apply elem_of_elements; exact Hin|exact He|].
    unfold Service.process_file. rewrite Hp. cbn [mbind py_bind].
    rewrite Ht. cbn [negb]. unfold Service.scrape.
    rewrite Ho. cbn [mbind py_bind]. rewrite Hg, He'. cbn [mbind py_bind].
    destruct e'; eauto.
  - intros Hall.
    destruct (gather_returns (Service.fetch_profile L b) (Service.finished b)
                (elements (Service.guids (Service.observed b))))
      as (rs & Hrs & HF).
    { intros g Hin. apply Hall. apply elem_of_elements. exact Hin. }
    exists rs. split; [|exact HF].
    unfold Service.scrape. rewrite Ho. cbn [mbind py_bind].
    rewrite Hg, Hrs. reflexivity.
Qed.

(** An account page that shows a code and the profiles A and B; the page of
    A times out, the page of B loads and names the profile. *)
Definition two_profiles : Service.browser :=
  browsing (loaded [dq "{'authCode':'123456','guid':'A','guid':'B'}"])
           (fun g => if streq g (str "A")
                     then {| Service.responses := [];
                             Service.goto := Service.TimedOut |}
                     else loaded [dq "{'profileName':'Bob'}"]).

Lemma subfetch_exception_fails_call_witness :
  Service.process_file plain_library two_profiles (str "a=b")
  = Return Service.TimedOutScraping
  \/ exists e', Service.process_file plain_library two_profiles (str "a=b")
                = Return (Service.ScrapeError e').
Proof.
  destruct (subfetch_exception_fails_call plain_library two_profiles
              (str "a=b") {[KStr (str "a") := JStr (str "b")]})
    as [Hfail _]; try (vm_compute; reflexivity).
  apply (Hfail (str "A") PlaywrightTimeoutError).
  - apply (bool_decide_unpack _). vm_compute. exact I.
  - vm_compute. reflexivity.
Defined.

(** C2, as the claim has it, fails: the sub-fetch of B reports its result,
    the sub-fetch of A raises, and the call does not succeed with the
    result of B but ends with the timeout answer. *)
Lemma one_failure_aborts_the_batch :
  Service.fetch_profile plain_library two_profiles (str "B")
  = Return (str "Bob", [])
  /\ Service.fetch_profile plain_library two_profiles (str "A")
     = Raise PlaywrightTimeoutError
  /\ Service.process_file plain_library two_profiles (str "a=b")
     = Return Service.TimedOutScraping.
Proof. repeat split; vm_compute; reflexivity. Qed.

(** Without the failure every profile is reported, and a profile whose
    page names no profile is reported under its GUID. The names come in
    the order in which the set of GUIDs is iterated. *)
Example all_subfetches_report :
  Service.process_file plain_library
    (browsing (loaded [dq "{'authCode':'123456','guid':'A','guid':'B'}"])
              (fun g => if streq g (str "A") then loaded []
                        else loaded [dq "{'profileName':'Bob'}"]))
    (str "a=b")
  = Return (Service.Valid (str "123456") (str "123-456")
                          [str "Bob"; str "A"] []).
Proof. vm_compute. reflexivity. Qed.

(** ** The direct identifier scan (claim C10) *)

(** The longest head of [s] made of characters of [cs], and what follows
    it. *)
Fixpoint run (cs : Re.cset) (s : list N) : list N :=
  match s with
  | a :: s' => if Re.accepts cs a then a :: run cs s' else []
  | [] => []
  end.

Fixpoint after (cs : Re.cset) (s : list N) : list N :=
  match s with
  | a :: s' => if Re.accepts cs a then after cs s' else s
  | [] => []
  end.

Lemma run_after (cs : Re.cset) (s : list N) : run cs s ++ after cs s = s.
Proof.
  induction s as [|a s IH]; simpl; [reflexivity|].
  destruct (Re.accepts cs a); simpl; [rewrite IH|]; reflexivity.
Qed.

(** The run of a text of characters of [cs] that ends the subject or is
    followed by a character outside [cs]. *)
Lemma run_app (cs : Re.cset) (v post : list N) :
  Forall (fun a => Re.accepts cs a = true) v ->
  match post with [] => True | c :: _ => Re.accepts cs c = false end ->
  run cs (v ++ post) = v /\ after cs (v ++ post) = post.
Proof.
  intros Hv Hp. induction Hv as [|a v Ha _ IH]; simpl.
  - destruct post as [|c post]; simpl; [split; reflexivity|].
    rewrite Hp. split; reflexivity.
  - rewrite Ha. destruct IH as [-> ->]. split; reflexivity.
Qed.

(** A literal matches when the subject starts with it. *)
Lemma rmatch_lit {R : Type} (w : list N)
    (k : list N -> Re.caps -> option R) (s : list N) (c : Re.caps) :
  Re.rmatch (Re.lit w) k s c
  = if startswith s w then k (drop (length w) s) c else None.
Proof.
  revert s. induction w as [|a w IH]; intros s; simpl; [reflexivity|].
  destruct s as [|b s]; [reflexivity|]. simpl.
  rewrite orb_false_r, (N.eqb_sym b a).
  destruct (a =? b); simpl; [apply IH|reflexivity].
Qed.

(** A greedy repetition of a character set takes the whole run when the
    continuation accepts whatever it is given. *)
Lemma star_loop_chr {R : Type} (cs : Re.cset)
    (k : list N -> Re.caps -> option R) :
  (forall s c, is_Some (k s c)) ->
  forall fuel s c,
    (length s <= fuel)%nat ->
    Re.star_loop true (Re.rmatch (Re.Chr cs)) k fuel s c = k (after cs s) c.
Proof.
  intros Hk. induction fuel as [|fuel IH]; intros s c Hl.
  - destruct s; [reflexivity|simpl in Hl; lia].
  - destruct s as [|a s]; [reflexivity|]. simpl in Hl.
    cbn [Re.star_loop Re.rmatch after]. destruct (Re.accepts cs a).
    + assert (Hlt : Nat.ltb (length s) (length (a :: s)) = true)
        by (apply Nat.ltb_lt; simpl; lia).
      rewrite Hlt, IH by lia. destruct (Hk (after cs s) c) as [y ->].
      reflexivity.
    + reflexivity.
Qed.

(** The pattern [name([set]+)], of which [NetflixId=([^\s;]+)] and
    [SecureNetflixId=([^\s;]+)] are instances, matches at the head of the
    subject when the subject starts with the name and a character of the
    set follows; group 1 is the run of such characters. *)
Lemma match_here_assign (name : list N) (cs : Re.cset) (s : list N) :
  Re.match_here (Re.Seq (Re.lit name) (Re.Group 1 (Re.plus (Re.Chr cs)))) s
  = if startswith s name then
      match run cs (drop (length name) s) with
      | [] => None
      | v => Some (after cs (drop (length name) s), [(1%nat, v)])
      end
    else None.
Proof.
  unfold Re.match_here.
  change (Re.rmatch (Re.Seq ?r1 ?r2) ?k) with (Re.rmatch r1 (Re.rmatch r2 k)).
  rewrite rmatch_lit.
  destruct (startswith s name); [|reflexivity].
  generalize (drop (length name) s) as s0. intros s0.
  destruct s0 as [|a s1]; [reflexivity|]. cbn [run after].
  change (Re.rmatch (Re.Group 1 (Re.plus (Re.Chr cs)))
            (fun s' c => Some (s', c)) (a :: s1) [])
    with (if Re.accepts cs a
          then Re.star_loop true (Re.rmatch (Re.Chr cs))
                 (fun s' c' =>
                    Some (s', (1%nat,
                               take (length (a :: s1) - length s') (a :: s1))
                              :: c'))
                 (length s1) s1 []
          else None).
  destruct (Re.accepts cs a) eqn:Ha; [|reflexivity].
  rewrite star_loop_chr; [|intros; eexists; reflexivity|lia].
  f_equal. f_equal. f_equal. f_equal.
  apply (take_suffix _ (a :: run cs s1)). simpl. rewrite run_after.
  reflexivity.
Qed.

(** The characters of a value of the direct scan, [[^\s;]]. *)
Definition value_char (c : N) : bool := Re.accepts Bot7.value_chars c.

(** An assignment to [name] starts after the prefix [p] of the text: the
    name and at least one character of a value follow. *)
Definition assignment_at (name content p : list N) : Prop :=
  exists x q, content = p ++ name ++ x :: q /\ value_char x = true.

(** The text assigns [v] to [name] after [pre]: [v] is the whole value. *)
Definition assigns (name content pre v post : list N) : Prop :=
  content = pre ++ name ++ v ++ post
  /\ v <> []
  /\ Forall (fun c => value_char c = true) v
  /\ match post with [] => True | c :: _ => value_char c = false end.

(** The search of the pattern finds the first assignment of the text. *)
Lemma search_first_assignment (name pre v post : list N) :
  forall content,
    assigns name content pre v post ->
    (forall p, assignment_at name content p -> (length pre <= length p)%nat) ->
    Re.search (Re.Seq (Re.lit name)
                 (Re.Group 1 (Re.plus (Re.Chr Bot7.value_chars)))) content
    = Some {| Re.m_text := name ++ v; Re.m_rest := post;
              Re.m_caps := [(1%nat, v)] |}.
Proof.
  induction pre as [|a pre IH]; intros content (-> & Hne & Hv & Hp) Hfirst.
  - change ([] ++ name ++ v ++ post) with (name ++ v ++ post).
    rewrite search_unfold, match_here_assign.
    rewrite startswith_app, drop_app_length.
    destruct (run_app Bot7.value_chars v post Hv Hp) as [-> ->].
    destruct v as [|x v]; [contradiction|].
    f_equal. f_equal.
    apply (take_suffix _ (name ++ x :: v)). rewrite <- app_assoc.
    reflexivity.
  - rewrite search_unfold, match_here_assign.
    destruct (startswith _ name) eqn:Es.
    + destruct (run Bot7.value_chars _) as [|x r] eqn:Er.
      * apply IH.
        -- repeat split; assumption.
        -- intros p (x & q & Hq & Hx).
           specialize (Hfirst (a :: p)). simpl in Hfirst.
           apply Nat.succ_le_mono, Hfirst.
           exists x, q. split; [|exact Hx].
           rewrite <- !app_comm_cons. f_equal. exact Hq.
      * exfalso. apply startswith_drop in Es.
        pose proof (run_after Bot7.value_chars
                      (drop (length name) ((a :: pre) ++ name ++ v ++ post)))
          as Hra.
        rewrite Er in Hra.
        assert (Hx : value_char x = true).
        { revert Er. generalize (drop (length name)
                                   ((a :: pre) ++ name ++ v ++ post)).
          intros [|y l]; cbn [run]; [intros; discriminate|].
          destruct (Re.accepts Bot7.value_chars y) eqn:Ey;
            [|intros; discriminate].
          intros [= <- _]. exact Ey. }
        specialize (Hfirst []). simpl in Hfirst.
        assert (S (length pre) <= 0)%nat; [|lia].
        apply Hfirst. eexists x, _. split; [|exact Hx].
        simpl. rewrite Es at 1. rewrite <- Hra. reflexivity.
    + apply IH.
      * repeat split; assumption.
      * intros p (x & q & Hq & Hx).
        specialize (Hfirst (a :: p)). simpl in Hfirst.
        apply Nat.succ_le_mono, Hfirst.
        exists x, q. split; [|exact Hx].
           rewrite <- !app_comm_cons. f_equal. exact Hq.
Qed.

Lemma direct_scan_found (content v1 v2 : list N) (m1 m2 : Re.rematch) :
  Re.search Bot7.netflix_re content = Some m1 ->
  Re.search Bot7.secure_re content = Some m2 ->
  Re.m_caps m1 = [(1%nat, v1)] -> Re.m_caps m2 = [(1%nat, v2)] ->
  Bot7.direct_scan content
  = Return (Some (<[KStr (str "SecureNetflixId") := JStr v2]>
                    {[KStr (str "NetflixId") := JStr v1]})).
Proof.
  intros H1 H2 Hc1 Hc2. unfold Bot7.direct_scan. rewrite H1, H2.
  change (Re.group Bot7.netflix_re m1 1)
    with (Return (Re.cap_get 1 (Re.m_caps m1))).
  change (Re.group Bot7.secure_re m2 1)
    with (Return (Re.cap_get 1 (Re.m_caps m2))).
  rewrite Hc1, Hc2. reflexivity.
Qed.

(** C10: when the first assignment [SecureNetflixId=v] of the text is its
    first assignment to [NetflixId] as well, that is when every assignment
    [NetflixId=] of the text is the tail of an assignment
    [SecureNetflixId=], the parser returns from the direct scan with the
    value [v] under both names. *)
Theorem secure_value_taken_for_netflix_id
    (content ftype pre v post : list N) :
  assigns (str "SecureNetflixId=") content pre v post ->
  (forall p, assignment_at (str "SecureNetflixId=") content p ->
             (length pre <= length p)%nat) ->
  (forall p, assignment_at (str "NetflixId=") content p ->
             str "Secure" `suffix_of` p) ->
  Bot7.parse_cookies content ftype
  = Return (<[KStr (str "SecureNetflixId") := JStr v]>
              {[KStr (str "NetflixId") := JStr v]}).
Proof.
  intros Ha Hfirst Hno.
  pose proof (search_first_assignment _ _ _ _ _ Ha Hfirst) as Hs.
  assert (Hn : Re.search Bot7.netflix_re content
               = Some {| Re.m_text := str "NetflixId=" ++ v;
                         Re.m_rest := post; Re.m_caps := [(1%nat, v)] |}).
  { apply (search_first_assignment _ (pre ++ str "Secure")).
    - destruct Ha as (-> & Hne & Hv & Hp). repeat split; try assumption.
      rewrite <- app_assoc. reflexivity.
    - intros p Hp. destruct (Hno p Hp) as [p' ->].
      rewrite !length_app. apply Nat.add_le_mono_r, Hfirst.
      destruct Hp as (x & q & -> & Hx). exists x, q.
      split; [|exact Hx]. rewrite <- app_assoc. reflexivity. }
  unfold Bot7.parse_cookies.
  rewrite (direct_scan_found content v v _ _ Hn Hs eq_refl eq_refl).
  reflexivity.
Qed.

(** The text starts with an assignment to [name]. *)
Definition starts_assignment (name s : list N) : bool :=
  startswith s name
  && match drop (length name) s with
     | x :: _ => value_char x
     | [] => false
     end.

(** A property of the prefixes before the assignments of a text is checked
    at the positions of the text. *)
Lemma assignments_checked (name content : list N) (Q : list N -> Prop) :
  Forall (fun i => starts_assignment name (drop i content) = true ->
                   Q (take i content))
         (seq 0 (S (length content))) ->
  forall p, assignment_at name content p -> Q p.
Proof.
  intros H p (x & q & -> & Hx).
  rewrite Forall_forall in H. specialize (H (length p)).
  rewrite take_app_length, drop_app_length in H. apply H.
  - apply list_elem_of_In, in_seq. rewrite length_app. lia.
  - unfold starts_assignment.
    rewrite startswith_app, drop_app_length. exact Hx.
Qed.

Lemma secure_value_taken_for_netflix_id_witness :
  Bot7.parse_cookies (str "a=SecureNetflixId=x y") (str "txt")
  = Return (<[KStr (str "SecureNetflixId") := JStr (str "x")]>
              {[KStr (str "NetflixId") := JStr (str "x")]}).
Proof.
  apply (secure_value_taken_for_netflix_id
           (str "a=SecureNetflixId=x y") (str "txt")
           (str "a=") (str "x") (str " y")).
  - repeat split; [discriminate|repeat constructor].
  - apply assignments_checked. apply (bool_decide_unpack _).
    vm_compute. exact I.
  - apply assignments_checked. apply (bool_decide_unpack _).
    vm_compute. exact I.
Defined.

(** The example of the specification, where the direct scan takes the
    value of [NetflixId] from its own assignment. *)
Example direct_scan_in_noise :
  Bot7.parse_cookies
    (str "noise NetflixId=abc123; SecureNetflixId=def456 noise") (str "txt")
  = Return (<[KStr (str "SecureNetflixId") := JStr (str "def456")]>
              {[KStr (str "NetflixId") := JStr (str "abc123")]}).
Proof. vm_compute. reflexivity. Qed.

(** ** The chain of strategies (claim C4) *)

(** What a strategy yields, as the specification has it: a strategy that
    raises, returns nothing or returns an empty map yields nothing. *)
Definition yield (block : py (option dict)) : option dict :=
  match block with
  | Return (Some d) => if truthy d then Some d else None
  | Return None | Raise _ => None
  end.

(** The chain of the specification: the five strategies in their order, the
    map of the first one that yields, the empty map when none does. *)
Definition chain (content ftype : list N) : dict :=
  default ∅
    (head (omap yield
             [Bot7.direct_scan content;
              Bot7.json_array content ftype;
              Bot7.pipe_separated content;
              Bot7.netscape content;
              Return (Some (Bot7.semicolon_pairs content))])).

Lemma truthy_insert (k : pykey) (v : json) (d : dict) :
  truthy (<[k := v]> d) = true.
Proof.
  unfold truthy. rewrite bool_decide_eq_false_2; [reflexivity|].
  apply insert_non_empty.
Qed.

Lemma truthy_lookup (k : pykey) (d : dict) :
  is_Some (d !! k) -> truthy d = true.
Proof.
  intros [v Hv]. unfold truthy. rewrite bool_decide_eq_false_2; [reflexivity|].
  intros ->. rewrite lookup_empty in Hv. discriminate.
Qed.

(** The direct scan does not raise, and what it returns is not empty. *)
Lemma direct_scan_cases (content : list N) :
  Bot7.direct_scan content = Return None
  \/ exists d, Bot7.direct_scan content = Return (Some d) /\ truthy d = true.
Proof.
  unfold Bot7.direct_scan.
  destruct (Re.search Bot7.netflix_re content) as [m1|]; [|left; reflexivity].
  destruct (Re.search Bot7.secure_re content) as [m2|]; [|left; reflexivity].
  right. eexists. split; [reflexivity|apply truthy_insert].
Qed.

Lemma pipe_separated_cases (content : list N) :
  Bot7.pipe_separated content = Return None
  \/ exists d, Bot7.pipe_separated content = Return (Some d)
               /\ truthy d = true.
Proof.
  unfold Bot7.pipe_separated.
  destruct (_ && _ && _); [|left; reflexivity].
  destruct (bool_decide (is_Some (_ !! KStr (str "NetflixId")))) eqn:E;
    [|left; reflexivity].
  destruct (bool_decide (is_Some (_ !! KStr (str "SecureNetflixId"))));
    [|left; reflexivity].
  right. eexists. split; [reflexivity|].
  apply bool_decide_eq_true in E. eapply truthy_lookup. exact E.
Qed.

Lemma netscape_cases (content : list N) :
  Bot7.netscape content = Return None
  \/ exists d, Bot7.netscape content = Return (Some d) /\ truthy d = true.
Proof.
  unfold Bot7.netscape. destruct (truthy _) eqn:E; [right|left; reflexivity].
  eexists. split; [reflexivity|exact E].
Qed.

(** From the third strategy on the parser is the chain. *)
Lemma parse_tail_is_chain (content : list N) :
  Bot7.or_else (Bot7.pipe_separated content)
    (Bot7.or_else (Bot7.netscape content)
       (mret (Bot7.semicolon_pairs content)))
  = Return (default ∅
              (head (omap yield
                       [Bot7.pipe_separated content;
                        Bot7.netscape content;
                        Return (Some (Bot7.semicolon_pairs content))]))).
Proof.
  cbn [omap list_omap].
  destruct (pipe_separated_cases content) as [->|(d & -> & Hd)];
    [|simpl; rewrite Hd; reflexivity].
  destruct (netscape_cases content) as [->|(d & -> & Hd)];
    [|simpl; rewrite Hd; reflexivity].
  simpl. destruct (truthy (Bot7.semicolon_pairs content)) eqn:E;
    [reflexivity|].
  simpl. unfold truthy in E. apply negb_false_iff, bool_decide_eq_true in E.
  rewrite E. reflexivity.
Qed.

(** C4, as the code has it: the strategies are tried in the order 1 to 5, a
    strategy that yields nothing falls through to the next one, and the
    first non-empty map is returned without a later strategy having a say,
    with one exception: when the direct scan finds nothing and the text
    decodes to a JSON array, the map collected from the array is returned
    even when it is empty. The statement is about the texts on which the
    JSON strategy does not raise. *)
Theorem parse_cookies_chain (content ftype : list N) :
  (forall e, Bot7.json_array content ftype <> Raise e) ->
  (Bot7.direct_scan content = Return None ->
   Bot7.json_array content ftype = Return (Some ∅) ->
   Bot7.parse_cookies content ftype = Return ∅)
  /\ (Bot7.direct_scan content <> Return None
      \/ Bot7.json_array content ftype <> Return (Some ∅) ->
      Bot7.parse_cookies content ftype = Return (chain content ftype)).
Proof.
  intros Hj. unfold Bot7.parse_cookies, chain. split.
  - intros -> ->. reflexivity.
  - intros Hne. cbn [omap list_omap].
    destruct (direct_scan_cases content) as [Hd|(d & Hd & Ht)]; rewrite Hd.
    + destruct (Bot7.json_array content ftype) as [[d|]|e] eqn:Ej.
      * simpl. destruct (truthy d) eqn:Et; [reflexivity|].
        exfalso. unfold truthy in Et.
        apply negb_false_iff, bool_decide_eq_true in Et. subst d.
        destruct Hne as [Hne|Hne]; [apply Hne; exact Hd|].
        apply Hne. reflexivity.
      * cbn [yield]. change (Bot7.or_else (Return None) ?x) with x.
        rewrite parse_tail_is_chain. reflexivity.
      * exfalso. apply (Hj e). reflexivity.
    + simpl. rewrite Ht. reflexivity.
Qed.

Lemma parse_cookies_chain_witness :
  Bot7.parse_cookies (str ".example.com TRUE / TRUE 0 SessionId abc123")
    (str "txt")
  = Return (chain (str ".example.com TRUE / TRUE 0 SessionId abc123")
              (str "txt")).
Proof.
  apply (parse_cookies_chain
           (str ".example.com TRUE / TRUE 0 SessionId abc123") (str "txt")).
  - intros e. vm_compute. discriminate.
  - right. vm_compute. discriminate.
Defined.

(** C4, as the claim has it, fails: the text decodes to a JSON array with
    no cookie object in it, the parser returns the empty map of the JSON
    strategy, and the chain of the claim would go on to the semicolon
    pairs and yield a map of one entry. *)
Lemma empty_json_map_is_returned :
  Bot7.parse_cookies (dq "['a=b']") (str "txt") = Return ∅
  /\ chain (dq "['a=b']") (str "txt")
     = {[KStr (dq "['a") := JStr (dq "b']")]}
  /\ Bot7.parse_cookies (dq "['a=b']") (str "txt")
     <> Return (chain (dq "['a=b']") (str "txt")).
Proof.
  split; [vm_compute; reflexivity|].
  split; [vm_compute; reflexivity|].
  vm_compute. discriminate.
Qed.

(** ** The round trip through the JSON-array form (claim C9) *)

(** C9, as the claim has it, fails: the text [a=SecureNetflixId=] parses,
    by its semicolon pairs, to a map of one cookie; in the JSON-array form
    of that map the name [SecureNetflixId=] is followed by the closing
    quote and brackets, so the direct scan matches both of its patterns
    there, and parsing the form again gives another map. *)
Lemma round_trip_broken_by_direct_scan :
  Bot7.parse_cookies (str "a=SecureNetflixId=") (str "txt")
  = Return {[KStr (str "a") := JStr (str "SecureNetflixId=")]}
  /\ Dumps.serialize {[KStr (str "a") := JStr (str "SecureNetflixId=")]}
     = dq "[{'name': 'a', 'value': 'SecureNetflixId='}]"
  /\ Bot7.parse_cookies
       (Dumps.serialize {[KStr (str "a") := JStr (str "SecureNetflixId=")]})
       (str "json")
     = Return (<[KStr (str "SecureNetflixId") := JStr (dq "'}]")]>
                 {[KStr (str "NetflixId") := JStr (dq "'}]")]})
  /\ Bot7.parse_cookies
       (Dumps.serialize {[KStr (str "a") := JStr (str "SecureNetflixId=")]})
       (str "json")
     <> Return {[KStr (str "a") := JStr (str "SecureNetflixId=")]}.
Proof.
  repeat split; try (vm_compute; reflexivity).
  vm_compute. discriminate.
Qed.

(** A text: a string of Unicode scalar values, the code points up to
    U+10FFFF without the surrogates. *)
Definition scalar (c : N) : Prop :=
  c < 55296 \/ (57343 < c /\ c < 1114112).

Lemma hexval_hexdigit (d : N) :
  d < 16 -> hexval (Dumps.hexdigit d) = Some d.
Proof.
  intros H. unfold hexval, Dumps.hexdigit.
  destruct (N.ltb_spec d 10).
  - replace ((48 <=? 48 + d) && (48 + d <=? 57)) with true
      by (symmetry; apply andb_true_intro; split; apply N.leb_le; lia).
    f_equal. lia.
  - replace ((48 <=? 87 + d) && (87 + d <=? 57)) with false
      by (symmetry; apply andb_false_intro2, N.leb_gt; lia).
    replace ((97 <=? 87 + d) && (87 + d <=? 102)) with true
      by (symmetry; apply andb_true_intro; split; apply N.leb_le; lia).
    f_equal. lia.
Qed.

Lemma hex_digits_value (n : N) :
  n < 65536 ->
  n / 4096 < 16 /\ n / 256 mod 16 < 16 /\ n / 16 mod 16 < 16 /\ n mod 16 < 16
  /\ ((n / 4096 * 16 + n / 256 mod 16) * 16 + n / 16 mod 16) * 16 + n mod 16
     = n.
Proof.
  intros H.
  replace (n / 256) with (n / 16 / 16)
    by (rewrite N.Div0.div_div; reflexivity).
  replace (n / 4096) with (n / 16 / 16 / 16)
    by (rewrite !N.Div0.div_div; reflexivity).
  pose proof (N.div_mod n 16 ltac:(lia)) as E1.
  pose proof (N.mod_lt n 16 ltac:(lia)) as L1.
  pose proof (N.div_mod (n / 16) 16 ltac:(lia)) as E2.
  pose proof (N.mod_lt (n / 16) 16 ltac:(lia)) as L2.
  pose proof (N.div_mod (n / 16 / 16) 16 ltac:(lia)) as E3.
  pose proof (N.mod_lt (n / 16 / 16) 16 ltac:(lia)) as L3.
  generalize dependent (n mod 16). intros r1.
  generalize dependent ((n / 16) mod 16). intros r2.
  generalize dependent ((n / 16 / 16) mod 16). intros r3.
  generalize dependent (n / 16 / 16 / 16). intros q3.
  generalize dependent (n / 16 / 16). intros q2.
  generalize dependent (n / 16). intros q1. intros. lia.
Qed.

(** The decoder reads the four digits of an escape back. *)
Lemma u_escape_hex4 (n : N) :
  n < 65536 ->
  exists h1 h2 h3 h4,
    Dumps.u_escape n = [92; 117; h1; h2; h3; h4]
    /\ hex4 h1 h2 h3 h4 = Some n.
Proof.
  intros H. destruct (hex_digits_value n H) as (H1 & H2 & H3 & H4 & Hn).
  eexists _, _, _, _. split; [reflexivity|].
  unfold hex4. rewrite !hexval_hexdigit by assumption.
  rewrite Hn. reflexivity.
Qed.

Lemma scanstring_u_escape (n : N) (t acc : list N) :
  n < 65536 -> is_high n = false ->
  scanstring (Dumps.u_escape n ++ t) acc = scanstring t (n :: acc).
Proof.
  intros Hn Hh. destruct (u_escape_hex4 n Hn) as (h1 & h2 & h3 & h4 & -> & Hx).
  cbn [app scanstring]. change (92 =? 34) with false.
  change (92 =? 92) with true. change (117 =? 117) with true.
  cbv iota. rewrite Hx, Hh.
  destruct t as [|b [|v t]]; reflexivity.
Qed.

Lemma scanstring_pair (hi lo : N) (t acc : list N) :
  hi < 65536 -> lo < 65536 -> is_high hi = true -> is_low lo = true ->
  scanstring (Dumps.u_escape hi ++ Dumps.u_escape lo ++ t) acc
  = scanstring t (join_surrogates hi lo :: acc).
Proof.
  intros Hhi Hlo Hh Hl.
  destruct (u_escape_hex4 hi Hhi) as (h1 & h2 & h3 & h4 & -> & Hx).
  destruct (u_escape_hex4 lo Hlo) as (g1 & g2 & g3 & g4 & -> & Hy).
  cbn [app scanstring]. change (92 =? 34) with false.
  change (92 =? 92) with true. change (117 =? 117) with true.
  cbv iota. rewrite Hx, Hh. cbn [andb]. cbv iota. rewrite Hy, Hl.
  reflexivity.
Qed.

(** The decoder reads a character of a text back from its escape. *)
Lemma scanstring_escape_char (c : N) (t acc : list N) :
  scalar c ->
  scanstring (Dumps.escape_char c ++ t) acc = scanstring t (c :: acc).
Proof.
  intros Hc. unfold Dumps.escape_char.
  repeat match goal with
         | |- context [if ?c =? ?k then _ else _] =>
             destruct (N.eqb_spec c k) as [->|?]; [reflexivity|]
         end.
  destruct ((32 <=? c) && (c <=? 126)) eqn:Ep.
  - apply andb_prop in Ep as [E1 E2]. apply N.leb_le in E1.
    cbn [app scanstring].
    rewrite (proj2 (N.eqb_neq c 34)), (proj2 (N.eqb_neq c 92)) by assumption.
    rewrite (proj2 (N.ltb_ge c 32)) by assumption. reflexivity.
  - destruct (N.ltb_spec c 65536) as [Hlt|Hge].
    + apply scanstring_u_escape; [exact Hlt|].
      unfold is_high. destruct Hc as [Hc|[Hc _]].
      * apply andb_false_intro1, N.leb_gt. lia.
      * apply andb_false_intro2, N.leb_gt. lia.
    + destruct Hc as [Hc|[_ Hc]]; [lia|].
      pose proof (N.div_mod (c - 65536) 1024 ltac:(lia)) as Hd.
      pose proof (N.mod_lt (c - 65536) 1024 ltac:(lia)) as Hm.
      assert (Hq : (c - 65536) / 1024 < 1024)
        by (apply N.Div0.div_lt_upper_bound; lia).
      set (q := (c - 65536) / 1024) in *.
      set (r := (c - 65536) mod 1024) in *. clearbody q r.
      rewrite <- app_assoc, scanstring_pair.
      * f_equal. f_equal. unfold join_surrogates. lia.
      * lia.
      * lia.
      * unfold is_high. apply andb_true_intro. split; apply N.leb_le; lia.
      * unfold is_low. apply andb_true_intro. split; apply N.leb_le; lia.
Qed.

(** The decoder reads a text back from its escaped form. *)
Lemma scanstring_escaped (s rest : list N) :
  Forall scalar s ->
  forall acc,
    scanstring (flat_map Dumps.escape_char s ++ 34 :: rest) acc
    = Some (rev acc ++ s, rest).
Proof.
  induction 1 as [|c s Hc _ IH]; intros acc.
  - simpl. rewrite app_nil_r. reflexivity.
  - cbn [flat_map]. rewrite <- app_assoc, scanstring_escape_char by exact Hc.
    rewrite IH. simpl. rewrite <- app_assoc. reflexivity.
Qed.

Lemma scan_once_str (f : nat) (s rest : list N) :
  Forall scalar s ->
  scan_once (S f) (Dumps.dumps_str s ++ rest) = Some (JStr s, rest).
Proof.
  intros Hs. unfold Dumps.dumps_str.
  replace ((34 :: flat_map Dumps.escape_char s ++ [34]) ++ rest)
    with (34 :: flat_map Dumps.escape_char s ++ 34 :: rest)
    by (simpl; rewrite <- app_assoc; reflexivity).
  cbn [scan_once]. change (34 =? 34) with true. cbv iota.
  rewrite scanstring_escaped by exact Hs. reflexivity.
Qed.

Lemma scan_members_eq (f : nat) (s : list N) (acc : list (list N * json)) :
  scan_members (S f) s acc
  = match scanstring s [] with
    | None => None
    | Some (key, r) =>
        match skip_ws r with
        | d :: t =>
            if d =? 58 then
              match scan_once f (skip_ws t) with
              | None => None
              | Some (v, r') =>
                  match skip_ws r' with
                  | e :: t' =>
                      if e =? 125
                      then Some (JObj (rev ((key, v) :: acc)), t')
                      else if e =? 44 then
                        match skip_ws t' with
                        | q :: t'' =>
                            if q =? 34
                            then scan_members f t'' ((key, v) :: acc)
                            else None
                        | [] => None
                        end
                      else None
                  | [] => None
                  end
              end
            else None
        | [] => None
        end
    end.
Proof. reflexivity. Qed.

Lemma scan_items_eq (f : nat) (s : list N) (acc : list json) :
  scan_items (S f) s acc
  = match scan_once f s with
    | None => None
    | Some (v, r) =>
        match skip_ws r with
        | d :: t =>
            if d =? 93 then Some (JArr (rev (v :: acc)), t)
            else if d =? 44 then scan_items f (skip_ws t) (v :: acc)
            else None
        | [] => None
        end
    end.
Proof. reflexivity. Qed.

Lemma scan_member_more (f : nat) (key w t : list N)
    (acc : list (list N * json)) :
  Forall scalar key -> Forall scalar w ->
  scan_members (S (S f))
    (flat_map Dumps.escape_char key
     ++ 34 :: 58 :: 32 :: Dumps.dumps_str w ++ 44 :: 32 :: 34 :: t) acc
  = scan_members (S f) t ((key, JStr w) :: acc).
Proof.
  intros Hk Hw. rewrite scan_members_eq, scanstring_escaped by exact Hk.
  change (skip_ws (58 :: ?x)) with (58 :: x). change (58 =? 58) with true.
  cbv iota. change (skip_ws (32 :: ?x)) with (skip_ws x).
  change (skip_ws (Dumps.dumps_str w ++ ?x)) with (Dumps.dumps_str w ++ x).
  rewrite scan_once_str by exact Hw. reflexivity.
Qed.

Lemma scan_member_last (f : nat) (key w rest : list N)
    (acc : list (list N * json)) :
  Forall scalar key -> Forall scalar w ->
  scan_members (S (S f))
    (flat_map Dumps.escape_char key
     ++ 34 :: 58 :: 32 :: Dumps.dumps_str w ++ 125 :: rest) acc
  = Some (JObj (rev ((key, JStr w) :: acc)), rest).
Proof.
  intros Hk Hw. rewrite scan_members_eq, scanstring_escaped by exact Hk.
  change (skip_ws (58 :: ?x)) with (58 :: x). change (58 =? 58) with true.
  cbv iota. change (skip_ws (32 :: ?x)) with (skip_ws x).
  change (skip_ws (Dumps.dumps_str w ++ ?x)) with (Dumps.dumps_str w ++ x).
  rewrite scan_once_str by exact Hw. reflexivity.
Qed.

Lemma cookie_text (n w rest : list N) :
  Dumps.dumps (Dumps.cookie_object (KStr n, JStr w)) ++ rest
  = 123 :: 34 :: flat_map Dumps.escape_char (str "name")
    ++ 34 :: 58 :: 32 :: Dumps.dumps_str n
    ++ 44 :: 32 :: 34 :: flat_map Dumps.escape_char (str "value")
    ++ 34 :: 58 :: 32 :: Dumps.dumps_str w ++ 125 :: rest.
Proof.
  cbn [Dumps.dumps Dumps.cookie_object Dumps.key_value fst snd List.map Dumps.join].
  change (Dumps.dumps_str (str "name")) with (dq "'name'").
  change (Dumps.dumps_str (str "value")) with (dq "'value'").
  rewrite <- !app_assoc. reflexivity.
Qed.

Lemma scan_once_cookie (f : nat) (n w rest : list N) :
  Forall scalar n -> Forall scalar w ->
  scan_once (S (S (S (S f))))
    (Dumps.dumps (Dumps.cookie_object (KStr n, JStr w)) ++ rest)
  = Some (Dumps.cookie_object (KStr n, JStr w), rest).
Proof.
  intros Hn Hw. rewrite cookie_text.
  change (scan_once (S (S (S (S f)))) (123 :: 34 :: ?t))
    with (scan_members (S (S (S f))) t []).
  rewrite scan_member_more, scan_member_last; [reflexivity|..];
    try assumption; repeat constructor; left; reflexivity.
Qed.

(** The entries of a map of texts. *)
Definition text_entry (kv : pykey * json) : Prop :=
  match kv with
  | (KStr n, JStr w) => Forall scalar n /\ Forall scalar w
  | _ => False
  end.

Lemma cookie_starts (kv : pykey * json) (t : list N) :
  exists t', Dumps.dumps (Dumps.cookie_object kv) ++ t = 123 :: t'.
Proof. eexists. reflexivity. Qed.

Lemma join_cookies_starts (l : list (pykey * json)) (t : list N) :
  l <> [] ->
  exists t', Dumps.join (str ", ")
               (List.map Dumps.dumps (List.map Dumps.cookie_object l)) ++ t
             = 123 :: t'.
Proof.
  destruct l as [|kv [|kv' l]]; [contradiction| |]; intros _.
  - apply cookie_starts.
  - cbn [List.map Dumps.join]. rewrite <- app_assoc. apply cookie_starts.
Qed.

Lemma scan_items_cookies (l : list (pykey * json)) :
  Forall text_entry l -> l <> [] ->
  forall (f : nat) (acc : list json) (rest : list N),
    (length l + 4 <= f)%nat ->
    scan_items f
      (Dumps.join (str ", ")
         (List.map Dumps.dumps (List.map Dumps.cookie_object l))
       ++ 93 :: rest) acc
    = Some (JArr (rev acc ++ List.map Dumps.cookie_object l), rest).
Proof.
  induction 1 as [|kv l Hkv Hl IH]; [contradiction|]. intros _ f acc rest Hf.
  destruct kv as [[n| | |] []]; try contradiction. destruct Hkv as [Hn Hw].
  destruct f as [|[|[|[|[|f]]]]]; simpl in Hf; try lia.
  rewrite scan_items_eq. destruct l as [|kv' l].
  - cbn [List.map Dumps.join]. rewrite scan_once_cookie by assumption.
    change (skip_ws (93 :: rest)) with (93 :: rest).
    change (93 =? 93) with true. cbv iota. reflexivity.
  - change (Dumps.join (str ", ")
              (List.map Dumps.dumps
                 (List.map Dumps.cookie_object
                    ((KStr n, JStr s) :: kv' :: l))))
      with (Dumps.dumps (Dumps.cookie_object (KStr n, JStr s))
            ++ str ", "
            ++ Dumps.join (str ", ")
                 (List.map Dumps.dumps
                    (List.map Dumps.cookie_object (kv' :: l)))).
    rewrite <- !app_assoc. rewrite scan_once_cookie by assumption.
    change (skip_ws (str ", " ++ ?x)) with (44 :: 32 :: x).
    change (44 =? 93) with false. change (44 =? 44) with true. cbv iota.
    change (skip_ws (32 :: ?x)) with (skip_ws x).
    destruct (join_cookies_starts (kv' :: l) (93 :: rest)) as [t' Ht];
      [discriminate|].
    rewrite Ht. change (skip_ws (123 :: t')) with (123 :: t'). rewrite <- Ht.
    rewrite IH; [|discriminate|simpl in *; lia].
    cbn [rev List.map]. rewrite <- app_assoc. reflexivity.
Qed.


Lemma join_length (l : list (pykey * json)) :
  (length l
   <= length (Dumps.join (str ", ")
                (List.map Dumps.dumps (List.map Dumps.cookie_object l))))%nat.
Proof.
  induction l as [|kv [|kv' l] IH]; [simpl; lia|simpl; lia|].
  change (Dumps.join (str ", ")
            (List.map Dumps.dumps
               (List.map Dumps.cookie_object (kv :: kv' :: l))))
    with (Dumps.dumps (Dumps.cookie_object kv)
          ++ str ", "
          ++ Dumps.join (str ", ")
               (List.map Dumps.dumps
                  (List.map Dumps.cookie_object (kv' :: l)))).
  rewrite !length_app. simpl length at 1. simpl in IH |- *. lia.
Qed.

(** The decoder reads the JSON-array form of a map of texts back. *)
Lemma loads_cookies (l : list (pykey * json)) :
  Forall text_entry l ->
  loads (Dumps.dumps (JArr (List.map Dumps.cookie_object l)))
  = Some (JArr (List.map Dumps.cookie_object l)).
Proof.
  intros Hl. destruct l as [|kv l]; [reflexivity|].
  set (l' := kv :: l) in *.
  set (body := Dumps.join (str ", ")
                 (List.map Dumps.dumps (List.map Dumps.cookie_object l'))).
  change (Dumps.dumps (JArr (List.map Dumps.cookie_object l')))
    with (91 :: body ++ [93]).
  set (s := 91 :: body ++ [93]).
  change (loads s)
    with (match scan_once (2 * length s + 2) s with
          | Some (v, r) =>
              match skip_ws r with [] => Some v | _ :: _ => None end
          | None => None
          end).
  pose proof (join_length l') as Hlen. fold body in Hlen.
  assert (Hf : exists f : nat,
             (2 * length s + 2)%nat = S f /\ (length l' + 4 <= f)%nat).
  { assert (Hs : length s = S (length body + 1))
      by (unfold s; cbn [length]; rewrite length_app; reflexivity).
    exists (2 * length s + 1)%nat. split; lia. }
  destruct Hf as (f & -> & Hf). unfold s.
  destruct (join_cookies_starts l' [93]) as [t' Ht]; [discriminate|].
  fold body in Ht. rewrite Ht.
  change (scan_once (S f) (91 :: 123 :: t'))
    with (scan_items f (123 :: t') []).
  rewrite <- Ht. unfold body.
  rewrite scan_items_cookies; [reflexivity|exact Hl|discriminate|exact Hf].
Qed.

(** The comprehension collects the cookies of the decoded array in their
    order. *)
Lemma cookie_dict_objects (l : list (pykey * json)) :
  Forall text_entry l ->
  forall acc,
    Bot7.cookie_dict (List.map Dumps.cookie_object l) acc
    = Return (fold_left (fun a kv => <[kv.1 := kv.2]> a) l acc).
Proof.
  induction 1 as [|kv l Hkv _ IH]; intros acc; [reflexivity|].
  destruct kv as [[n| | |] []]; try contradiction.
  change (Bot7.cookie_dict
            (List.map Dumps.cookie_object ((KStr n, JStr s) :: l)) acc)
    with (Bot7.cookie_dict (List.map Dumps.cookie_object l)
            (<[KStr n := JStr s]> acc)).
  apply IH.
Qed.

Lemma fold_insert_map_to_list (d : dict) :
  fold_left (fun a kv => <[kv.1 := kv.2]> a) (map_to_list d) ∅ = d.
Proof.
  rewrite <- fold_left_rev_right.
  change (fold_right _ ∅ (rev (map_to_list d)))
    with (list_to_map (rev (map_to_list d)) : dict).
  transitivity (list_to_map (map_to_list d) : dict);
    [|apply list_to_map_to_list].
  symmetry. apply list_to_map_proper.
  - apply NoDup_fst_map_to_list.
  - apply Permutation_rev.
Qed.

(** C9, as the code has it: the round trip holds for a map of texts whose
    JSON-array form does not set off the direct scan. *)
Theorem json_round_trip (cookies : dict) (ftype : list N) :
  map_Forall (fun k v => text_entry (k, v)) cookies ->
  Bot7.direct_scan (Dumps.serialize cookies) = Return None ->
  Bot7.parse_cookies (Dumps.serialize cookies) ftype = Return cookies.
Proof.
  intros Ht Hd. apply map_Forall_to_list in Ht.
  assert (Hl : Forall text_entry (map_to_list cookies)).
  { eapply Forall_impl; [exact Ht|]. intros [k v] H. exact H. }
  unfold Bot7.parse_cookies. rewrite Hd.
  change (Bot7.or_else (Return None) ?x) with x.
  unfold Bot7.json_array.
  replace (startswith (lstrip (Dumps.serialize cookies)) (str "["))
    with true by reflexivity.
  rewrite orb_true_r.
  unfold Dumps.serialize, Dumps.cookie_array.
  rewrite loads_cookies by exact Hl.
  rewrite cookie_dict_objects by exact Hl.
  rewrite fold_insert_map_to_list. reflexivity.
Qed.

Lemma json_round_trip_witness :
  Bot7.parse_cookies
    (Dumps.serialize {[KStr (str "SessionId") := JStr (str "abc123")]})
    (str "txt")
  = Return {[KStr (str "SessionId") := JStr (str "abc123")]}.
Proof.
  apply json_round_trip.
  - apply map_Forall_singleton. split; repeat constructor; left; reflexivity.
  - vm_compute. reflexivity.
Defined.

(** The round trip of a map of two cookies, one of them with characters
    that the JSON-array form escapes. *)
Example round_trip_with_escapes :
  Bot7.parse_cookies
    (Dumps.serialize
       (<[KStr (str "b") := JStr [34; 92; 10; 233; 128512]]>
          {[KStr (str "a") := JStr (str "1")]}))
    (str "txt")
  = Return (<[KStr (str "b") := JStr [34; 92; 10; 233; 128512]]>
              {[KStr (str "a") := JStr (str "1")]}).
Proof. vm_compute. reflexivity. Qed.

(** * Further properties of the code *)

(** ** Lines and blanks *)

Section LineFacts.

(** A text without white space at its head. *)
Definition head_ok (s : list N) : bool :=
  match s with
  | [] => true
  | c :: _ => negb (isspace c)
  end.

Lemma lstrip_fixed (s : list N) : head_ok s = true -> lstrip s = s.
Proof.
  destruct s as [|c s]; [reflexivity|]. simpl.
  destruct (isspace c); [discriminate|reflexivity].
Qed.

Lemma lstrip_head_ok (s : list N) : head_ok (lstrip s) = true.
Proof.
  induction s as [|c s IH]; [reflexivity|]. simpl.
  destruct (isspace c) eqn:E; [exact IH|]. simpl. rewrite E. reflexivity.
Qed.

Lemma lstrip_suffix (s : list N) : lstrip s `suffix_of` s.
Proof.
  induction s as [|c s IH]; [reflexivity|]. simpl.
  destruct (isspace c); [|reflexivity].
  apply suffix_cons_r. exact IH.
Qed.

Lemma rstrip_prefix (s : list N) : rstrip s `prefix_of` s.
Proof.
  unfold rstrip. destruct (lstrip_suffix (rev s)) as [p Hp].
  exists (rev p). apply (f_equal (@rev N)) in Hp.
  rewrite rev_involutive, rev_app_distr in Hp. exact Hp.
Qed.

Lemma rstrip_fixed (s : list N) : head_ok (rev s) = true -> rstrip s = s.
Proof.
  intros H. unfold rstrip. rewrite lstrip_fixed by exact H.
  apply rev_involutive.
Qed.

Lemma rstrip_tail_ok (s : list N) : head_ok (rev (rstrip s)) = true.
Proof. unfold rstrip. rewrite rev_involutive. apply lstrip_head_ok. Qed.

Lemma suffix_tail_ok (s t : list N) :
  t `suffix_of` s -> head_ok (rev s) = true -> head_ok (rev t) = true.
Proof.
  intros [p ->]. rewrite rev_app_distr.
  destruct (rev t) as [|c r]; [reflexivity|]. simpl. tauto.
Qed.

(** [s.strip()] has no white space at either end, and a text that has none
    is left as it is. *)
Lemma strip_ends (s : list N) :
  head_ok (strip s) = true /\ head_ok (rev (strip s)) = true.
Proof.
  unfold strip. split; [apply lstrip_head_ok|].
  eapply suffix_tail_ok; [apply lstrip_suffix|apply rstrip_tail_ok].
Qed.

Lemma strip_fixed (s : list N) :
  head_ok s = true -> head_ok (rev s) = true -> strip s = s.
Proof.
  intros H1 H2. unfold strip. rewrite rstrip_fixed by exact H2.
  apply lstrip_fixed. exact H1.
Qed.

Lemma strip_idemp (s : list N) : strip (strip s) = strip s.
Proof. destruct (strip_ends s). apply strip_fixed; assumption. Qed.

(** [s.strip()] is a part of [s]. *)
Lemma strip_infix (s : list N) : exists p q, s = p ++ strip s ++ q.
Proof.
  unfold strip. destruct (rstrip_prefix s) as [q Hq].
  destruct (lstrip_suffix (rstrip s)) as [p Hp].
  exists p, q. rewrite app_assoc, <- Hp. exact Hq.
Qed.

Lemma islinebreak_isspace (c : N) : islinebreak c = true -> isspace c = true.
Proof.
  unfold islinebreak, isspace.
  rewrite !orb_true_iff, !andb_true_iff, !N.leb_le, !N.eqb_eq. lia.
Qed.

(** No line of [s.splitlines()] holds a line boundary. *)
Lemma splitlines_aux_lines (n : nat) :
  forall s cur,
    (length s <= n)%nat ->
    Forall (fun c => islinebreak c = false) cur ->
    Forall (Forall (fun c => islinebreak c = false)) (splitlines_aux s cur).
Proof.
  induction n as [|n IH]; intros s cur Hl Hc.
  - destruct s; [|simpl in Hl; lia]. simpl.
    destruct cur; constructor; [apply Forall_rev; exact Hc|constructor].
  - destruct s as [|c s]; simpl.
    + destruct cur; constructor; [apply Forall_rev; exact Hc|constructor].
    + simpl in Hl. destruct (islinebreak c) eqn:E.
      * constructor; [apply Forall_rev; exact Hc|].
        destruct s as [|d s]; [constructor|]. simpl in Hl.
        destruct ((c =? 13) && (d =? 10)); apply IH;
          simpl; try lia; constructor.
      * apply IH; [lia|]. constructor; assumption.
Qed.

Lemma splitlines_lines (s : list N) :
  Forall (Forall (fun c => islinebreak c = false)) (splitlines s).
Proof. apply (splitlines_aux_lines (length s)); [lia|constructor]. Qed.

(** A text without a line boundary is its own single line. *)
Lemma splitlines_aux_one_line (s cur : list N) :
  Forall (fun c => islinebreak c = false) s ->
  rev cur ++ s <> [] ->
  splitlines_aux s cur = [rev cur ++ s].
Proof.
  intros H. revert cur. induction H as [|c s Hc _ IH]; intros cur Hne; simpl.
  - rewrite app_nil_r in *. destruct cur; [contradiction|reflexivity].
  - rewrite Hc. rewrite IH; simpl; rewrite <- app_assoc; [reflexivity|].
    intros E. apply app_eq_nil in E as [_ E]. discriminate.
Qed.

Lemma splitlines_one_line (s : list N) :
  Forall (fun c => islinebreak c = false) s -> s <> [] -> splitlines s = [s].
Proof. intros H Hne. apply (splitlines_aux_one_line s []); assumption. Qed.

End LineFacts.

(** ** The intake of uploads and pasted texts *)

Section IntakeFacts.

Lemma split_not_nil (sep : N) (s : list N) : split sep s <> [].
Proof.
  destruct s as [|c s]; simpl; [discriminate|].
  destruct (c =? sep); [discriminate|].
  destruct (split sep s); discriminate.
Qed.

(** Splitting distributes over a separator of the text. *)
Lemma split_app_sep (sep : N) (s1 s2 : list N) :
  split sep (s1 ++ sep :: s2) = split sep s1 ++ split sep s2.
Proof.
  induction s1 as [|a s1 IH]; simpl.
  - rewrite N.eqb_refl. reflexivity.
  - destruct (a =? sep); [rewrite IH; reflexivity|].
    rewrite IH. pose proof (split_not_nil sep s1) as Hne.
    destruct (split sep s1) as [|w ws]; [contradiction|reflexivity].
Qed.

Lemma split_no_sep (sep : N) (s : list N) : sep ∉ s -> split sep s = [s].
Proof.
  induction s as [|a s IH]; intros H; simpl; [reflexivity|].
  apply not_elem_of_cons in H as [Ha Hs].
  destruct (N.eqb_spec a sep) as [->|_]; [contradiction|].
  rewrite IH by exact Hs. reflexivity.
Qed.

Lemma lower_ascii_dot (a : N) :
  (if (65 <=? a) && (a <=? 90) then a + 32 else a) = 46 -> a = 46.
Proof.
  destruct ((65 <=? a) && (a <=? 90)) eqn:E; [|tauto].
  apply andb_prop in E as [E _]. apply N.leb_le in E. lia.
Qed.

(** A name that ends, in lower case, with a dot and a word without dots
    has that word, in lower case, after its last dot. *)
Lemma endswith_last_part (s w : list N) :
  Intake.endswith (lower_ascii s) (46 :: w) = true ->
  46 ∉ w ->
  lower_ascii (Intake.last_part s) = w.
Proof.
  unfold Intake.endswith. intros H Hw.
  apply startswith_spec in H as [rest H].
  apply (f_equal (@rev N)) in H.
  rewrite rev_involutive, rev_app_distr, rev_involutive in H.
  unfold lower_ascii in H. apply map_eq_app in H as (s1 & s2' & -> & _ & H).
  destruct s2' as [|a s2]; [discriminate|]. simpl in H.
  injection H as Ha H. apply lower_ascii_dot in Ha as ->.
  unfold Intake.last_part. rewrite split_app_sep, (split_no_sep 46 s2).
  - rewrite last_snoc. simpl. exact H.
  - intros Hin. apply Hw. rewrite <- H.
    apply list_elem_of_In, in_map_iff. exists 46.
    split; [reflexivity|apply list_elem_of_In; exact Hin].
Qed.

(** The entries of the lines of a text. *)
Lemma entries_single_lines (entry_name : nat -> list N) (ftype : list N)
    (lines : list (list N)) :
  Forall (Forall (fun c => islinebreak c = false)) lines ->
  forall i,
    (length (Intake.entries entry_name ftype i lines) <= length lines)%nat
    /\ Forall (fun f : Intake.file =>
                 f.1.2 <> [] /\ strip f.1.2 = f.1.2
                 /\ splitlines f.1.2 = [f.1.2])
              (Intake.entries entry_name ftype i lines).
Proof.
  induction 1 as [|line lines Hl _ IH]; intros i; simpl.
  - split; [lia|constructor].
  - destruct (IH (S i)) as [Hlen Hall].
    destruct (strip line) as [|c e] eqn:E; [split; [lia|exact Hall]|].
    split; [simpl; lia|]. constructor; [|exact Hall]. simpl.
    split; [discriminate|]. rewrite <- E.
    split; [apply strip_idemp|].
    apply splitlines_one_line; [|rewrite E; discriminate].
    destruct (strip_infix line) as (p & q & Hpq).
    rewrite Hpq in Hl. apply Forall_app in Hl as [_ Hl].
    apply Forall_app in Hl as [Hl _]. exact Hl.
Qed.

(** The contents and the types of the entries do not depend on how the
    entries are named. *)
Lemma entries_names {A : Type} (g : list N -> list N -> A)
    (name1 name2 : nat -> list N) (ftype : list N) (lines : list (list N)) :
  forall i,
    List.map (fun f : Intake.file => g f.1.2 f.2)
             (Intake.entries name1 ftype i lines)
    = List.map (fun f : Intake.file => g f.1.2 f.2)
               (Intake.entries name2 ftype i lines).
Proof.
  induction lines as [|line lines IH]; intros i; simpl; [reflexivity|].
  destruct (strip line); [apply IH|]. simpl. rewrite IH. reflexivity.
Qed.

Lemma zip_files_types (members : list (list N * py (list N))) :
  forall files,
    Intake.zip_files members = Return files ->
    Forall (fun f : Intake.file =>
              lower_ascii f.2 = str "txt" \/ lower_ascii f.2 = str "json")
           files.
Proof.
  induction members as [|[filename read] members IH]; intros files; simpl.
  - intros [= <-]. constructor.
  - destruct (_ || _); [apply IH|].
    destruct (Intake.endswith _ (str ".txt")) eqn:Et.
    + simpl. destruct read as [text|e]; [|discriminate]. simpl.
      destruct (Intake.zip_files members) as [fs|e]; [|discriminate].
      intros [= <-]. constructor; [|apply IH; reflexivity]. left.
      apply endswith_last_part; [exact Et|]. apply (bool_decide_unpack _).
      vm_compute. exact I.
    + destruct (Intake.endswith _ (str ".json")) eqn:Ej; [|apply IH].
      simpl. destruct read as [text|e]; [|discriminate]. simpl.
      destruct (Intake.zip_files members) as [fs|e]; [|discriminate].
      intros [= <-]. constructor; [|apply IH; reflexivity]. right.
      apply endswith_last_part; [exact Ej|]. apply (bool_decide_unpack _).
      vm_compute. exact I.
Qed.

Lemma entries_types (entry_name : nat -> list N) (ftype : list N)
    (lines : list (list N)) :
  forall i, Forall (fun f : Intake.file => f.2 = ftype)
                   (Intake.entries entry_name ftype i lines).
Proof.
  induction lines as [|line lines IH]; intros i; simpl; [constructor|].
  destruct (strip line); [apply IH|]. constructor; [reflexivity|apply IH].
Qed.

End IntakeFacts.

(** The files scheduled from a text are the entries of its lines, and the
    lines are within the limit. *)
Lemma tasks_are_entries
    (status : py (list N)) (filename raw : list N)
    (archive : py (list (list N * py (list N))))
    (files : list Intake.file) :
  Intake.handle_text status raw = Intake.Tasks files
  \/ (Intake.handle_document status filename raw archive
      = Return (Intake.Tasks files)
      /\ lower_ascii (Intake.splitext_ext filename) <> str ".zip") ->
  (length (splitlines raw) <= Intake.TELEGRAM_MAX_LINES)%nat
  /\ exists entry_name ftype,
       files = Intake.entries entry_name ftype 0 (splitlines raw).
Proof.
  intros [H|[H Hz]].
  - unfold Intake.handle_text in H.
    destruct (negb (Intake.joined status)); [discriminate|].
    destruct (Nat.ltb_spec Intake.TELEGRAM_MAX_LINES (length (splitlines raw)))
      as [|Hlen]; [discriminate|].
    injection H as <-. split; [exact Hlen|]. eexists _, _. reflexivity.
  - unfold Intake.handle_document in H.
    destruct (negb (Intake.joined status)); [discriminate|].
    set (ext := lower_ascii (Intake.splitext_ext filename)) in *.
    destruct (streq ext (str ".txt") || streq ext (str ".json")).
    + destruct (Nat.ltb_spec Intake.TELEGRAM_MAX_LINES
                  (length (splitlines raw))) as [|Hlen]; [discriminate|].
      split; [exact Hlen|].
      exists (fun n => filename ++ str "-part" ++ Intake.decimal n ++ ext),
             (lstrip_char 46 ext).
      destruct (Intake.entries _ _ _ _) as [|f fs]; [discriminate|].
      injection H as <-. reflexivity.
    + destruct (streq ext (str ".zip")) eqn:E; [|discriminate].
      exfalso. apply Hz. apply bool_decide_eq_true in E. exact E.
Qed.

(** X1: every entry scheduled from a pasted text, or from a text or
    JSON document, is one line of it, stripped of the white space at its
    ends and not blank: a text of several lines is never handed whole to
    [process_file]. There are at most 4096 of them. *)
Theorem scheduled_entries_are_single_lines
    (status : py (list N)) (filename raw : list N)
    (archive : py (list (list N * py (list N))))
    (files : list Intake.file) :
  Intake.handle_text status raw = Intake.Tasks files
  \/ (Intake.handle_document status filename raw archive
      = Return (Intake.Tasks files)
      /\ lower_ascii (Intake.splitext_ext filename) <> str ".zip") ->
  (length files <= Intake.TELEGRAM_MAX_LINES)%nat
  /\ Forall (fun f : Intake.file =>
               f.1.2 <> [] /\ strip f.1.2 = f.1.2
               /\ splitlines f.1.2 = [f.1.2])
            files.
Proof.
  intros H.
  apply tasks_are_entries in H as (Hlen & entry_name & ftype & ->).
  destruct (entries_single_lines entry_name ftype (splitlines raw)
              (splitlines_lines raw) 0%nat) as [Hl Hall].
  split; [|exact Hall].
  etransitivity; [exact Hl|exact Hlen].
Qed.

Lemma scheduled_entries_are_single_lines_witness :
  (length [(str "paste-part1.txt", str "a=b", str "txt");
           (str "paste-part3.txt", str "c", str "txt")]
   <= Intake.TELEGRAM_MAX_LINES)%nat
  /\ Forall (fun f : Intake.file =>
               f.1.2 <> [] /\ strip f.1.2 = f.1.2
               /\ splitlines f.1.2 = [f.1.2])
            [(str "paste-part1.txt", str "a=b", str "txt");
             (str "paste-part3.txt", str "c", str "txt")].
Proof.
  apply (scheduled_entries_are_single_lines
           (Return (str "member")) [] (str " a=b " ++ [10; 10] ++ str "c")
           (Return [])).
  left. vm_compute. reflexivity.
Defined.

(** X2: a pasted text is checked as the same text uploaded in a
    document of type [.txt]: the two handlers schedule the same contents
    with the same file type, so the answers are the same. *)
Theorem pasted_text_is_a_txt_upload (L : Bot7.library) (net : Http.network)
    (status : py (list N)) (filename raw : list N)
    (archive : py (list (list N * py (list N)))) (o : Intake.outcome) :
  lower_ascii (Intake.splitext_ext filename) = str ".txt" ->
  Intake.handle_document status filename raw archive = Return o ->
  Intake.replies L net o
  = Intake.replies L net (Intake.handle_text status raw).
Proof.
  intros He H. unfold Intake.handle_document, Intake.handle_text in *.
  destruct (negb (Intake.joined status)); [injection H as <-; reflexivity|].
  rewrite He in H. change (streq (str ".txt") (str ".txt")) with true in H.
  cbn [orb] in H.
  destruct (Nat.ltb _ _); [injection H as <-; reflexivity|].
  pose proof (entries_names (Bot7.process_file L net)
                (fun n => filename ++ str "-part" ++ Intake.decimal n
                          ++ str ".txt")
                (fun n => str "paste-part" ++ Intake.decimal n ++ str ".txt")
                (str "txt") (splitlines raw) 0%nat) as Hn.
  change (lstrip_char 46 (str ".txt")) with (str "txt") in H.
  destruct (Intake.entries _ _ _ _) as [|f fs];
    injection H as <-; cbn [Intake.replies]; rewrite <- Hn; reflexivity.
Qed.

(** A library that leaves every text as it is and shows no date. *)
Definition plain_fields : Bot7.library :=
  {| Bot7.upper := fun s => s;
     Bot7.title := fun s => s;
     Bot7.unicode_escape := fun s => Return s;
     Bot7.country_name := fun s => Return s;
     Bot7.display_name := fun s => Return s;
     Bot7.signup_text := fun _ => Return [] |}.

(** A network without a route: every request fails in the transport. *)
Definition unreachable : Http.network :=
  {| Http.get := fun _ _ => Raise HTTPError |}.

Lemma pasted_text_is_a_txt_upload_witness :
  Intake.replies plain_fields unreachable
    (Intake.Tasks [(str "c.txt-part1.txt", str "a=b", str "txt")])
  = Intake.replies plain_fields unreachable
      (Intake.handle_text (Return (str "member")) (str "a=b")).
Proof.
  apply (pasted_text_is_a_txt_upload plain_fields unreachable
           (Return (str "member"))
           (str "c.txt") (str "a=b") (Return [])).
  - vm_compute. reflexivity.
  - vm_compute. reflexivity.
Defined.

(** X3: every file that [handle_document] schedules carries a file
    type that is, in lower case, [txt] or [json]: the extension of the
    document, or the text after the last dot of the name of a member of the
    archive. *)
Theorem scheduled_file_types (status : py (list N)) (filename raw : list N)
    (archive : py (list (list N * py (list N))))
    (files : list Intake.file) :
  Intake.handle_document status filename raw archive
  = Return (Intake.Tasks files) ->
  Forall (fun f : Intake.file =>
            lower_ascii f.2 = str "txt" \/ lower_ascii f.2 = str "json")
         files.
Proof.
  unfold Intake.handle_document.
  destruct (negb (Intake.joined status)); [discriminate|].
  set (ext := lower_ascii (Intake.splitext_ext filename)).
  destruct (streq ext (str ".txt")) eqn:Et;
    [|destruct (streq ext (str ".json")) eqn:Ej]; cbn [orb].
  - apply bool_decide_eq_true in Et. rewrite Et.
    destruct (Nat.ltb _ _); [discriminate|].
    pose proof (entries_types
                  (fun n => filename ++ str "-part" ++ Intake.decimal n
                            ++ str ".txt")
                  (lstrip_char 46 (str ".txt")) (splitlines raw) 0%nat) as Ht.
    destruct (Intake.entries _ _ _ _); [discriminate|].
    intros [= <-]. eapply Forall_impl; [exact Ht|].
    intros f' ->. left. reflexivity.
  - apply bool_decide_eq_true in Ej. rewrite Ej.
    destruct (Nat.ltb _ _); [discriminate|].
    pose proof (entries_types
                  (fun n => filename ++ str "-part" ++ Intake.decimal n
                            ++ str ".json")
                  (lstrip_char 46 (str ".json")) (splitlines raw) 0%nat) as Ht.
    destruct (Intake.entries _ _ _ _); [discriminate|].
    intros [= <-]. eapply Forall_impl; [exact Ht|].
    intros f' ->. right. reflexivity.
  - destruct (streq ext (str ".zip")); [|discriminate].
    destruct archive as [members|e]; [|discriminate]. simpl.
    destruct (Intake.zip_files members) as [fs|e] eqn:E; [|discriminate].
    simpl. destruct fs; [discriminate|]. intros [= <-].
    apply (zip_files_types members). exact E.
Qed.

Lemma scheduled_file_types_witness :
  Forall (fun f : Intake.file =>
            lower_ascii f.2 = str "txt" \/ lower_ascii f.2 = str "json")
         [(str "dir/Cookies.v2.JSON", str "[]", str "JSON")].
Proof.
  apply (scheduled_file_types (Return (str "creator")) (str "up.ZIP") []
           (Return [(str "__MACOSX/x.txt", Raise (Exception []));
                    (str "dir/._c.txt", Raise (Exception []));
                    (str "dir/Cookies.v2.JSON", Return (str "[]"));
                    (str "notes.md", Return (str "n"))])).
  vm_compute. reflexivity.
Defined.

(** ** The cookie parser of [bot7.py] *)

Section ParserFacts.

(** A match found by a search lies in the subject. *)
Lemma search_occurs (r : Re.regex) (s : list N) (m : Re.rematch) :
  Re.search r s = Some m -> exists p, s = p ++ Re.m_text m ++ Re.m_rest m.
Proof.
  induction s as [|a s IH]; rewrite search_unfold;
    destruct (Re.match_here r _) as [[s' c]|] eqn:E; try discriminate.
  - intros [= <-]. apply match_here_sound in E as (w & Hs & _).
    exists []. symmetry in Hs. apply app_eq_nil in Hs as [_ ->]. reflexivity.
  - intros [= <-]. apply match_here_sound in E as (w & Hs & _).
    exists []. cbn [Re.m_text Re.m_rest app].
    etransitivity; [exact Hs|]. f_equal. symmetry.
    apply (take_suffix _ _ _ Hs).
  - intros H. apply IH in H as [p ->]. exists (a :: p). reflexivity.
Qed.

(** A literal matches its own text only. *)
Lemma matches_lit (w x : list N) (c c' : Re.caps) :
  Re.matches (Re.lit w) x c c' -> x = w /\ c' = c.
Proof.
  revert x c. induction w as [|a w IH]; intros x c H.
  - inversion H; subst. split; reflexivity.
  - change (Re.lit (a :: w)) with (Re.Seq (Re.chr a) (Re.lit w)) in H.
    apply matches_seq_inv in H as (w1 & w2 & c1 & -> & H1 & H2).
    apply IH in H2 as [-> ->]. inversion H1 as [|cs b c0 Hb| | | | | |]; subst.
    simpl in Hb. rewrite orb_false_r in Hb. apply N.eqb_eq in Hb as ->.
    split; reflexivity.
Qed.

(** A match of the pattern [name([set]+)]: the name, and in group 1 a
    non-empty text of characters of the set. *)
Lemma matches_assign (name : list N) (cs : Re.cset) (w : list N)
    (c : Re.caps) :
  Re.matches (Re.Seq (Re.lit name) (Re.Group 1 (Re.plus (Re.Chr cs)))) w [] c ->
  exists v, w = name ++ v /\ c = [(1%nat, v)] /\ v <> []
            /\ Forall (fun a => Re.accepts cs a = true) v.
Proof.
  intros H. apply matches_seq_inv in H as (w1 & w2 & c1 & -> & H1 & H2).
  apply matches_lit in H1 as [-> ->].
  apply matches_group_inv in H2 as (c2 & -> & H2).
  pose proof (matches_nogroup (Re.plus (Re.Chr cs)) _ _ _ eq_refl H2) as ->.
  apply matches_plus_chr in H2 as [Hne Hv].
  exists w2. repeat split; assumption.
Qed.

(** A search of the pattern [name([set]+)] succeeds on a text that holds
    the name followed by a character of the set. *)
Lemma search_assign_some (name : list N) (cs : Re.cset) (p q : list N)
    (x : N) :
  Re.accepts cs x = true ->
  is_Some (Re.search (Re.Seq (Re.lit name) (Re.Group 1 (Re.plus (Re.Chr cs))))
                     (p ++ name ++ x :: q)).
Proof.
  intros Hx. induction p as [|a p IH].
  - change ([] ++ ?l) with l. rewrite search_unfold, match_here_assign.
    rewrite startswith_app, drop_app_length. cbn [run]. rewrite Hx.
    eexists. reflexivity.
  - rewrite search_unfold. destruct (Re.match_here _ _) as [[s' c]|].
    + eexists. reflexivity.
    + exact IH.
Qed.

(** What the direct scan returns. *)
Lemma direct_scan_some (content : list N) (d : dict) :
  Bot7.direct_scan content = Return (Some d) ->
  exists m1 m2 v1 v2,
    Re.search Bot7.netflix_re content = Some m1
    /\ Re.search Bot7.secure_re content = Some m2
    /\ Re.m_text m1 = str "NetflixId=" ++ v1
    /\ Re.m_text m2 = str "SecureNetflixId=" ++ v2
    /\ v1 <> [] /\ v2 <> []
    /\ Forall (fun a => Re.accepts Bot7.value_chars a = true) v1
    /\ Forall (fun a => Re.accepts Bot7.value_chars a = true) v2
    /\ d = <[KStr (str "SecureNetflixId") := JStr v2]>
             {[KStr (str "NetflixId") := JStr v1]}.
Proof.
  unfold Bot7.direct_scan.
  destruct (Re.search Bot7.netflix_re content) as [m1|] eqn:E1;
    [|discriminate].
  destruct (Re.search Bot7.secure_re content) as [m2|] eqn:E2;
    [|discriminate].
  change (Re.group Bot7.netflix_re m1 1)
    with (Return (Re.cap_get 1 (Re.m_caps m1))).
  change (Re.group Bot7.secure_re m2 1)
    with (Return (Re.cap_get 1 (Re.m_caps m2))).
  pose proof (search_sound _ _ _ E1) as H1.
  pose proof (search_sound _ _ _ E2) as H2.
  apply matches_assign in H1 as (v1 & Ht1 & Hc1 & Hne1 & Hv1).
  apply matches_assign in H2 as (v2 & Ht2 & Hc2 & Hne2 & Hv2).
  rewrite Hc1, Hc2. cbn. intros [= <-].
  exists m1, m2, v1, v2. repeat split; assumption.
Qed.


End ParserFacts.



(** X5: the two values that the direct scan returns are texts of
    the subject: each is not empty, holds no white space and no semicolon,
    and stands in the text right after its name and the equals sign. *)
Theorem direct_scan_values (content : list N) (d : dict) :
  Bot7.direct_scan content = Return (Some d) ->
  exists v1 v2,
    d = <[KStr (str "SecureNetflixId") := JStr v2]>
          {[KStr (str "NetflixId") := JStr v1]}
    /\ v1 <> [] /\ v2 <> []
    /\ Forall (fun a => isspace a = false /\ a <> 59) (v1 ++ v2)
    /\ (exists p q, content = p ++ str "NetflixId=" ++ v1 ++ q)
    /\ (exists p q, content = p ++ str "SecureNetflixId=" ++ v2 ++ q).
Proof.
  intros H.
  apply direct_scan_some in H
    as (m1 & m2 & v1 & v2 & E1 & E2 & Ht1 & Ht2 & Hn1 & Hn2 & Hv1 & Hv2 & ->).
  exists v1, v2. split; [reflexivity|]. split; [exact Hn1|].
  split; [exact Hn2|]. split; [|split].
  - apply Forall_app. split; (eapply Forall_impl; [eassumption|]);
      intros a Ha; simpl in Ha; rewrite orb_false_r in Ha;
      apply negb_true_iff, orb_false_elim in Ha as [Hs Hc];
      (split; [exact Hs|]); apply N.eqb_neq; exact Hc.
  - apply search_occurs in E1 as [p ->]. rewrite Ht1.
    exists p, (Re.m_rest m1). rewrite <- !app_assoc. reflexivity.
  - apply search_occurs in E2 as [p ->]. rewrite Ht2.
    exists p, (Re.m_rest m2). rewrite <- !app_assoc. reflexivity.
Qed.

Lemma direct_scan_values_witness :
  exists v1 v2,
    (<[KStr (str "SecureNetflixId") := JStr (str "w")]>
       {[KStr (str "NetflixId") := JStr (str "v")]} : dict)
    = <[KStr (str "SecureNetflixId") := JStr v2]>
        {[KStr (str "NetflixId") := JStr v1]}
    /\ v1 <> [] /\ v2 <> []
    /\ Forall (fun a => isspace a = false /\ a <> 59) (v1 ++ v2)
    /\ (exists p q, str "NetflixId=v; SecureNetflixId=w x"
                    = p ++ str "NetflixId=" ++ v1 ++ q)
    /\ (exists p q, str "NetflixId=v; SecureNetflixId=w x"
                    = p ++ str "SecureNetflixId=" ++ v2 ++ q).
Proof.
  apply (direct_scan_values (str "NetflixId=v; SecureNetflixId=w x")).
  vm_compute. reflexivity.
Defined.

(** X6: a text that holds [SecureNetflixId=] followed by a character
    of a value is always answered by the direct scan, with a value under
    each of the two names: the assignment holds [NetflixId=] as well. No
    other strategy looks at such a text. *)
Theorem secure_assignment_is_enough (content ftype p : list N) :
  assignment_at (str "SecureNetflixId=") content p ->
  exists v1 v2,
    Bot7.parse_cookies content ftype
    = Return (<[KStr (str "SecureNetflixId") := JStr v2]>
                {[KStr (str "NetflixId") := JStr v1]}).
Proof.
  intros (x & q & -> & Hx).
  destruct (search_assign_some (str "SecureNetflixId=") Bot7.value_chars
              p q x Hx) as [m2 E2].
  destruct (search_assign_some (str "NetflixId=") Bot7.value_chars
              (p ++ str "Secure") q x Hx) as [m1 E1].
  rewrite <- app_assoc in E1.
  change (str "Secure" ++ str "NetflixId=" ++ x :: q)
    with (str "SecureNetflixId=" ++ x :: q) in E1.
  pose proof (search_sound _ _ _ E1) as H1.
  pose proof (search_sound _ _ _ E2) as H2.
  apply matches_assign in H1 as (v1 & _ & Hc1 & _).
  apply matches_assign in H2 as (v2 & _ & Hc2 & _).
  exists v1, v2. unfold Bot7.parse_cookies.
  rewrite (direct_scan_found _ v1 v2 m1 m2 E1 E2 Hc1 Hc2). reflexivity.
Qed.

Lemma secure_assignment_is_enough_witness :
  exists v1 v2,
    Bot7.parse_cookies (dq "[{'name': 'SecureNetflixId=1'}]") (str "json")
    = Return (<[KStr (str "SecureNetflixId") := JStr v2]>
                {[KStr (str "NetflixId") := JStr v1]}).
Proof.
  apply (secure_assignment_is_enough
           (dq "[{'name': 'SecureNetflixId=1'}]") (str "json")
           (dq "[{'name': '")).
  exists 49, (dq "'}]"). split; reflexivity.
Defined.

(** ** Names and values of the text formats *)

(** A cookie whose name and value are texts. *)
Definition text_cookie (k : pykey) (v : json) : Prop :=
  (exists n, k = KStr n) /\ (exists w, v = JStr w).

Section TextCookies.

Lemma text_cookie_insert (n w : list N) (d : dict) :
  map_Forall text_cookie d -> map_Forall text_cookie (<[KStr n := JStr w]> d).
Proof.
  intros H. apply map_Forall_insert_2; [|exact H].
  split; eexists; reflexivity.
Qed.

Lemma fold_left_text {A : Type} (f : dict -> A -> dict) (l : list A) :
  (forall d x, map_Forall text_cookie d -> map_Forall text_cookie (f d x)) ->
  forall d, map_Forall text_cookie d -> map_Forall text_cookie (fold_left f l d).
Proof.
  intros Hf. induction l as [|x l IH]; intros d Hd; simpl; [exact Hd|].
  apply IH, Hf, Hd.
Qed.

Lemma bot7_add_pair_text (trim : bool) (d : dict) (part : list N) :
  map_Forall text_cookie d -> map_Forall text_cookie (Bot7.add_pair trim d part).
Proof.
  intros H. unfold Bot7.add_pair.
  destruct (split1 61 (strip part)) as [[name value]|]; [|exact H].
  destruct trim; apply text_cookie_insert; exact H.
Qed.

Lemma bot7_add_line_text (d : dict) (line : list N) :
  map_Forall text_cookie d -> map_Forall text_cookie (Bot7.add_line d line).
Proof.
  intros H. unfold Bot7.add_line. destruct (_ || _); [exact H|].
  destruct (_ !! 5%nat); [|exact H]. destruct (_ !! 6%nat); [|exact H].
  apply text_cookie_insert; exact H.
Qed.

Lemma bot_add_line_text (d : dict) (line : list N) :
  map_Forall text_cookie d -> map_Forall text_cookie (BotParser.add_line d line).
Proof.
  intros H. unfold BotParser.add_line. destruct (_ || _); [exact H|].
  destruct (_ !! 5%nat); [|exact H]. destruct (_ !! 6%nat); [|exact H].
  apply text_cookie_insert; exact H.
Qed.

Lemma service_add_line_text (d : dict) (line : list N) :
  map_Forall text_cookie d -> map_Forall text_cookie (Service.add_line d line).
Proof.
  intros H. unfold Service.add_line. destruct (_ || _); [exact H|].
  destruct (_ !! 5%nat); [|exact H]. destruct (_ !! 6%nat); [|exact H].
  apply text_cookie_insert; exact H.
Qed.

Lemma service_add_pair_text (d : dict) (part : list N) :
  map_Forall text_cookie d -> map_Forall text_cookie (Service.add_pair d part).
Proof.
  intros H. unfold Service.add_pair.
  destruct (split1 61 part) as [[name value]|]; [|exact H].
  apply text_cookie_insert; exact H.
Qed.

Lemma empty_text : map_Forall text_cookie (∅ : dict).
Proof. apply map_Forall_empty. Qed.

Lemma bot7_json_array_none (content ftype : list N) :
  (forall arr, loads content <> Some (JArr arr)) ->
  Bot7.json_array content ftype = Return None.
Proof.
  intros H. unfold Bot7.json_array. destruct (_ || _); [|reflexivity].
  destruct (loads content) as [[]|] eqn:E; try reflexivity.
  exfalso. eapply H. reflexivity.
Qed.

Lemma bot_json_array_none (content ftype : list N) :
  (forall arr, loads content <> Some (JArr arr)) ->
  BotParser.json_array content ftype = Return None.
Proof.
  intros H. unfold BotParser.json_array. destruct (_ || _); [|reflexivity].
  destruct (loads content) as [[]|] eqn:E; try reflexivity.
  exfalso. eapply H. reflexivity.
Qed.

Lemma direct_scan_text (content : list N) (d : dict) :
  Bot7.direct_scan content = Return (Some d) -> map_Forall text_cookie d.
Proof.
  intros H. apply direct_scan_some in H as (m1 & m2 & v1 & v2 & H).
  destruct H as (_ & _ & _ & _ & _ & _ & _ & _ & Hd). rewrite Hd.
  apply text_cookie_insert, text_cookie_insert, empty_text.
Qed.

Lemma pipe_separated_text (content : list N) (d : dict) :
  Bot7.pipe_separated content = Return (Some d) -> map_Forall text_cookie d.
Proof.
  unfold Bot7.pipe_separated. destruct (_ && _ && _); [|discriminate].
  destruct (_ && _); [|discriminate]. intros [= <-].
  apply fold_left_text; [apply bot7_add_pair_text|apply empty_text].
Qed.

Lemma netscape_text (content : list N) (d : dict) :
  Bot7.netscape content = Return (Some d) -> map_Forall text_cookie d.
Proof.
  unfold Bot7.netscape. destruct (truthy _); [|discriminate]. intros [= <-].
  apply fold_left_text; [apply bot7_add_line_text|apply empty_text].
Qed.

End TextCookies.

(** X7: on a text that is not a JSON array every parser of the
    repository returns cookies whose names and values are texts: only the
    JSON form can bring in a name or a value of another type. *)
Theorem text_formats_give_text_cookies (content ftype : list N) (d : dict) :
  (forall arr, loads content <> Some (JArr arr)) ->
  (Bot7.parse_cookies content ftype = Return d -> map_Forall text_cookie d)
  /\ (Bot2Parser.parse_cookies content ftype = Return d ->
      map_Forall text_cookie d)
  /\ (BotParser.parse_cookies content ftype = Return d ->
      map_Forall text_cookie d)
  /\ (Service.parse_cookies content = Return d -> map_Forall text_cookie d).
Proof.
  intros Hj. split; [|split; [|split]].
  - unfold Bot7.parse_cookies.
    destruct (Bot7.direct_scan content) as [[d1|]|e] eqn:Ed;
      [| |discriminate].
    + change (Bot7.or_else (Return (Some d1)) ?x) with (Return d1 : py dict).
      intros [= <-]. apply direct_scan_text in Ed. exact Ed.
    + change (Bot7.or_else (Return None) ?x) with x.
      rewrite bot7_json_array_none by exact Hj.
      change (Bot7.or_else (Return None) ?x) with x.
      destruct (Bot7.pipe_separated content) as [[d1|]|e] eqn:Ep;
        [| |discriminate].
      * change (Bot7.or_else (Return (Some d1)) ?x) with (Return d1 : py dict).
        intros [= <-]. apply pipe_separated_text in Ep. exact Ep.
      * change (Bot7.or_else (Return None) ?x) with x.
        destruct (Bot7.netscape content) as [[d1|]|e] eqn:En;
          [| |discriminate].
        -- change (Bot7.or_else (Return (Some d1)) ?x)
             with (Return d1 : py dict).
           intros [= <-]. apply netscape_text in En. exact En.
        -- change (Bot7.or_else (Return None) ?x) with x.
           intros [= <-]. apply fold_left_text;
             [apply bot7_add_pair_text|apply empty_text].
  - unfold Bot2Parser.parse_cookies.
    rewrite bot7_json_array_none by exact Hj.
    change (Bot7.or_else (Return None) ?x) with x. cbv zeta.
    assert (Hn : map_Forall text_cookie (BotParser.netscape content))
      by (apply fold_left_text; [apply bot_add_line_text|apply empty_text]).
    destruct (_ && _); intros [= <-]; [|exact Hn].
    apply fold_left_text; [apply bot7_add_pair_text|exact Hn].
  - unfold BotParser.parse_cookies.
    rewrite bot_json_array_none by exact Hj. intros [= <-].
    apply fold_left_text; [apply bot_add_line_text|apply empty_text].
  - unfold Service.parse_cookies.
    assert (Hn : map_Forall text_cookie
                   (fold_left Service.add_line (splitlines content) ∅))
      by (apply fold_left_text; [apply service_add_line_text|apply empty_text]).
    assert (Hr : (if negb (truthy (fold_left Service.add_line
                                     (splitlines content) ∅))
                  then mret (fold_left Service.add_pair
                               (split 59 (replace1 10 59 content))
                               (fold_left Service.add_line
                                  (splitlines content) ∅))
                  else mret (fold_left Service.add_line
                               (splitlines content) ∅))
                 = Return d -> map_Forall text_cookie d).
    { destruct (negb _); intros [= <-]; [|exact Hn].
      apply fold_left_text; [apply service_add_pair_text|exact Hn]. }
    unfold Service.json_array.
    destruct (loads content) as [[]|] eqn:E; try exact Hr.
    exfalso. eapply Hj. reflexivity.
Qed.

Lemma text_formats_give_text_cookies_witness :
  (Bot7.parse_cookies (str "a= 1;") (str "txt")
   = Return {[KStr (str "a") := JStr (str " 1")]} ->
   map_Forall text_cookie ({[KStr (str "a") := JStr (str " 1")]} : dict))
  /\ (Bot2Parser.parse_cookies (str "a= 1;") (str "txt")
      = Return {[KStr (str "a") := JStr (str " 1")]} ->
      map_Forall text_cookie ({[KStr (str "a") := JStr (str " 1")]} : dict))
  /\ (BotParser.parse_cookies (str "a= 1;") (str "txt")
      = Return {[KStr (str "a") := JStr (str " 1")]} ->
      map_Forall text_cookie ({[KStr (str "a") := JStr (str " 1")]} : dict))
  /\ (Service.parse_cookies (str "a= 1;")
      = Return {[KStr (str "a") := JStr (str " 1")]} ->
      map_Forall text_cookie ({[KStr (str "a") := JStr (str " 1")]} : dict)).
Proof.
  apply (text_formats_give_text_cookies (str "a= 1;") (str "txt")
           {[KStr (str "a") := JStr (str " 1")]}).
  intros arr. vm_compute. discriminate.
Defined.

(** ** Lines of a Netscape cookie file *)

Section NetscapeFacts.

Lemma lstrip_app_head (a b : list N) :
  b <> [] -> head_ok b = true -> lstrip (a ++ b) = lstrip a ++ b.
Proof.
  intros Hne Hb. induction a as [|c a IH]; simpl.
  - apply lstrip_fixed. exact Hb.
  - destruct (isspace c); [exact IH|reflexivity].
Qed.

(** Stripping a text that begins with a word without white space at its
    ends strips the end of the text only. *)
Lemma strip_after_word (p l : list N) :
  p <> [] -> head_ok p = true -> head_ok (rev p) = true ->
  strip (p ++ l) = p ++ rstrip l.
Proof.
  intros Hne Hh Ht. unfold strip, rstrip.
  rewrite rev_app_distr, lstrip_app_head, rev_app_distr, rev_involutive.
  - apply lstrip_fixed. destruct p; [contradiction|exact Hh].
  - intros E. apply (f_equal (@rev N)) in E. rewrite rev_involutive in E.
    contradiction.
  - exact Ht.
Qed.

Lemma lstrip_fixed_head (l : list N) : lstrip l = l -> head_ok l = true.
Proof. intros <-. apply lstrip_head_ok. Qed.

Lemma prefix_head_ok (t s : list N) :
  t `prefix_of` s -> head_ok s = true -> head_ok t = true.
Proof. intros [k ->]. destruct t; [reflexivity|]. simpl. tauto. Qed.

Lemma strip_of_headed (l : list N) : head_ok l = true -> strip l = rstrip l.
Proof.
  intros H. unfold strip. apply lstrip_fixed.
  eapply prefix_head_ok; [apply rstrip_prefix|exact H].
Qed.

Lemma startswith_head (c : N) (r : list N) (a : N) (w : list N) :
  (a =? c) = false -> startswith (c :: r) (a :: w) = false.
Proof. intros H. cbn [startswith]. rewrite H. reflexivity. Qed.

End NetscapeFacts.

(** X8: a line [#HttpOnly_] followed by a text is read as the
    text alone, by the loops of all three checkers, when the text begins
    neither with white space nor with [#]. *)
Theorem http_only_prefix_is_dropped (cookies : dict) (l : list N) :
  lstrip l = l -> startswith l (str "#") = false ->
  Bot7.add_line cookies (str "#HttpOnly_" ++ l) = Bot7.add_line cookies l
  /\ BotParser.add_line cookies (str "#HttpOnly_" ++ l)
     = BotParser.add_line cookies l.
Proof.
  intros Hl Hc. apply lstrip_fixed_head in Hl.
  assert (Hs : strip (str "#HttpOnly_" ++ l) = str "#HttpOnly_" ++ rstrip l)
    by (apply strip_after_word; [discriminate|reflexivity|reflexivity]).
  pose proof (strip_of_headed l Hl) as Hs'.
  assert (Hr : rstrip l = [] \/ exists c r, rstrip l = c :: r
                                            /\ (35 =? c) = false).
  { destruct (rstrip_prefix l) as [k Hk].
    destruct (rstrip l) as [|c r]; [left; reflexivity|right].
    exists c, r. split; [reflexivity|]. rewrite Hk in Hc. simpl in Hc.
    rewrite andb_true_r in Hc. exact Hc. }
  unfold Bot7.add_line, BotParser.add_line. rewrite Hs, Hs'.
  destruct Hr as [->|(c & r & -> & Hc')]; [split; reflexivity|].
  change (startswith (str "#HttpOnly_" ++ c :: r) (str "#")) with true.
  rewrite (startswith_app (str "#HttpOnly_") (c :: r)).
  rewrite drop_app_length.
  replace (startswith (c :: r) (str "#")) with false
    by (symmetry; apply (startswith_head c r 35 []); exact Hc').
  replace (startswith (c :: r) (str "#HttpOnly_")) with false
    by (symmetry; apply (startswith_head c r 35 (str "HttpOnly_"));
        exact Hc').
  split; reflexivity.
Qed.

(** A line of seven fields separated by tabs. *)
Definition netflix_line : list N :=
  str ".netflix.com" ++ [9] ++ str "TRUE" ++ [9] ++ str "/" ++ [9]
  ++ str "TRUE" ++ [9] ++ str "0" ++ [9] ++ str "NetflixId" ++ [9]
  ++ str "abc".

Lemma http_only_prefix_is_dropped_witness :
  Bot7.add_line ∅ (str "#HttpOnly_" ++ netflix_line)
  = Bot7.add_line ∅ netflix_line
  /\ BotParser.add_line ∅ (str "#HttpOnly_" ++ netflix_line)
     = BotParser.add_line ∅ netflix_line.
Proof.
  apply (http_only_prefix_is_dropped ∅ netflix_line); reflexivity.
Defined.

(** ** One credential, [process_file] of [bot7.py] *)

Section ProcessFacts.

Lemma session_cookies_none (cookies : dict) :
  cookies !! KStr (str "NetflixId") = None ->
  cookies !! KStr (str "SecureNetflixId") = None ->
  Bot7.session_cookies cookies = ∅.
Proof.
  intros H1 H2. apply map_eq. intros k.
  rewrite session_cookies_lookup, lookup_empty.
  destruct (decide _) as [[-> | ->]|]; [exact H1|exact H2|reflexivity].
Qed.

(** A pattern whose every match begins with the character [a]. *)
Fixpoint opens_with (a : N) (r : Re.regex) : bool :=
  match r with
  | Re.Chr (Re.OneOf [Re.CChar c]) => c =? a
  | Re.Seq r1 _ => opens_with a r1
  | Re.Group _ r1 => opens_with a r1
  | _ => false
  end.

Lemma rmatch_opens {R : Type} (a : N) (r : Re.regex) :
  opens_with a r = true ->
  forall (k : list N -> Re.caps -> option R) s c,
    match s with b :: _ => b <> a | [] => True end ->
    Re.rmatch r k s c = None.
Proof.
  induction r as [|cs|r1 IH1 r2 _|r1 _ r2 _|g r _|n r IH];
    intros Ho k s c Hs; simpl in Ho; try discriminate.
  - destruct cs as [| |[|[d| | |] [|]]|]; try discriminate.
    apply N.eqb_eq in Ho as ->. destruct s as [|b s]; [reflexivity|].
    simpl. rewrite orb_false_r.
    destruct (N.eqb_spec b a) as [->|_]; [contradiction|reflexivity].
  - simpl. apply IH1; assumption.
  - simpl. apply IH; assumption.
Qed.

Lemma search_opens (a : N) (r : Re.regex) (s : list N) :
  opens_with a r = true -> a ∉ s -> Re.search r s = None.
Proof.
  intros Ho. induction s as [|b s IH]; intros Hs; rewrite search_unfold;
    unfold Re.match_here.
  - rewrite (rmatch_opens a r Ho); [reflexivity|exact I].
  - apply not_elem_of_cons in Hs as [Hb Hs].
    rewrite (rmatch_opens a r Ho); [apply IH; exact Hs|].
    intros ->. apply Hb. reflexivity.
Qed.

Lemma field_none (re : Re.regex) (html : list N)
    (f : option (list N) -> py (list N)) :
  Re.search re html = None -> Bot7.field re html f = Return None.
Proof. intros H. unfold Bot7.field. rewrite H. reflexivity. Qed.

End ProcessFacts.

(** X9: a text whose parsed cookies name neither [NetflixId] nor
    [SecureNetflixId] is answered without a request: on every network the
    answer is that the identifiers are missing or, when nothing was parsed,
    that the format is incorrect. *)
Theorem no_request_without_session_cookie (L : Bot7.library)
    (net : Http.network) (content ftype : list N) (cookies : dict) :
  Bot7.parse_cookies content ftype = Return cookies ->
  cookies !! KStr (str "NetflixId") = None ->
  cookies !! KStr (str "SecureNetflixId") = None ->
  Bot7.process_file L net content ftype
  = Return (if truthy cookies then Bot7.MissingIds else Bot7.BadFormat).
Proof.
  intros Hp H1 H2. unfold Bot7.process_file, Bot7.check. rewrite Hp.
  cbn [mbind py_bind]. rewrite (session_cookies_none cookies H1 H2).
  destruct (truthy cookies); reflexivity.
Qed.

Lemma no_request_without_session_cookie_witness :
  Bot7.process_file plain_fields unreachable (str "a=b; c=d") (str "txt")
  = Return (if truthy (<[KStr (str "c") := JStr (str "d")]>
                         {[KStr (str "a") := JStr (str "b")]})
            then Bot7.MissingIds else Bot7.BadFormat).
Proof.
  apply (no_request_without_session_cookie plain_fields unreachable
           (str "a=b; c=d") (str "txt")); vm_compute; reflexivity.
Defined.

(** X10: when a request of the check fails, a failure of the
    class [httpx.HTTPError] is answered as an invalid or expired cookie,
    and an exception of any other class leaves [process_file]. *)
Theorem transport_failure (L : Bot7.library) (net : Http.network)
    (content ftype : list N) (cookies : dict) (e : exn) :
  Bot7.parse_cookies content ftype = Return cookies ->
  truthy (Bot7.session_cookies cookies) = true ->
  Http.get net Bot7.root_url (Bot7.session_cookies cookies) = Raise e
  \/ (exists first jar1,
        Http.get net Bot7.root_url (Bot7.session_cookies cookies)
        = Return (first, jar1)
        /\ Http.get net Bot7.account_url jar1 = Raise e) ->
  Bot7.process_file L net content ftype
  = match e with
    | HTTPError => Return Bot7.InvalidOrExpired
    | _ => Raise e
    end.
Proof.
  intros Hp Ht Hg. unfold Bot7.process_file, Bot7.check. rewrite Hp.
  cbn [mbind py_bind]. rewrite (truthy_session cookies Ht), Ht. cbn [negb].
  unfold Bot7.validate.
  destruct Hg as [->|(first & jar1 & -> & Hg)];
    cbn [mbind py_bind]; [|rewrite Hg]; destruct e; reflexivity.
Qed.

(** A network that answers the first request and fails, with a timeout that
    is no [httpx.HTTPError], on the account page. *)
Definition stalling : Http.network :=
  {| Http.get := fun url jar =>
       if streq url Bot7.root_url
       then Return ({| Http.status_code := 200; Http.url := url;
                       Http.text := [] |}, jar)
       else Raise (Exception (str "timeout")) |}.

Lemma transport_failure_witness :
  Bot7.process_file plain_fields stalling (str "NetflixId=a") (str "txt")
  = Raise (Exception (str "timeout")).
Proof.
  apply (transport_failure plain_fields stalling (str "NetflixId=a")
           (str "txt") {[KStr (str "NetflixId") := JStr (str "a")]}
           (Exception (str "timeout"))).
  - vm_compute. reflexivity.
  - vm_compute. reflexivity.
  - right. eexists _, _. split; vm_compute; reflexivity.
Defined.

(** X11: on a body without a double quote, such as a page that carries
    no account data, no pattern of the report matches and the report is its
    heading alone. *)
Theorem report_of_a_body_without_quotes (L : Bot7.library) (html : list N) :
  34 ∉ html ->
  Bot7.account_section L html = Return [str "Account Information:"].
Proof.
  intros H.
  assert (Hs : forall re, opens_with 34 re = true -> Re.search re html = None)
    by (intros re Ho; apply (search_opens 34); assumption).
  unfold Bot7.account_section, Bot7.extract_netflix_account_info.
  rewrite (Hs Bot7.third_party_re eq_refl).
  rewrite (Hs Bot7.payment_methods_re eq_refl).
  rewrite !field_none by (apply Hs; reflexivity).
  rewrite (Hs Bot7.plan_re eq_refl), (Hs Bot7.country_re eq_refl).
  rewrite (Hs Bot7.first_name_re eq_refl), (Hs Bot7.member_since_re eq_refl).
  reflexivity.
Qed.

Lemma report_of_a_body_without_quotes_witness :
  Bot7.account_section plain_fields (str "<html>Sign in</html>")
  = Return [str "Account Information:"].
Proof.
  apply (report_of_a_body_without_quotes plain_fields).
  apply (bool_decide_unpack _). vm_compute. exact I.
Defined.

(** X12: the cookies that the client is opened with are cookies of
    the parsed map, with their values, under the two names only: at most
    two; and filtering them again changes nothing. *)
Theorem session_cookies_are_the_two_identifiers (cookies : dict) :
  Bot7.session_cookies cookies ⊆ cookies
  /\ (forall k v, Bot7.session_cookies cookies !! k = Some v ->
                  cookies !! k = Some v
                  /\ (k = KStr (str "NetflixId")
                      \/ k = KStr (str "SecureNetflixId")))
  /\ (size (Bot7.session_cookies cookies) <= 2)%nat
  /\ Bot7.session_cookies (Bot7.session_cookies cookies)
     = Bot7.session_cookies cookies.
Proof.
  split; [apply map_filter_subseteq|]. split; [|split].
  - intros k v Hk. rewrite session_cookies_lookup in Hk.
    destruct (decide _) as [Hd|]; [|discriminate]. split; assumption.
  - rewrite <- size_dom.
    transitivity (size ({[KStr (str "NetflixId");
                          KStr (str "SecureNetflixId")]} : gset pykey)).
    + apply subseteq_size. intros k Hk. apply elem_of_dom in Hk as [v Hk].
      rewrite session_cookies_lookup in Hk.
      destruct (decide _) as [[-> | ->]|]; [| |discriminate]; set_solver.
    + rewrite size_union_alt, !size_singleton.
      pose proof (subseteq_size
                    (({[KStr (str "SecureNetflixId")]} : gset pykey)
                     ∖ {[KStr (str "NetflixId")]})
                    {[KStr (str "SecureNetflixId")]}) as Hs.
      rewrite size_singleton in Hs. specialize (Hs ltac:(set_solver)). lia.
  - apply map_eq. intros k. rewrite !session_cookies_lookup.
    destruct (decide _); reflexivity.
Qed.

(** ** The answers of [process_file], [bot7.py] *)

(** X13: the cookie is answered as working only after both requests
    of the client, opened with the session cookies of the parsed map, have
    returned and the final URL is under the account URL; the report is the
    one read from the body of the final response. *)
Theorem working_answer (L : Bot7.library) (net : Http.network)
    (content ftype : list N) (section : list (list N)) :
  Bot7.process_file L net content ftype = Return (Bot7.Working section) ->
  exists cookies first jar1 final jar2,
    Bot7.parse_cookies content ftype = Return cookies
    /\ Http.get net Bot7.root_url (Bot7.session_cookies cookies)
       = Return (first, jar1)
    /\ Http.get net Bot7.account_url jar1 = Return (final, jar2)
    /\ (exists rest, Http.url final = Bot7.account_url ++ rest)
    /\ Bot7.account_section L (Http.text final) = Return section.
Proof.
  unfold Bot7.process_file.
  destruct (Bot7.parse_cookies content ftype) as [cookies|e]; [|discriminate].
  cbn [mbind py_bind]. unfold Bot7.check.
  destruct (negb (truthy cookies)); [discriminate|].
  destruct (negb (truthy (Bot7.session_cookies cookies))); [discriminate|].
  unfold Bot7.validate.
  destruct (Http.get net Bot7.root_url (Bot7.session_cookies cookies))
    as [[first jar1]|e] eqn:E1;
    [|destruct e; discriminate].
  cbn [mbind py_bind].
  destruct (Http.get net Bot7.account_url jar1) as [[final jar2]|e] eqn:E2;
    [|destruct e; discriminate].
  cbn [mbind py_bind mret py_ret fst snd].
  destruct (startswith (Http.url final) Bot7.account_url) eqn:Eu;
    [|discriminate].
  destruct (Bot7.account_section L (Http.text final)) as [s|e] eqn:Es;
    [|discriminate].
  intros [= <-]. exists cookies, first, jar1, final, jar2.
  repeat split; try reflexivity; try assumption.
  apply startswith_spec. exact Eu.
Qed.

Lemma working_answer_witness :
  exists cookies first jar1 final jar2,
    Bot7.parse_cookies (str "NetflixId=a") (str "txt") = Return cookies
    /\ Http.get
         (answering {| Http.status_code := 200; Http.url := Bot7.account_url;
                       Http.text := str "<html/>" |})
         Bot7.root_url (Bot7.session_cookies cookies)
       = Return (first, jar1)
    /\ Http.get
         (answering {| Http.status_code := 200; Http.url := Bot7.account_url;
                       Http.text := str "<html/>" |})
         Bot7.account_url jar1 = Return (final, jar2)
    /\ (exists rest, Http.url final = Bot7.account_url ++ rest)
    /\ Bot7.account_section plain_fields (Http.text final)
       = Return [str "Account Information:"].
Proof.
  apply (working_answer plain_fields
           (answering {| Http.status_code := 200; Http.url := Bot7.account_url;
                         Http.text := str "<html/>" |})
           (str "NetflixId=a") (str "txt") [str "Account Information:"]).
  vm_compute. reflexivity.
Defined.

(** ** The scraping of [service.py] *)

Section ScrapeFacts.

(** In a match of the GUID pattern group 1 is a non-empty text. *)
Lemma guid_group (w : list N) (c : Re.caps) :
  Re.matches Service.guid_re w [] c ->
  exists d, Re.cap_get 1 c = Some d /\ d <> [].
Proof.
  unfold Service.guid_re, Re.seqs. intros H.
  do 6 (apply matches_seq_inv in H as (? & ? & ? & -> & ?Hm & H)).
  repeat match goal with
         | Hn : Re.matches (Bot7.t _) _ _ _ |- _ =>
             apply matches_nogroup in Hn; [subst|reflexivity]
         | Hn : Re.matches Re.ws _ _ _ |- _ =>
             apply matches_nogroup in Hn; [subst|reflexivity]
         end.
  apply matches_group_inv in Hm4 as (c1 & -> & Hd).
  apply matches_plus_chr in Hd as [Hne Hd].
  eexists. split; [reflexivity|exact Hne].
Qed.

(** The loop over the matches of the GUID pattern adds GUIDs, each of them
    a non-empty text, and removes none. *)
Lemma for_each_add_guid_guids (ms : list Re.rematch) :
  Forall (fun m => Re.matches Service.guid_re (Re.m_text m) [] (Re.m_caps m))
         ms ->
  forall st,
    Service.guids st ⊆ Service.guids (Service.for_each Service.add_guid ms st).1
    /\ forall g, g ∈ Service.guids (Service.for_each Service.add_guid ms st).1 ->
                 g ∈ Service.guids st \/ g <> [].
Proof.
  intros H. induction H as [|m ms Hm _ IH]; intros st.
  - split; [reflexivity|]. intros g Hg. left. exact Hg.
  - apply guid_group in Hm as (d & Hd & Hne).
    cbn [Service.for_each]. unfold Service.add_guid at 1 3.
    change (Re.group Service.guid_re m 1)
      with (Return (Re.cap_get 1 (Re.m_caps m))).
    rewrite Hd. cbn [mbind py_bind mret py_ret Bot7.the_text].
    destruct (IH {| Service.service_code := Service.service_code st;
                    Service.guids := {[d]} ∪ Service.guids st |})
      as [Hsub Hin].
    cbn [Service.guids] in Hsub, Hin. split.
    + etransitivity; [|exact Hsub]. apply union_subseteq_r.
    + intros g Hg. apply Hin in Hg as [Hg|Hg]; [|right; exact Hg].
      apply elem_of_union in Hg as [Hg|Hg]; [|left; exact Hg].
      apply elem_of_singleton in Hg as ->. right. exact Hne.
Qed.

Lemma on_resp_guids (st : Service.scraped) (r : option (list N)) :
  Service.guids st ⊆ Service.guids (Service.on_resp st r)
  /\ forall g, g ∈ Service.guids (Service.on_resp st r) ->
               g ∈ Service.guids st \/ g <> [].
Proof.
  destruct r as [txt|]; [|split; [reflexivity|intros g Hg; left; exact Hg]].
  unfold Service.on_resp.
  rewrite for_each_set_code by apply finditer_sound. cbv beta iota zeta.
  match goal with
  | |- context [Service.for_each Service.add_guid ?ms ?s] =>
      pose proof (for_each_add_guid_guids ms
                    (finditer_sound Service.guid_re txt) s) as H
  end.
  cbn [Service.guids] in H. exact H.
Qed.

Lemma fold_on_resp_guids (rs : list (option (list N))) :
  forall st,
    Service.guids st ⊆ Service.guids (fold_left Service.on_resp rs st)
    /\ forall g, g ∈ Service.guids (fold_left Service.on_resp rs st) ->
                 g ∈ Service.guids st \/ g <> [].
Proof.
  induction rs as [|r rs IH]; intros st; cbn [fold_left].
  - split; [reflexivity|]. intros g Hg. left. exact Hg.
  - destruct (on_resp_guids st r) as [Hs1 Hi1].
    destruct (IH (Service.on_resp st r)) as [Hs2 Hi2]. split.
    + etransitivity; eassumption.
    + intros g Hg. apply Hi2 in Hg as [Hg|Hg]; [|right; exact Hg].
      apply Hi1. exact Hg.
Qed.

Lemma observed_guids_not_empty (b : Service.browser) (g : list N) :
  g ∈ Service.guids (Service.observed b) -> g <> [].
Proof.
  rewrite observed_fold. intros Hg.
  apply fold_on_resp_guids in Hg as [Hg|Hg]; [|exact Hg].
  cbn [Service.guids] in Hg. set_solver.
Qed.

Lemma mapM_inv {A B : Type} (task : A -> py B) (l : list A) :
  forall rs, mapM task l = Return rs ->
             Forall2 (fun g r => task g = Return r) l rs.
Proof.
  induction l as [|h l IH]; intros rs; simpl.
  - intros [= <-]. constructor.
  - destruct (task h) as [r|e] eqn:Eh; [|discriminate]. cbn [mbind py_bind].
    destruct (mapM task l) as [rs'|e]; [|discriminate].
    cbn [mbind py_bind mret py_ret]. intros [= <-].
    constructor; [exact Eh|apply IH; reflexivity].
Qed.

Lemma gather_inv {A B : Type} `{EqDecision A} (task : A -> py B)
    (order gs : list A) (rs : list B) :
  Service.gather task order gs = Return rs ->
  Forall2 (fun g r => task g = Return r) gs rs.
Proof.
  unfold Service.gather. destruct (Service.first_raise _ _); [discriminate|].
  apply mapM_inv.
Qed.

(** The sub-fetches behind a valid answer. *)
Lemma process_file_valid_names (L : Service.library) (b : Service.browser)
    (content code text : list N) (names : list (list N)) (latest : list N) :
  Service.process_file L b content
  = Return (Service.Valid code text names latest) ->
  exists results,
    Service.gather (Service.fetch_profile L b) (Service.finished b)
      (elements (Service.guids (Service.observed b))) = Return results
    /\ names = List.map fst results.
Proof.
  unfold Service.process_file.
  destruct (Service.parse_cookies content) as [cookies|e]; [|discriminate].
  cbn [mbind py_bind].
  destruct (negb (truthy cookies)); [discriminate|].
  destruct (Service.scrape L b cookies) as [[sc results]|e] eqn:E;
    [|destruct e; discriminate].
  destruct sc as [[|c w]|]; try discriminate.
  destruct (match concat _ with [] => _ | _ => _ end) as [lt|e];
    [|discriminate].
  cbn [mbind py_bind mret py_ret]. intros [= _ _ <- _].
  exists results. split; [|reflexivity].
  unfold Service.scrape in E.
  destruct (Service.open_context b cookies) as [[]|e]; [|discriminate].
  cbn [mbind py_bind] in E.
  destruct (Service.goto (Service.account b)); try discriminate.
  destruct (Service.gather _ _ _) as [rs|e]; [|discriminate].
  cbn [mbind py_bind mret py_ret] in E. injection E as _ <-. reflexivity.
Qed.

End ScrapeFacts.

(** X14: the handler of the responses only adds: after any further
    responses every GUID seen so far is still in the set, and a service
    code, once seen, is never cleared (it is kept or replaced). *)
Theorem responses_only_add (rs : list (option (list N)))
    (st : Service.scraped) :
  Service.guids st ⊆ Service.guids (fold_left Service.on_resp rs st)
  /\ (is_Some (Service.service_code st) ->
      is_Some (Service.service_code (fold_left Service.on_resp rs st))).
Proof.
  split; [apply fold_on_resp_guids|].
  rewrite fold_on_resp_code. intros H.
  destruct (last (observed_codes rs)); [eexists; reflexivity|exact H].
Qed.

(** X15: a valid answer names each discovered profile once: there are
    as many names as distinct GUIDs were seen on the account page, and no
    name is empty (a profile without a name goes by its GUID). *)
Theorem one_name_for_each_profile (L : Service.library) (b : Service.browser)
    (content code text : list N) (names : list (list N)) (latest : list N) :
  Service.process_file L b content
  = Return (Service.Valid code text names latest) ->
  length names = size (Service.guids (Service.observed b))
  /\ Forall (fun n => n <> []) names.
Proof.
  intros H. apply process_file_valid_names in H as (results & Hg & ->).
  apply gather_inv in Hg. split.
  - rewrite length_map. symmetry. apply (Forall2_length _ _ _ Hg).
  - apply Forall_map.
    assert (Hne : Forall (fun g => g <> [])
                    (elements (Service.guids (Service.observed b)))).
    { apply Forall_forall. intros g Hin. apply elem_of_elements in Hin.
      apply observed_guids_not_empty in Hin. exact Hin. }
    revert Hne. induction Hg as [|g r gs rs Hr _ IH]; intros Hne;
      [constructor|].
    apply Forall_cons in Hne as [Hg0 Hne]. constructor; [|apply IH; exact Hne].
    unfold Service.fetch_profile in Hr.
    destruct (Service.goto (Service.viewed b g)); try discriminate.
    destruct (fold_left _ _ _) as [prof dates].
    cbn [mret py_ret] in Hr. injection Hr as <-. simpl.
    destruct prof as [[|c w]|]; [exact Hg0|discriminate|exact Hg0].
Qed.

Lemma one_name_for_each_profile_witness :
  length [str "Bob"; str "A"]
  = size (Service.guids
            (Service.observed
               (browsing
                  (loaded [dq "{'authCode':'123456','guid':'A','guid':'B'}";
                           dq "{'guid':'A'}"])
                  (fun g => if streq g (str "A") then loaded []
                            else loaded [dq "{'profileName':'Bob'}"]))))
  /\ Forall (fun n => n <> []) [str "Bob"; str "A"].
Proof.
  apply (one_name_for_each_profile plain_library
           (browsing
              (loaded [dq "{'authCode':'123456','guid':'A','guid':'B'}";
                       dq "{'guid':'A'}"])
              (fun g => if streq g (str "A") then loaded []
                        else loaded [dq "{'profileName':'Bob'}"]))
           (str "a=b") (str "123456") (str "123-456")
           [str "Bob"; str "A"] []).
  vm_compute. reflexivity.
Defined.

(** ** The JSON form across the iterations *)

(** A decoded value that is no container and no text: a number, a boolean
    or [None]. *)
Definition scalar_value (c : json) : Prop :=
  match c with
  | JNull | JBool _ | JInt _ | JFloat _ => True
  | JStr _ | JArr _ | JObj _ => False
  end.

Definition is_object (c : json) : Prop := exists ms, c = JObj ms.

Section JsonFormFacts.

Lemma is_ws_isspace (c : N) : is_ws c = true -> isspace c = true.
Proof.
  unfold is_ws, isspace.
  rewrite !orb_true_iff, !andb_true_iff, !N.leb_le, !N.eqb_eq. lia.
Qed.

Lemma skip_ws_lstrip (s : list N) (c : N) (t : list N) :
  skip_ws s = c :: t -> isspace c = false -> lstrip s = c :: t.
Proof.
  intros H Hc. induction s as [|a s IH]; [discriminate|]. simpl in *.
  destruct (is_ws a) eqn:Ea.
  - rewrite (is_ws_isspace a Ea). apply IH. exact H.
  - injection H as -> ->. rewrite Hc. reflexivity.
Qed.

(** The members of an object decode to an object. *)
Lemma scan_members_object (fuel : nat) :
  forall s acc v r, scan_members fuel s acc = Some (v, r) -> is_object v.
Proof.
  induction fuel as [|fuel IH]; intros s acc v r; simpl; [discriminate|].
  destruct (scanstring s []) as [[key r1]|]; [|discriminate].
  destruct (skip_ws r1) as [|d t]; [discriminate|].
  destruct (d =? 58); [|discriminate].
  destruct (scan_once fuel (skip_ws t)) as [[v1 r2]|]; [|discriminate].
  destruct (skip_ws r2) as [|e t']; [discriminate|].
  destruct (e =? 125); [intros [= <- _]; eexists; reflexivity|].
  destruct (e =? 44); [|discriminate].
  destruct (skip_ws t') as [|q t'']; [discriminate|].
  destruct (q =? 34); [|discriminate]. apply IH.
Qed.

Lemma keyword_value (w : list N) (v0 : json) (s : list N) (v : json)
    (r : list N) :
  keyword w v0 s = Some (v, r) -> v = v0.
Proof.
  unfold keyword. destruct (startswith s w); [|discriminate].
  intros [= <- _]. reflexivity.
Qed.

Lemma scan_number_value (s : list N) (v : json) (r : list N) :
  scan_number s = Some (v, r) -> scalar_value v.
Proof.
  unfold scan_number.
  destruct (match s with [] => _ | c :: t => _ end) as [sign s1].
  destruct (scan_int s1) as [[ds r1]|]; [|discriminate].
  destruct (scan_frac r1) as [fr r2]. destruct (scan_exp r2) as [ex r3].
  destruct fr; [destruct ex|]; intros [= <- _]; exact I.
Qed.

(** A value that decodes to an array begins with the bracket. *)
Lemma scan_once_array (fuel : nat) (s : list N) (arr : list json)
    (r : list N) :
  scan_once fuel s = Some (JArr arr, r) -> exists t, s = 91 :: t.
Proof.
  destruct fuel as [|fuel]; [discriminate|]. simpl.
  destruct s as [|c t]; [discriminate|].
  destruct (c =? 34).
  { destruct (scanstring t []) as [[w r']|]; discriminate. }
  destruct (c =? 123).
  { destruct (skip_ws t) as [|d t']; [discriminate|].
    destruct (d =? 125); [discriminate|].
    destruct (d =? 34); [|discriminate].
    intros H. apply scan_members_object in H as [ms H]. discriminate. }
  destruct (N.eqb_spec c 91) as [->|_]; [intros _; eexists; reflexivity|].
  repeat match goal with
         | |- (if ?b then _ else _) = _ -> _ =>
             destruct b;
             [intros H; apply keyword_value in H; discriminate|]
         end.
  intros H. apply scan_number_value in H. destruct H.
Qed.

(** [json.loads] scans one value; its refusal of a byte order mark is the
    refusal of a text that begins with no value. *)
Lemma loads_scan (s : list N) :
  loads s = match scan_once (2 * length s + 2) (skip_ws s) with
            | Some (v, r) =>
                match skip_ws r with [] => Some v | _ :: _ => None end
            | None => None
            end.
Proof.
  unfold loads. destruct s as [|a s]; [reflexivity|].
  destruct a as [|p]; [reflexivity|].
  repeat (destruct p as [p|p|]; try reflexivity).
Qed.

Lemma loads_array_bracket (content : list N) (arr : list json) :
  loads content = Some (JArr arr) ->
  startswith (lstrip content) (str "[") = true.
Proof.
  rewrite loads_scan.
  destruct (scan_once _ (skip_ws content)) as [[v r]|] eqn:Es;
    [|discriminate].
  destruct (skip_ws r); [|discriminate]. intros [= ->].
  apply scan_once_array in Es as [t Ht].
  rewrite (skip_ws_lstrip content 91 t Ht eq_refl). reflexivity.
Qed.




(** Where the comprehension of [bot.py] returns, the comprehension of
    [bot2.py] and [bot7.py], which looks at the objects only, returns the
    same map. *)
Lemma service_cookie_dict_returns (arr : list json) :
  forall acc d,
    Service.cookie_dict arr acc = Return d -> Bot7.cookie_dict arr acc = Return d.
Proof.
  induction arr as [|c arr IH]; intros acc d; [exact (fun H => H)|].
  cbn [Service.cookie_dict Bot7.cookie_dict].
  destruct c as [|b|z|l|w|items|ms]; try discriminate;
    cbn [Service.has mbind py_bind mret py_ret].
  - destruct (contains (str "name") w); cbn [mbind py_bind mret py_ret];
      [|apply IH].
    destruct (contains (str "value") w); [discriminate|apply IH].
  - destruct (existsb _ items); cbn [mbind py_bind mret py_ret]; [|apply IH].
    destruct (existsb _ items); [discriminate|apply IH].
  - destruct (member (str "name") ms) as [n|] eqn:En;
      cbn [mbind py_bind mret py_ret]; [|apply IH].
    destruct (member (str "value") ms) as [v|] eqn:Ev;
      cbn [mbind py_bind mret py_ret Service.item]; [|apply IH].
    rewrite En, Ev. cbn [mbind py_bind mret py_ret].
    destruct (hash_key n) as [k|e]; cbn [mbind py_bind]; [apply IH|].
    discriminate.
Qed.

(** On objects the two comprehensions are one. *)
Lemma cookie_dict_objects_agree (arr : list json) :
  Forall is_object arr ->
  forall acc, Service.cookie_dict arr acc = Bot7.cookie_dict arr acc.
Proof.
  induction 1 as [|c arr [ms ->] _ IH]; intros acc; [reflexivity|].
  cbn [Service.cookie_dict Bot7.cookie_dict Service.has
       mbind py_bind mret py_ret].
  destruct (member (str "name") ms) as [n|] eqn:En;
    cbn [mbind py_bind mret py_ret]; [|apply IH].
  destruct (member (str "value") ms) as [v|] eqn:Ev;
    cbn [mbind py_bind mret py_ret Service.item]; [|apply IH].
  rewrite En, Ev. cbn [mbind py_bind mret py_ret].
  destruct (hash_key n) as [k|e]; cbn [mbind py_bind]; [apply IH|reflexivity].
Qed.

End JsonFormFacts.



(** X17: whatever [parse_cookies] of [bot.py] returns that is not
    empty, [parse_cookies] of [bot2.py] returns for the same text and file
    type: the later parser reads more texts, and reads none of the earlier
    ones differently. *)
Theorem bot2_parses_what_bot_parses (content ftype : list N) (d : dict) :
  BotParser.parse_cookies content ftype = Return d -> d <> ∅ ->
  Bot2Parser.parse_cookies content ftype = Return d.
Proof.
  unfold BotParser.parse_cookies, Bot2Parser.parse_cookies,
    BotParser.json_array, Bot7.json_array.
  intros H Hd.
  assert (Hn : BotParser.netscape content = d ->
               (let cookies := BotParser.netscape content in
                if negb (truthy cookies)
                   && negb (bool_decide (strip content = []))
                then mret (fold_left (Bot7.add_pair false)
                             (split 59 content) cookies)
                else mret cookies) = Return d).
  { intros ->. cbv zeta. unfold truthy.
    rewrite bool_decide_eq_false_2 by exact Hd. reflexivity. }
  destruct (_ || _); [|apply Hn; injection H as H; exact H].
  destruct (loads content) as [[]|];
    try (apply Hn; injection H as H; exact H).
  destruct (Service.cookie_dict items ∅) as [d'|e] eqn:E; [|discriminate].
  injection H as <-. rewrite (service_cookie_dict_returns _ _ _ E).
  reflexivity.
Qed.

Lemma bot2_parses_what_bot_parses_witness :
  Bot2Parser.parse_cookies (str "#HttpOnly_" ++ netflix_line) (str "txt")
  = Return {[KStr (str "NetflixId") := JStr (str "abc")]}.
Proof.
  apply (bot2_parses_what_bot_parses (str "#HttpOnly_" ++ netflix_line)
           (str "txt") {[KStr (str "NetflixId") := JStr (str "abc")]}).
  - vm_compute. reflexivity.
  - apply map_non_empty_singleton.
Defined.

(** X18: on a text that decodes to a JSON array of objects, and on
    which the direct scan of [bot7.py] finds nothing, the four parsers
    agree: each builds the map of the comprehension over the array, or
    raises where a name is unhashable; [service.py], which catches the
    exception, returns the same map wherever the others return. *)
Theorem parsers_agree_on_arrays_of_objects (content ftype : list N)
    (arr : list json) :
  loads content = Some (JArr arr) ->
  Forall is_object arr ->
  Bot7.direct_scan content = Return None ->
  Bot7.parse_cookies content ftype = Bot7.cookie_dict arr ∅
  /\ Bot2Parser.parse_cookies content ftype = Bot7.cookie_dict arr ∅
  /\ BotParser.parse_cookies content ftype = Bot7.cookie_dict arr ∅
  /\ (forall d, Bot7.cookie_dict arr ∅ = Return d ->
                Service.parse_cookies content = Return d).
Proof.
  intros Hl Ho Hd. pose proof (loads_array_bracket content arr Hl) as Hb.
  unfold Bot7.parse_cookies, Bot2Parser.parse_cookies,
    BotParser.parse_cookies, Service.parse_cookies,
    Bot7.json_array, BotParser.json_array, Service.json_array.
  rewrite Hd, Hb, orb_true_r, Hl, (cookie_dict_objects_agree arr Ho).
  change (Bot7.or_else (Return None) ?x) with x.
  destruct (Bot7.cookie_dict arr ∅) as [d|e]; repeat split; try discriminate.
  intros d' [= <-]. reflexivity.
Qed.

Lemma parsers_agree_on_arrays_of_objects_witness :
  Bot7.parse_cookies (dq "[{'name': 'a', 'value': 1}]") (str "txt")
  = Bot7.cookie_dict [JObj [(str "name", JStr (str "a"));
                            (str "value", JInt 1)]] ∅
  /\ Bot2Parser.parse_cookies (dq "[{'name': 'a', 'value': 1}]") (str "txt")
     = Bot7.cookie_dict [JObj [(str "name", JStr (str "a"));
                               (str "value", JInt 1)]] ∅
  /\ BotParser.parse_cookies (dq "[{'name': 'a', 'value': 1}]") (str "txt")
     = Bot7.cookie_dict [JObj [(str "name", JStr (str "a"));
                               (str "value", JInt 1)]] ∅
  /\ (forall d, Bot7.cookie_dict [JObj [(str "name", JStr (str "a"));
                                        (str "value", JInt 1)]] ∅
                = Return d ->
                Service.parse_cookies (dq "[{'name': 'a', 'value': 1}]")
                = Return d).
Proof.
  apply (parsers_agree_on_arrays_of_objects
           (dq "[{'name': 'a', 'value': 1}]") (str "txt")).
  - vm_compute. reflexivity.
  - constructor; [eexists; reflexivity|constructor].
  - vm_compute. reflexivity.
Defined.

Section LaterCookies.


End LaterCookies.



(** ** Fields and pairs *)

Section FieldFacts.

(** Joining fields that hold no separator and splitting the line gives the
    fields back. *)
Lemma split_join (sep : N) (fields : list (list N)) :
  fields <> [] -> Forall (fun f => sep ∉ f) fields ->
  split sep (Dumps.join [sep] fields) = fields.
Proof.
  intros Hne H. induction H as [|f fields Hf Hfs IH]; [contradiction|].
  destruct fields as [|g fields].
  - simpl. apply split_no_sep. exact Hf.
  - change (Dumps.join [sep] (f :: g :: fields))
      with (f ++ sep :: Dumps.join [sep] (g :: fields)).
    rewrite split_app_sep, (split_no_sep sep f Hf), IH by discriminate.
    reflexivity.
Qed.

Lemma split1_first (sep : N) (name value : list N) :
  sep ∉ name -> split1 sep (name ++ sep :: value) = Some (name, value).
Proof.
  induction name as [|a name IH]; intros H; simpl.
  - rewrite N.eqb_refl. reflexivity.
  - apply not_elem_of_cons in H as [Ha H].
    destruct (N.eqb_spec a sep) as [->|_]; [contradiction|].
    rewrite IH by exact H. reflexivity.
Qed.

End FieldFacts.

(** X20: a line of seven or more fields separated by tabs, without
    white space at its ends and no comment, sets the cookie named by its
    sixth field to its seventh field, whatever the other fields hold; in
    all four programs. *)
Theorem netscape_line_sets_cookie (cookies : dict)
    (fields : list (list N)) (name value : list N) :
  Forall (fun f => 9 ∉ f) fields ->
  fields !! 5%nat = Some name -> fields !! 6%nat = Some value ->
  strip (Dumps.join [9] fields) = Dumps.join [9] fields ->
  startswith (Dumps.join [9] fields) (str "#") = false ->
  Bot7.add_line cookies (Dumps.join [9] fields)
  = <[KStr name := JStr value]> cookies
  /\ BotParser.add_line cookies (Dumps.join [9] fields)
     = <[KStr name := JStr value]> cookies
  /\ Service.add_line cookies (Dumps.join [9] fields)
     = <[KStr name := JStr value]> cookies.
Proof.
  intros Hf H5 H6 Hs Hc.
  assert (Hne : fields <> []) by (intros ->; discriminate).
  assert (Hl : Dumps.join [9] fields <> []).
  { intros E. pose proof (split_join 9 fields Hne Hf) as Hsp.
    rewrite E in Hsp. simpl in Hsp. subst fields. discriminate. }
  assert (Hh : startswith (Dumps.join [9] fields) (str "#HttpOnly_") = false).
  { destruct (Dumps.join [9] fields) as [|c l]; [reflexivity|].
    simpl in Hc. rewrite andb_true_r in Hc.
    apply (startswith_head c l 35 (str "HttpOnly_")). exact Hc. }
  unfold Bot7.add_line, BotParser.add_line, Service.add_line.
  rewrite Hs, Hc, Hh, (bool_decide_eq_false_2 _ Hl).
  cbn [orb andb negb]. rewrite (split_join 9 fields Hne Hf).
  replace (Nat.ltb (length fields) 7) with false.
  - rewrite H5, H6. repeat split; reflexivity.
  - symmetry. apply Nat.ltb_ge. apply lookup_lt_Some in H6. lia.
Qed.

Lemma netscape_line_sets_cookie_witness :
  Bot7.add_line ∅ netflix_line
  = <[KStr (str "NetflixId") := JStr (str "abc")]> ∅
  /\ BotParser.add_line ∅ netflix_line
     = <[KStr (str "NetflixId") := JStr (str "abc")]> ∅
  /\ Service.add_line ∅ netflix_line
     = <[KStr (str "NetflixId") := JStr (str "abc")]> ∅.
Proof.
  apply (netscape_line_sets_cookie ∅
           [str ".netflix.com"; str "TRUE"; str "/"; str "TRUE"; str "0";
            str "NetflixId"; str "abc"]
           (str "NetflixId") (str "abc")); try reflexivity.
  apply (bool_decide_unpack _). vm_compute. exact I.
Defined.

(** X21: a pair [name=value] is split at its first equals sign: the
    value keeps every later one. In [bot7.py] the pair is stripped as a
    whole ([trim] off) or, between pipes, the name and the value too; in
    [service.py] the name and the value are stripped. *)
Theorem pair_splits_at_first_equals (cookies : dict) (trim : bool)
    (name value : list N) :
  61 ∉ name ->
  strip (name ++ 61 :: value) = name ++ 61 :: value ->
  Bot7.add_pair trim cookies (name ++ 61 :: value)
  = (if trim then <[KStr (strip name) := JStr (strip value)]> cookies
     else <[KStr name := JStr value]> cookies)
  /\ Service.add_pair cookies (name ++ 61 :: value)
     = <[KStr (strip name) := JStr (strip value)]> cookies.
Proof.
  intros Hn Hs. unfold Bot7.add_pair, Service.add_pair.
  rewrite Hs, (split1_first 61 name value Hn). split; reflexivity.
Qed.

Lemma pair_splits_at_first_equals_witness :
  Bot7.add_pair false ∅ (str "NetflixId=v%3D=")
  = <[KStr (str "NetflixId") := JStr (str "v%3D=")]> ∅
  /\ Service.add_pair ∅ (str "NetflixId=v%3D=")
     = <[KStr (strip (str "NetflixId")) := JStr (strip (str "v%3D="))]> ∅.
Proof.
  apply (pair_splits_at_first_equals ∅ false (str "NetflixId")
           (str "v%3D=")); [|reflexivity].
  apply (bool_decide_unpack _). vm_compute. exact I.
Defined.

(** X22: from an entry scheduled from a pasted text, or from a
    text or JSON document, the strategy of the Netscape lines reads at most
    one cookie, since the entry is one line: the cookies of a file of
    several lines are never read together. *)
Theorem netscape_entry_has_one_cookie
    (status : py (list N)) (filename raw : list N)
    (archive : py (list (list N * py (list N))))
    (files : list Intake.file) :
  Intake.handle_text status raw = Intake.Tasks files
  \/ (Intake.handle_document status filename raw archive
      = Return (Intake.Tasks files)
      /\ lower_ascii (Intake.splitext_ext filename) <> str ".zip") ->
  Forall (fun f : Intake.file =>
            Bot7.netscape f.1.2 = Return None
            \/ exists name value,
                 Bot7.netscape f.1.2
                 = Return (Some {[KStr name := JStr value]}))
         files.
Proof.
  intros H.
  apply tasks_are_entries in H as (_ & entry_name & ftype & ->).
  destruct (entries_single_lines entry_name ftype (splitlines raw)
              (splitlines_lines raw) 0%nat) as [_ H].
  eapply Forall_impl; [exact H|]. intros f (_ & _ & Hl). cbv beta.
  unfold Bot7.netscape. rewrite Hl. cbn [fold_left]. unfold Bot7.add_line.
  destruct (_ || _); [left; reflexivity|].
  destruct (_ !! 5%nat) as [name|]; [|left; reflexivity].
  destruct (_ !! 6%nat) as [value|]; [|left; reflexivity].
  right. exists name, value. rewrite truthy_insert, insert_empty.
  reflexivity.
Qed.

Lemma netscape_entry_has_one_cookie_witness :
  Forall (fun f : Intake.file =>
            Bot7.netscape f.1.2 = Return None
            \/ exists name value,
                 Bot7.netscape f.1.2
                 = Return (Some {[KStr name := JStr value]}))
         [(str "c.txt-part1.txt", netflix_line, str "txt");
          (str "c.txt-part2.txt", str "x", str "txt")].
Proof.
  apply (netscape_entry_has_one_cookie (Return (str "member")) (str "c.txt")
           (netflix_line ++ [10] ++ str "x") (Return [])).
  right. split; [vm_compute; reflexivity|vm_compute; discriminate].
Defined.

(** ** The first iteration, [bot.py] *)

Section BotFacts.

Lemma lstrip_char_split (c : N) (s : list N) :
  exists n, s = replicate n c ++ lstrip_char c s.
Proof.
  induction s as [|a s IH]; [exists 0%nat; reflexivity|]. simpl.
  destruct (N.eqb_spec a c) as [->|_]; [|exists 0%nat; reflexivity].
  destruct IH as [n IH]. exists (S n). simpl. rewrite <- IH. reflexivity.
Qed.

Lemma rev_replicate (n : nat) (c : N) : rev (replicate n c) = replicate n c.
Proof.
  induction n as [|n IH]; [reflexivity|]. simpl. rewrite IH.
  clear IH. induction n as [|n IH]; [reflexivity|]. simpl. rewrite IH.
  reflexivity.
Qed.

Lemma rstrip_char_split (c : N) (s : list N) :
  exists n, s = rstrip_char c s ++ replicate n c.
Proof.
  unfold rstrip_char. destruct (lstrip_char_split c (rev s)) as [n H].
  exists n. apply (f_equal (@rev N)) in H.
  rewrite rev_involutive, rev_app_distr, rev_replicate in H. exact H.
Qed.

Lemma lstrip_char_replicate (c : N) (n : nat) (s : list N) :
  lstrip_char c (replicate n c ++ s) = lstrip_char c s.
Proof.
  induction n as [|n IH]; [reflexivity|]. simpl. rewrite N.eqb_refl.
  exact IH.
Qed.

Lemma rstrip_char_app (c : N) (u : list N) (n : nat) :
  match rev u with a :: _ => a <> c | [] => True end ->
  rstrip_char c (u ++ replicate n c) = u.
Proof.
  intros H. unfold rstrip_char.
  rewrite rev_app_distr, rev_replicate, lstrip_char_replicate.
  destruct (rev u) as [|a r] eqn:E.
  - apply (f_equal (@rev N)) in E. rewrite rev_involutive in E.
    rewrite E. reflexivity.
  - simpl. destruct (N.eqb_spec a c) as [->|_]; [contradiction|].
    rewrite <- E. apply rev_involutive.
Qed.

End BotFacts.

(** X23: the final URLs that [bot.py] takes for a valid session are
    the browse URL in any letter case, followed by any number of slashes,
    and the status code must be 200. *)
Theorem bot_accepted_urls (resp : Http.response) :
  Bot.valid resp = true <->
  Http.status_code resp = 200%Z
  /\ exists u n, Http.url resp = u ++ replicate n 47
                 /\ lower_ascii u = Bot.NETFLIX_BROWSE_URL.
Proof.
  unfold Bot.valid, streq.
  rewrite andb_true_iff, Z.eqb_eq, bool_decide_eq_true. split.
  - intros [Hs Hu]. split; [exact Hs|].
    destruct (rstrip_char_split 47 (Http.url resp)) as [n Hn].
    exists (rstrip_char 47 (Http.url resp)), n. split; [exact Hn|exact Hu].
  - intros [Hs (u & n & -> & Hu)]. split; [exact Hs|].
    rewrite rstrip_char_app; [exact Hu|].
    unfold lower_ascii in Hu. apply (f_equal (@rev N)) in Hu.
    rewrite <- map_rev in Hu. destruct (rev u) as [|a r]; [exact I|].
    simpl in Hu. injection Hu as Ha _. intros ->. discriminate.
Qed.

Lemma bot_accepted_urls_witness :
  Bot.valid {| Http.status_code := 200;
               Http.url := str "https://WWW.Netflix.com/Browse//";
               Http.text := [] |} = true.
Proof.
  apply bot_accepted_urls. split; [reflexivity|].
  exists (str "https://WWW.Netflix.com/Browse"), 2%nat.
  split; reflexivity.
Defined.

(** X24: [bot.py] answers that the cookie is valid only for a
    document named [.txt] or [.json], read as text and parsed to a map that
    is not empty, after the request with all the cookies of the map has
    returned with status 200 from the browse URL; the file type handed to
    the parser is, in lower case, [txt] or [json]. *)
Theorem bot_valid_answer (net : Http.network) (file_name : list N)
    (content : py (list N)) :
  BotIntake.handle_document net file_name content = BotIntake.Valid ->
  exists c cookies resp jar,
    content = Return c
    /\ (lower_ascii (Intake.last_part file_name) = str "txt"
        \/ lower_ascii (Intake.last_part file_name) = str "json")
    /\ BotParser.parse_cookies c (Intake.last_part file_name) = Return cookies
    /\ cookies <> ∅
    /\ Http.get net Bot.NETFLIX_BROWSE_URL cookies = Return (resp, jar)
    /\ Http.status_code resp = 200%Z
    /\ lower_ascii (rstrip_char 47 (Http.url resp)) = Bot.NETFLIX_BROWSE_URL.
Proof.
  unfold BotIntake.handle_document.
  destruct (Intake.endswith _ (str ".txt")) eqn:Et;
    [|destruct (Intake.endswith _ (str ".json")) eqn:Ej; [|discriminate]];
    cbn [orb negb];
    (destruct content as [c|e]; [|discriminate]); cbn [mbind py_bind];
    (destruct (BotParser.parse_cookies c _) as [cookies|e] eqn:Ep;
     [|discriminate]); cbn [mbind py_bind];
    (destruct (truthy cookies) eqn:Ec; [|discriminate]); cbn [negb];
    unfold Bot.validate;
    (destruct (Http.get net Bot.NETFLIX_BROWSE_URL cookies)
       as [[resp jar]|e] eqn:Eg; [|discriminate]);
    cbn [mbind py_bind mret py_ret fst];
    (destruct (Bot.valid resp) eqn:Ev; [|discriminate]); intros _;
    exists c, cookies, resp, jar;
    (split; [reflexivity|]); (split; [|split; [exact Ep|split; [|split;
      [exact Eg|]]]]).
  - left. apply endswith_last_part; [exact Et|].
    apply (bool_decide_unpack _). vm_compute. exact I.
  - intros ->. discriminate.
  - unfold Bot.valid, streq in Ev.
    apply andb_prop in Ev as [Hs Hu]. apply Z.eqb_eq in Hs.
    apply bool_decide_eq_true in Hu. split; assumption.
  - right. apply endswith_last_part; [exact Ej|].
    apply (bool_decide_unpack _). vm_compute. exact I.
  - intros ->. discriminate.
  - unfold Bot.valid, streq in Ev.
    apply andb_prop in Ev as [Hs Hu]. apply Z.eqb_eq in Hs.
    apply bool_decide_eq_true in Hu. split; assumption.
Qed.

Lemma bot_valid_answer_witness :
  exists c cookies resp jar,
    Return netflix_line = Return c
    /\ (lower_ascii (Intake.last_part (str "my.cookies.TXT")) = str "txt"
        \/ lower_ascii (Intake.last_part (str "my.cookies.TXT")) = str "json")
    /\ BotParser.parse_cookies c (Intake.last_part (str "my.cookies.TXT"))
       = Return cookies
    /\ cookies <> ∅
    /\ Http.get
         (answering {| Http.status_code := 200;
                       Http.url := str "https://www.netflix.com/browse/";
                       Http.text := [] |})
         Bot.NETFLIX_BROWSE_URL cookies = Return (resp, jar)
    /\ Http.status_code resp = 200%Z
    /\ lower_ascii (rstrip_char 47 (Http.url resp)) = Bot.NETFLIX_BROWSE_URL.
Proof.
  apply (bot_valid_answer
           (answering {| Http.status_code := 200;
                         Http.url := str "https://www.netflix.com/browse/";
                         Http.text := [] |})
           (str "my.cookies.TXT") (Return netflix_line)).
  vm_compute. reflexivity.
Defined.

(** ** The membership gate *)

(** X25: in [bot7.py] a sender whose membership check raises, or whose
    status is none of member, administrator and creator, is asked to join
    and nothing is scheduled. In [bot2.py] such a sender is stopped only
    when an invitation link is at hand: without one, the document of a
    sender of any status is handled as a member's. *)
Theorem membership_gate (status : py (list N)) (s filename raw : list N)
    (archive : py (list (list N * py (list N)))) :
  (Intake.joined status = false ->
   Intake.handle_document status filename raw archive
   = Return Intake.JoinPrompt
   /\ Intake.handle_text status raw = Intake.JoinPrompt)
  /\ Bot2Intake.handle_document (Return s) None filename raw archive
     = Bot2Intake.handle_document (Return (str "member")) None filename raw
         archive.
Proof.
  split.
  - intros H. unfold Intake.handle_document, Intake.handle_text.
    rewrite H. split; reflexivity.
  - unfold Bot2Intake.handle_document.
    destruct (bool_decide (s ∈ _)); reflexivity.
Qed.

Lemma membership_gate_witness :
  Intake.handle_document (Return (str "left")) (str "c.txt") (str "a=b")
    (Return []) = Return Intake.JoinPrompt
  /\ Intake.handle_text (Return (str "left")) (str "a=b") = Intake.JoinPrompt.
Proof.
  destruct (membership_gate (Return (str "left")) (str "left") (str "c.txt")
              (str "a=b") (Return [])) as [H _].
  apply H. vm_compute. reflexivity.
Defined.

(** ** The report of [bot7.py] *)

Section ReportFacts.

(** In a match of the pattern of [isUserOnHold] group 1 is one of the two
    words. *)
Lemma hold_group (w : list N) (c : Re.caps) :
  Re.matches Bot7.hold_re w [] c ->
  Re.cap_get 1 c = Some (str "true") \/ Re.cap_get 1 c = Some (str "false").
Proof.
  unfold Bot7.hold_re, Re.seqs. intros H.
  do 4 (apply matches_seq_inv in H as (? & ? & ? & -> & ?Hm & H)).
  repeat match goal with
         | Hn : Re.matches (Bot7.t _) _ _ _ |- _ =>
             apply matches_nogroup in Hn; [subst|reflexivity]
         | Hn : Re.matches Re.ws _ _ _ |- _ =>
             apply matches_nogroup in Hn; [subst|reflexivity]
         end.
  apply matches_group_inv in H as (c1 & -> & H).
  inversion H as [| | |r1 r2 w0 c0 c' Hl|r1 r2 w0 c0 c' Hr| | |]; subst.
  - apply matches_lit in Hl as [-> _]. left. reflexivity.
  - apply matches_lit in Hr as [-> _]. right. reflexivity.
Qed.

End ReportFacts.

(** One step of the report: the next extraction returned. *)
Ltac report_step H :=
  match type of H with
  | mbind _ ?m = Return _ =>
      let E := fresh "E" in
      destruct m eqn:E; cbn [mbind py_bind] in H; [|discriminate H]
  end.

(** The line is one of the single lines that make up the report. *)
Ltac find_line :=
  first [ apply elem_of_app; left; apply list_elem_of_singleton;
          vm_compute; reflexivity
        | apply list_elem_of_further; find_line
        | apply elem_of_app; right; find_line ].

(** X26: no report is built from a body in which the pattern of the
    country of signup matches: whatever else the body holds, the
    extraction ends with an exception there. *)
Theorem no_report_with_a_country (L : Bot7.library) (html : list N)
    (section : list (list N)) :
  Bot7.account_section L html = Return section ->
  Re.search Bot7.country_re html = None.
Proof.
  intros H. destruct (Re.search Bot7.country_re html) as [m|] eqn:Es;
    [exfalso|reflexivity].
  unfold Bot7.account_section in H.
  do 5 report_step H.
  rewrite Es in H.
  change (Re.group Bot7.country_re m 1) with (@Raise (option (list N)) IndexError)
    in H.
  discriminate H.
Qed.

Lemma no_report_with_a_country_witness :
  Re.search Bot7.country_re (dq "{'isUserOnHold': false}") = None.
Proof.
  apply (no_report_with_a_country plain_fields (dq "{'isUserOnHold': false}")
           [str "Account Information:"; str "Plan status: Active"]).
  vm_compute. reflexivity.
Defined.

(** X27: when the body tells whether the user is on hold, a report
    built from it shows the plan status: active when the first such value
    is [false], on hold when it is [true]. *)
Theorem plan_status_line (L : Bot7.library) (html : list N)
    (section : list (list N)) (m : Re.rematch) :
  Re.search Bot7.hold_re html = Some m ->
  Bot7.account_section L html = Return section ->
  (Re.cap_get 1 (Re.m_caps m) = Some (str "false")
   /\ str "Plan status: Active" ∈ section)
  \/ (Re.cap_get 1 (Re.m_caps m) = Some (str "true")
      /\ str "Plan status: On Hold" ∈ section).
Proof.
  intros Hs H. pose proof (search_sound _ _ _ Hs) as Hm.
  apply hold_group in Hm.
  unfold Bot7.account_section in H.
  do 2 report_step H.
  assert (Hh : Bot7.field Bot7.hold_re html
                 (fun g => w ← Bot7.the_text g; mret (Bot7.capitalize w))
               = Return (match Re.cap_get 1 (Re.m_caps m) with
                         | Some w => Some (Bot7.capitalize w)
                         | None => None
                         end)
               \/ Re.cap_get 1 (Re.m_caps m) = None).
  { unfold Bot7.field. rewrite Hs.
    change (Re.group Bot7.hold_re m 1)
      with (Return (Re.cap_get 1 (Re.m_caps m))).
    destruct (Re.cap_get 1 (Re.m_caps m)); [left|right]; reflexivity. }
  destruct Hh as [Hh|Hh]; [|destruct Hm as [Hm|Hm]; congruence].
  rewrite Hh in H. cbn [mbind py_bind] in H.
  do 10 report_step H.
  cbn [mret py_ret] in H. injection H as <-.
  destruct Hm as [Hm|Hm]; rewrite Hm; [right|left]; (split; [reflexivity|]);
    find_line.
Qed.

Lemma plan_status_line_witness :
  (Re.cap_get 1 [(1%nat, str "false")] = Some (str "false")
   /\ str "Plan status: Active"
      ∈ [str "Account Information:"; str "Plan status: Active"])
  \/ (Re.cap_get 1 [(1%nat, str "false")] = Some (str "true")
      /\ str "Plan status: On Hold"
         ∈ [str "Account Information:"; str "Plan status: Active"]).
Proof.
  apply (plan_status_line plain_fields (dq "{'isUserOnHold': false}")
           [str "Account Information:"; str "Plan status: Active"]
           {| Re.m_text := dq "'isUserOnHold': false";
              Re.m_rest := str "}";
              Re.m_caps := [(1%nat, str "false")] |}).
  - vm_compute. reflexivity.
  - vm_compute. reflexivity.
Defined.
